(** * Chat backend: conversation store, message log and session handlers

    A shallow embedding of the Express/Mongoose chat backend:
    the Chat and User models, the AI gateway, and the chat and
    authentication controllers, followed by the properties checked
    against them.

    Conventions.
    - A JavaScript string is a [string]: each [ascii] is one UTF-16
      code unit in the range 0..255 (the Latin-1 block), so [length]
      is [.length], and [trim] / [toLowerCase] below are the
      ECMAScript functions on that range.
    - A [Date] is its millisecond count, a [Z].
    - The chats and the users collection are lists of documents in
      insertion order; handlers take the collection they work on and
      return it.  Of the indexes the unique ones are kept; ids the
      program generates are taken as fresh.  [updatedAt] and logging
      are left out.
    - What a handler reads from outside (clock, random message ids,
      fresh ObjectIds, the upstream HTTP exchange, the two library
      calls of bcryptjs and jsonwebtoken) enters as an argument.
    - Request fields are strings or absent. *)

From Stdlib Require Import String Ascii List ZArith NArith Lia Bool Arith.
From Stdlib Require Import Numbers.DecimalString Numbers.DecimalZ Numbers.DecimalPos.
From Stdlib Require Import Sorting.Sorted Sorting.Permutation.
Import ListNotations.

Open Scope string_scope.

(* ================================================================== *)
(** * JavaScript strings *)
(* ================================================================== *)

Module Js.

Definition inRange (lo hi : N) (c : ascii) : bool :=
  let n := N_of_ascii c in ((lo <=? n) && (n <=? hi))%N.

(** WhiteSpace and LineTerminator code points below 256:
    TAB, LF, VT, FF, CR, SP and NBSP.  [String.prototype.trim] and
    the regular-expression class [\s] use the same set. *)
Definition isWhiteSpace (c : ascii) : bool :=
  inRange 9 13 c || inRange 32 32 c || inRange 160 160 c.

Fixpoint trimStart (s : string) : string :=
  match s with
  | EmptyString => EmptyString
  | String c s' => if isWhiteSpace c then trimStart s' else s
  end.

Fixpoint trimEnd (s : string) : string :=
  match s with
  | EmptyString => EmptyString
  | String c s' =>
      match trimEnd s' with
      | EmptyString =>
          if isWhiteSpace c then EmptyString else String c EmptyString
      | String d r => String c (String d r)
      end
  end.

(** [s.trim()] *)
Definition trim (s : string) : string := trimEnd (trimStart s).

(** Upper-case letters of Latin-1: A-Z, and U+00C0..U+00DE but for
    the multiplication sign U+00D7; each lower-cases 32 further. *)
Definition isUpper (c : ascii) : bool :=
  inRange 65 90 c
  || (inRange 192 222 c && negb (inRange 215 215 c)).

Definition lowerChar (c : ascii) : ascii :=
  if isUpper c then ascii_of_N (N_of_ascii c + 32) else c.

(** [s.toLowerCase()] *)
Fixpoint toLowerCase (s : string) : string :=
  match s with
  | EmptyString => EmptyString
  | String c s' => String (lowerChar c) (toLowerCase s')
  end.

(** [s.split(sep)] for a one-character separator; never empty. *)
Fixpoint split (sep : ascii) (s : string) : list string :=
  match s with
  | EmptyString => [EmptyString]
  | String c s' =>
      if Ascii.eqb c sep then EmptyString :: split sep s'
      else match split sep s' with
           | [] => [String c EmptyString]
           | p :: ps => String c p :: ps
           end
  end.

Fixpoint forallb_string (p : ascii -> bool) (s : string) : bool :=
  match s with
  | EmptyString => true
  | String c s' => p c && forallb_string p s'
  end.

Definition isHexDigit (c : ascii) : bool :=
  inRange 48 57 c || inRange 97 102 c || inRange 65 70 c.

(** A truthy string: anything but the empty one. *)
Definition truthy (s : string) : bool :=
  match s with EmptyString => false | _ => true end.

(** [slice(0, end)] of an array; a negative [end] counts from the
    back. *)
Definition slice0 {A : Type} (l : list A) (end_ : Z) : list A :=
  let len := Z.of_nat (List.length l) in
  let k := if (end_ <? 0)%Z then Z.max (len + end_) 0
           else Z.min end_ len in
  firstn (Z.to_nat k) l.

(** [Array.prototype.sort(compareFn)]: the sort is stable, so with
    a consistent comparator its result is the one computed here:
    an element stays in front of every later element it does not
    compare greater than. *)
Section Sort.
Context {A : Type} (compareFn : A -> A -> Z).

Fixpoint insertSorted (x : A) (l : list A) : list A :=
  match l with
  | [] => [x]
  | y :: l' =>
      if (compareFn x y <=? 0)%Z then x :: l
      else y :: insertSorted x l'
  end.

Definition sort (l : list A) : list A :=
  fold_right insertSorted [] l.
End Sort.

(** Decimal rendering of an integer inside a template literal. *)
Definition numberToString (z : Z) : string :=
  NilZero.string_of_int (Z.to_int z).

(** What a handler can throw. *)
Inductive Error : Type :=
| ReferenceError (name : string)
| TypeError (message : string)
| ValidationError (message : string)
| CastError
| DuplicateKey
| OtherError (name message : string).

(** [error.name] *)
Definition errorName (e : Error) : string :=
  match e with
  | ReferenceError _ => "ReferenceError"
  | TypeError _ => "TypeError"
  | ValidationError _ => "ValidationError"
  | CastError => "CastError"
  | DuplicateKey => "MongoServerError"
  | OtherError name _ => name
  end.

(** [error.code === 11000] *)
Definition isDuplicateKey (e : Error) : bool :=
  match e with DuplicateKey => true | _ => false end.

Inductive Completion (A : Type) : Type :=
| Normal (a : A)
| Throw (e : Error).
Arguments Normal {A} a.
Arguments Throw {A} e.

End Js.

(* ================================================================== *)
(** * models/Chat.js *)
(* ================================================================== *)

Module ChatModel.
Import Js.

Inductive Sender : Type := user | ai.

Record Message : Type := mkMessage {
  content : string;
  sender : Sender;
  timestamp : Z;
  messageId : string
}.

(** A chat document.  [_id] and [userId] are ObjectIds in their
    canonical form, 24 lower-case hex digits. *)
Record Chat : Type := mkChat {
  _id : string;
  title : string;
  userId : string;
  messages : list Message;
  isActive : bool;
  lastMessageAt : Z;
  createdAt : Z
}.

(** A document held by a handler: its fields and Mongoose's [isNew]
    flag. *)
Record Doc : Type := mkDoc {
  fields : Chat;
  isNew : bool
}.

Definition setTitle (t : string) (c : Chat) : Chat :=
  mkChat (_id c) t (userId c) (messages c) (isActive c)
         (lastMessageAt c) (createdAt c).
Definition setMessages (ms : list Message) (c : Chat) : Chat :=
  mkChat (_id c) (title c) (userId c) ms (isActive c)
         (lastMessageAt c) (createdAt c).
Definition setIsActive (b : bool) (c : Chat) : Chat :=
  mkChat (_id c) (title c) (userId c) (messages c) b
         (lastMessageAt c) (createdAt c).
Definition setLastMessageAt (t : Z) (c : Chat) : Chat :=
  mkChat (_id c) (title c) (userId c) (messages c) (isActive c)
         t (createdAt c).
Definition setCreatedAt (t : Z) (c : Chat) : Chat :=
  mkChat (_id c) (title c) (userId c) (messages c) (isActive c)
         (lastMessageAt c) t.

Definition onFields (f : Chat -> Chat) (d : Doc) : Doc :=
  mkDoc (f (fields d)) (isNew d).

(** [new Chat({ userId, title, messages: [], isActive: true })]:
    the [trim] setter of [title] runs on assignment; [lastMessageAt]
    takes its default, the clock. *)
Definition newChat (oid owner ttl : string) (now : Z) : Doc :=
  mkDoc (mkChat oid (trim ttl) owner [] true now now) true.

(** The three outside reads of one [addMessage] call: the message id
    built from [Date.now()] and [Math.random()], the [new Date()] of
    the message and the [new Date()] of [lastMessageAt]. *)
Record Stamp : Type := mkStamp {
  stampId : string;
  stampTime : Z;
  stampLast : Z
}.

(** [chatSchema.methods.addMessage]: the pushed object is cast to a
    message subdocument, which trims [content]. *)
Definition addMessage (text : string) (who : Sender) (st : Stamp)
    (d : Doc) : Doc :=
  let newMessage := mkMessage (trim text) who (stampTime st) (stampId st) in
  onFields (fun c =>
    setLastMessageAt (stampLast st)
      (setMessages (messages c ++ [newMessage]) c)) d.

(** The comparator of [getRecentMessages]:
    [(a, b) => new Date(b.timestamp) - new Date(a.timestamp)]. *)
Definition newestFirst (a b : Message) : Z := timestamp b - timestamp a.

(** [chatSchema.methods.getRecentMessages]: [sort] reorders the
    document's own array; [slice] copies, [reverse] turns the copy
    round.  Returns the document as left behind and the result. *)
Definition getRecentMessages (limit : Z) (d : Doc) : Doc * list Message :=
  let sorted := sort newestFirst (messages (fields d)) in
  (onFields (setMessages sorted) d, rev (slice0 sorted limit)).

(** [chatSchema.methods.getMessageCount] *)
Definition getMessageCount (d : Doc) : nat :=
  List.length (messages (fields d)).

(** Schema validation run by [save]. *)
Definition validMessage (m : Message) : bool :=
  truthy (content m)
  && (1 <=? String.length (content m))%nat
  && (String.length (content m) <=? 5000)%nat.

Definition validChat (c : Chat) : bool :=
  truthy (title c)
  && (String.length (title c) <=? 100)%nat
  && forallb validMessage (messages c).

Definition validationMessage (c : Chat) : string :=
  if negb (truthy (title c)) then "Chat title is required"
  else if negb (String.length (title c) <=? 100)%nat
       then "Chat title cannot exceed 100 characters"
       else "Message validation failed".

(** [chatSchema.pre('save')] *)
Definition titleFrom (text : string) : string :=
  substring 0 50 text ++ (if (50 <? String.length text)%nat then "..." else EmptyString).

Definition preSave (d : Doc) : Doc :=
  let c := fields d in
  let c1 := match rev (messages c) with
            | lastMessage :: _ => setLastMessageAt (timestamp lastMessage) c
            | [] => c
            end in
  let c2 := if isNew d then
              match messages c1 with
              | firstMessage :: _ =>
                  if truthy (content firstMessage)
                  then setTitle (trim (titleFrom (content firstMessage))) c1
                  else c1
              | [] => c1
              end
            else c1 in
  mkDoc c2 (isNew d).

(** The chats collection, in insertion order. *)
Definition Collection : Type := list Chat.

Fixpoint replaceById (c : Chat) (col : Collection) : Collection :=
  match col with
  | [] => []
  | x :: col' =>
      if String.eqb (_id x) (_id c) then c :: col'
      else x :: replaceById c col'
  end.

(** [messageSchema] declares [messageId] with [unique: true], which
    is a unique index of the chats collection on
    [messages.messageId].  The ids the program generates (ObjectIds,
    message ids) are taken as fresh; a document whose log is empty
    has the key null in that index, and the store refuses a second
    one with error 11000. *)
Definition emptyLog (c : Chat) : bool :=
  match messages c with [] => true | _ :: _ => false end.

Definition otherEmptyLog (c : Chat) (col : Collection) : bool :=
  existsb (fun x => negb (String.eqb (_id x) (_id c)) && emptyLog x) col.

(** [doc.save()]: validate, run the pre-save hook, then insert a new
    document (stamping [createdAt]) or overwrite the stored one. *)
Definition save (now : Z) (d : Doc) (col : Collection)
    : Completion Doc * Collection :=
  if validChat (fields d) then
    let d1 := preSave d in
    if isNew d1 then
      let c := setCreatedAt now (fields d1) in
      if emptyLog c && existsb emptyLog col then (Throw DuplicateKey, col)
      else (Normal (mkDoc c false), (col ++ [c])%list)
    else
      if emptyLog (fields d1) && otherEmptyLog (fields d1) col
      then (Throw DuplicateKey, col)
      else (Normal d1, replaceById (fields d1) col)
  else (Throw (ValidationError (validationMessage (fields d))), col).

(** [/^[0-9a-fA-F]{24}$/.test(s)], the test [sendMessage] makes, and
    the cast of such a string to an ObjectId, which reads the digits
    without regard to case. *)
Definition isValidObjectId (s : string) : bool :=
  (String.length s =? 24)%nat && forallb_string isHexDigit s.

Definition castObjectId (s : string) : option string :=
  if isValidObjectId s then Some (toLowerCase s) else None.

(** [Chat.findOne({ _id, userId })] with both already cast. *)
Definition findOne (oid owner : string) (col : Collection) : option Chat :=
  find (fun c => String.eqb (_id c) oid && String.eqb (userId c) owner) col.

(** [Chat.findOneAndUpdate({ _id, userId }, update, { new: true })]:
    the first match is updated and returned. *)
Fixpoint findOneAndUpdate (oid owner : string) (update : Chat -> Chat)
    (col : Collection) : option Chat * Collection :=
  match col with
  | [] => (None, [])
  | c :: col' =>
      if String.eqb (_id c) oid && String.eqb (userId c) owner
      then (Some (update c), update c :: col')
      else let (r, col'') := findOneAndUpdate oid owner update col' in
           (r, c :: col'')
  end.

(** The virtual [duration]; [now] is the [new Date()] of the getter
    and [created] the document's [createdAt], which a document has
    from its first save on.  [%] takes the sign of the dividend. *)
Definition duration (now : Z) (created : option Z) : string :=
  match created with
  | None => "Unknown"
  | Some createdAt =>
      let duration := (now - createdAt)%Z in
      let days := (duration / (1000 * 60 * 60 * 24))%Z in
      let hours :=
        (Z.rem duration (1000 * 60 * 60 * 24) / (1000 * 60 * 60))%Z in
      if (0 <? days)%Z then
        numberToString days ++ " day" ++ (if (1 <? days)%Z then "s" else EmptyString)
        ++ " ago"
      else if (0 <? hours)%Z then
        numberToString hours ++ " hour"
        ++ (if (1 <? hours)%Z then "s" else EmptyString) ++ " ago"
      else "Just now"
  end.

End ChatModel.

(* ================================================================== *)
(** * models/User.js *)
(* ================================================================== *)

Module UserModel.
Import Js.

Record User : Type := mkUser {
  _id : string;
  name : string;
  email : string;
  password : string
}.

(** The two calls made into bcryptjs.  [hash password rounds salt]
    stands for [bcrypt.hash(password, rounds)] with the salt the
    library draws; [compare candidate stored] for [bcrypt.compare]. *)
Class Bcrypt : Type := {
  hash : string -> nat -> string -> string;
  compare : string -> string -> bool
}.

Definition notSpaceNorAt (c : ascii) : bool :=
  negb (isWhiteSpace c) && negb (Ascii.eqb c "@").

Fixpoint hasDotBeforeLast (s : string) : bool :=
  match s with
  | String c ((String _ _) as s') => Ascii.eqb c "." || hasDotBeforeLast s'
  | _ => false
  end.

(** [/^[^\s@]+@[^\s@]+\.[^\s@]+$/.test(s)]: one [@], no white space,
    a non-empty local part, and a dot inside the domain with
    something on both sides. *)
Definition emailRegex (s : string) : bool :=
  match split "@" s with
  | [localPart; domain] =>
      truthy localPart
      && forallb_string notSpaceNorAt localPart
      && forallb_string notSpaceNorAt domain
      && match domain with
         | String _ rest => hasDotBeforeLast rest
         | EmptyString => false
         end
  | _ => false
  end.

(** The schema setters of [name] and [email]. *)
Definition setName (s : string) : string := trim s.
Definition setEmail (s : string) : string := toLowerCase (trim s).

(** [new User({ name, email, password })] *)
Definition newUser (oid n e p : string) : User :=
  mkUser oid (setName n) (setEmail e) p.

Definition validUser (u : User) : bool :=
  truthy (name u)
  && (2 <=? String.length (name u))%nat
  && (String.length (name u) <=? 50)%nat
  && truthy (email u)
  && emailRegex (email u)
  && truthy (password u)
  && (6 <=? String.length (password u))%nat.

Definition validationErrors (u : User) : list string :=
  ((if truthy (name u) then
      if (2 <=? String.length (name u))%nat then
        if (String.length (name u) <=? 50)%nat then []
        else ["Name cannot exceed 50 characters"]
      else ["Name must be at least 2 characters long"]
    else ["Name is required"])
   ++ (if truthy (email u) then
         if emailRegex (email u) then []
         else ["Please provide a valid email address"]
       else ["Email is required"])
   ++ (if truthy (password u) then
         if (6 <=? String.length (password u))%nat then []
         else ["Password must be at least 6 characters long"]
       else ["Password is required"]))%list.

Definition Collection : Type := list User.

Section WithBcrypt.
Context {B : Bcrypt}.

(** [userSchema.pre('save')] on a document whose password was set. *)
Definition preSave (salt : string) (u : User) : User :=
  mkUser (_id u) (name u) (email u) (hash (password u) 12 salt).

(** [newUser.save()] of a new document: validation, the hashing
    hook, then the insert under the unique index on [email]. *)
Definition save (salt : string) (u : User) (col : Collection)
    : Completion User * Collection :=
  if validUser u then
    let u1 := preSave salt u in
    if existsb (fun x => String.eqb (email x) (email u1)) col
    then (Throw DuplicateKey, col)
    else (Normal u1, (col ++ [u1])%list)
  else (Throw (ValidationError "User validation failed"), col).

(** [userSchema.methods.comparePassword] *)
Definition comparePassword (u : User) (candidatePassword : string) : bool :=
  compare candidatePassword (password u).
End WithBcrypt.

(** [userSchema.statics.findByEmail]: the filter value is lower-cased
    by the method and then cast through the setters of [email]. *)
Definition findByEmail (e : string) (col : Collection) : option User :=
  let key := setEmail (toLowerCase e) in
  find (fun u => String.eqb (email u) key) col.

(** [User.findById(id)]; throws when the id does not cast. *)
Definition findById (oid : string) (col : Collection)
    : Completion (option User) :=
  match ChatModel.castObjectId oid with
  | Some k => Normal (find (fun u => String.eqb (_id u) k) col)
  | None => Throw CastError
  end.

(** [userSchema.methods.getPublicProfile] *)
Record Profile : Type := mkProfile {
  profileId : string;
  profileName : string;
  profileEmail : string
}.

Definition getPublicProfile (u : User) : Profile :=
  mkProfile (_id u) (name u) (email u).

End UserModel.

(* ================================================================== *)
(** * services/aiService.js *)
(* ================================================================== *)

Module AiService.
Import Js.

(** [process.env.GEMINI_API_KEY]; [None] when unset. *)
Record Config : Type := mkConfig {
  GEMINI_API_KEY : option string
}.

Record Check : Type := mkCheck {
  checkSuccess : bool;
  checkMessage : string
}.

(** [validateGeminiConfig], also exported as
    [validateOpenRouterConfig].  [GEMINI_MODEL] has a default and is
    never empty, so its branch cannot be taken. *)
Definition validateGeminiConfig (cfg : Config) : Check :=
  match GEMINI_API_KEY cfg with
  | None => mkCheck false "GEMINI_API_KEY is not set or is using placeholder value. Please set a real API key from https://aistudio.google.com/app/apikey"
  | Some k =>
      if negb (truthy k) || String.eqb k "your-gemini-api-key-here"
      then mkCheck false "GEMINI_API_KEY is not set or is using placeholder value. Please set a real API key from https://aistudio.google.com/app/apikey"
      else mkCheck true "Gemini configuration is valid"
  end.

(** What came back from the upstream call. *)
Inductive Candidates : Type :=
| NoCandidate                (* no [candidates], none, or no [content] *)
| NoText (thrown : string)   (* [content.parts[0].text] is no string:
                                reading it or its prefix throws *)
| Text (text : string).

Inductive JsonBody : Type :=
| Unparsable (thrown : string)
| Parsed (stringified : string) (shape : Candidates).

Inductive Exchange : Type :=
| Rejected (thrown : string)              (* [fetch] itself failed *)
| Responded (status : Z) (body : JsonBody).

Definition ok (status : Z) : bool :=
  ((200 <=? status) && (status <=? 299))%Z.

Record AiResponse : Type := mkAiResponse {
  success : bool;
  content : string;
  error : option string
}.

Definition lastN {A : Type} (n : nat) (l : list A) : list A :=
  skipn (List.length l - n) l.

Definition newline : string := String (ascii_of_nat 10) EmptyString.

(** The text sent upstream: the last ten log entries, then the user
    message once more. *)
Definition conversationText (userMessage : string)
    (chatHistory : list ChatModel.Message) : string :=
  fold_left
    (fun acc msg =>
       acc ++ (match ChatModel.sender msg with
               | ChatModel.user => "User"
               | ChatModel.ai => "Assistant"
               end) ++ ": " ++ ChatModel.content msg ++ newline)
    (lastN 10 chatHistory) EmptyString
  ++ "User: " ++ trim userMessage.

Definition unavailable : string :=
  "AI service is temporarily unavailable. Please try again later.".

(** [generateAIResponse]; [fetch] maps the request text to the
    exchange that follows. *)
Definition generateAIResponse (cfg : Config) (fetch : string -> Exchange)
    (userMessage : string) (chatHistory : list ChatModel.Message)
    : AiResponse :=
  let configCheck := validateGeminiConfig cfg in
  if negb (checkSuccess configCheck) then
    mkAiResponse false
      "AI service is not configured. Please set up your Gemini API key in the .env file."
      (Some (checkMessage configCheck))
  else if negb (truthy userMessage)
          || (String.length (trim userMessage) =? 0)%nat then
    mkAiResponse false "Please provide a valid message."
      (Some "Empty message provided")
  else
    match fetch (conversationText userMessage chatHistory) with
    | Rejected thrown => mkAiResponse false unavailable (Some thrown)
    | Responded status body =>
        if negb (ok status) then
          let errorData := match body with
                           | Unparsable _ => "{}"
                           | Parsed stringified _ => stringified
                           end in
          if (status =? 401)%Z then
            mkAiResponse false
              "AI service authentication failed. Please check API key configuration."
              (Some "Invalid API key")
          else if (status =? 429)%Z then
            mkAiResponse false
              "AI service is currently busy. Please try again in a moment."
              (Some "Rate limit exceeded")
          else if (500 <=? status)%Z then
            mkAiResponse false unavailable (Some "Server error")
          else
            mkAiResponse false "Failed to get AI response. Please try again."
              (Some ("API error: " ++ numberToString status ++ " - " ++ errorData))
        else
          match body with
          | Unparsable thrown => mkAiResponse false unavailable (Some thrown)
          | Parsed _ NoCandidate =>
              mkAiResponse false
                "AI service returned an unexpected response format."
                (Some "Invalid response format")
          | Parsed _ (NoText thrown) =>
              mkAiResponse false unavailable (Some thrown)
          | Parsed _ (Text text) => mkAiResponse true text None
          end
    end.

End AiService.

(* ================================================================== *)
(** * HTTP responses *)
(* ================================================================== *)

Module Http.

Record ChatSummary : Type := mkChatSummary {
  summaryId : string;
  summaryTitle : string;
  summaryLastMessageAt : Z;
  summaryCreatedAt : Z
}.

Record Pagination : Type := mkPagination {
  currentPage : Z;
  totalPages : Z;
  totalChats : Z;
  hasNextPage : bool;
  hasPrevPage : bool;
  limit : Z
}.

Record ChatInfo : Type := mkChatInfo {
  infoId : string;
  infoTitle : string;
  infoCreatedAt : Z;
  infoLastMessageAt : Z;
  infoMessageCount : nat;
  infoIsActive : bool
}.

(** The JSON bodies the handlers send.  [Failure] and
    [ValidationFailure] carry [success: false], the others
    [success: true]. *)
Inductive Body : Type :=
| Failure (message : string)
| ValidationFailure (message : string) (errors : list string)
| MessageSent (chatId : string) (messages : list ChatModel.Message)
    (messageCount : nat) (aiServiceStatus : string)
    (aiError : option string)
| ChatHistory (chats : list ChatSummary) (pagination : Pagination)
| ChatRetrieved (chat : ChatInfo) (messages : list ChatModel.Message)
| ChatCreated (id title : string) (createdAt : Z) (messageCount : nat)
    (isActive : bool)
| ChatDeleted (chatId : string)
| TitleUpdated (id title : string)
| Authenticated (user : UserModel.Profile) (token : string).

Record Response : Type := mkResponse {
  status : Z;
  body : Body
}.

Definition success (r : Response) : bool :=
  match body r with
  | Failure _ | ValidationFailure _ _ => false
  | _ => true
  end.

End Http.

(* ================================================================== *)
(** * controllers/chatController.js *)
(* ================================================================== *)

Module ChatController.
Import Js ChatModel Http.

(** Handlers run against the chats collection and may throw. *)
Definition M (A : Type) : Type := Collection -> Completion A * Collection.

Definition ret {A : Type} (a : A) : M A := fun col => (Normal a, col).

Definition throw {A : Type} (e : Error) : M A := fun col => (Throw e, col).

Definition bind {A B : Type} (m : M A) (k : A -> M B) : M B :=
  fun col =>
    match m col with
    | (Normal a, col') => k a col'
    | (Throw e, col') => (Throw e, col')
    end.

Notation "x <- m ;; k" := (bind m (fun x => k))
  (at level 61, m at next level, right associativity).

(** [try { ... } catch (error) { ... }] around a handler body. *)
Definition tryCatch (body : M Response) (handler : Error -> Response)
    : Collection -> Response * Collection :=
  fun col =>
    match body col with
    | (Normal r, col') => (r, col')
    | (Throw e, col') => (handler e, col')
    end.

Definition saveM (now : Z) (d : Doc) : M Doc := save now d.

Definition findOneM (oid owner : string) : M (option Chat) :=
  fun col => (Normal (findOne oid owner col), col).

(** What one [sendMessage] request reads from outside. *)
Record SendEnv : Type := mkSendEnv {
  newId : string;               (* ObjectId of a chat it constructs *)
  constructedAt : Z;            (* default [lastMessageAt] of that chat *)
  userStamp : Stamp;
  insertedAt : Z;               (* [createdAt] of that chat *)
  config : AiService.Config;
  fetch : string -> AiService.Exchange;
  aiStamp : Stamp
}.

(** [chatSchema.statics.createNew] *)
Definition createNew (env : SendEnv) (owner firstMessage : string)
    (who : Sender) : M Doc :=
  let newChat := newChat (newId env) owner (titleFrom firstMessage)
                         (constructedAt env) in
  saveM (insertedAt env) (addMessage firstMessage who (userStamp env) newChat).

(** The first half of [sendMessage]: the chat the message goes to,
    with the user message appended and saved, or the 404 sent
    instead.  In the branch for a [chatId] that is no ObjectId the
    object literal handed to [new Chat] starts with
    [userId: user._id]; [user] is bound nowhere in the module, so
    reading it throws before anything is built. *)
Definition resolveChat (env : SendEnv) (reqUser : UserModel.User)
    (message : string) (chatId : option string) : M (Response + Doc) :=
  let userId := UserModel._id reqUser in
  match chatId with
  | Some chatId =>
      if truthy chatId then
        if negb (isValidObjectId chatId) then
          throw (ReferenceError "user")
        else
          found <- findOneM (toLowerCase chatId) userId ;;
          match found with
          | None => ret (inl (mkResponse 404 (Failure "Chat not found or access denied")))
          | Some c =>
              d <- saveM (insertedAt env)
                     (addMessage (trim message) user (userStamp env)
                                 (mkDoc c false)) ;;
              ret (inr d)
          end
      else
        d <- createNew env userId (trim message) user ;; ret (inr d)
  | None =>
      d <- createNew env userId (trim message) user ;; ret (inr d)
  end.

(** [sendMessage] *)
Definition sendMessage (env : SendEnv) (reqUser : UserModel.User)
    (message chatId : option string) : Collection -> Response * Collection :=
  tryCatch
    (match message with
     | None => ret (mkResponse 400 (Failure "Message content is required"))
     | Some message =>
         if negb (truthy message)
            || (String.length (trim message) =? 0)%nat then
           ret (mkResponse 400 (Failure "Message content is required"))
         else if (5000 <? String.length message)%nat then
           ret (mkResponse 400 (Failure "Message cannot exceed 5000 characters"))
         else
           resolved <- resolveChat env reqUser message chatId ;;
           match resolved with
           | inl notFound => ret notFound
           | inr chat =>
               let aiResponse :=
                 AiService.generateAIResponse (config env) (fetch env)
                   message (messages (fields chat)) in
               chat <- saveM (insertedAt env)
                         (addMessage (AiService.content aiResponse) ai
                                     (aiStamp env) chat) ;;
               let (chat, recentMessages) := getRecentMessages 20 chat in
               ret (mkResponse 200
                      (MessageSent (_id (fields chat)) recentMessages
                         (getMessageCount chat)
                         (if AiService.success aiResponse
                          then "success" else "error")
                         (if AiService.success aiResponse
                          then None else AiService.error aiResponse)))
           end
     end)
    (fun _ => mkResponse 500
                (Failure "Internal server error while sending message")).

(** [parseInt(q) || d], on the number [parseInt] gave ([None] for
    [NaN]). *)
Definition orDefault (q : option Z) (d : Z) : Z :=
  match q with
  | Some z => if (z =? 0)%Z then d else z
  | None => d
  end.

(** [Math.ceil(a / b)] for integers, [b] not zero. *)
Definition ceilDiv (a b : Z) : Z := (- ((- a) / b))%Z.

Definition ownedActive (owner : string) (c : Chat) : bool :=
  String.eqb (userId c) owner && isActive c.

Definition lastMessageDesc (a b : Chat) : Z :=
  (lastMessageAt b - lastMessageAt a)%Z.

Definition select (c : Chat) : ChatSummary :=
  mkChatSummary (_id c) (title c) (lastMessageAt c) (createdAt c).

(** [Chat.find({ userId, isActive: true }).sort({ lastMessageAt: -1 })
    .skip(skip).limit(limit).select(...)].  The server refuses a
    negative skip; the driver sends the absolute value of a negative
    limit.  Documents with equal [lastMessageAt] keep their
    insertion order. *)
Definition findPage (owner : string) (skip lim : Z) : M (list ChatSummary) :=
  fun col =>
    if (skip <? 0)%Z then
      (Throw (OtherError "MongoServerError" "skip value must be non-negative"), col)
    else
      (Normal (map select
                 (firstn (Z.to_nat (Z.abs lim))
                    (skipn (Z.to_nat skip)
                       (sort lastMessageDesc (filter (ownedActive owner) col))))),
       col).

Definition countDocuments (owner : string) : M Z :=
  fun col => (Normal (Z.of_nat (List.length (filter (ownedActive owner) col))), col).

(** [getChatHistory] *)
Definition getChatHistory (reqUser : UserModel.User)
    (queryLimit queryPage : option Z) : Collection -> Response * Collection :=
  tryCatch
    (let userId := UserModel._id reqUser in
     let limit := orDefault queryLimit 20 in
     let page := orDefault queryPage 1 in
     let skip := ((page - 1) * limit)%Z in
     if (100 <? limit)%Z then
       ret (mkResponse 400 (Failure "Limit cannot exceed 100"))
     else
       chats <- findPage userId skip limit ;;
       totalChats <- countDocuments userId ;;
       let totalPages := ceilDiv totalChats limit in
       let hasNextPage := (page <? totalPages)%Z in
       let hasPrevPage := (1 <? page)%Z in
       ret (mkResponse 200
              (ChatHistory chats
                 (mkPagination page totalPages totalChats
                               hasNextPage hasPrevPage limit))))
    (fun _ => mkResponse 500
                (Failure "Internal server error while retrieving chat history")).

(** A [chatId] taken from the path is cast by the query. *)
Definition castId (chatId : string) : M string :=
  match castObjectId chatId with
  | Some oid => ret oid
  | None => throw CastError
  end.

Definition isCastError (e : Error) : bool :=
  match e with CastError => true | _ => false end.

(** [getChat] *)
Definition getChat (reqUser : UserModel.User) (chatId : string)
    (queryLimit : option Z) : Collection -> Response * Collection :=
  tryCatch
    (let userId := UserModel._id reqUser in
     let messageLimit := orDefault queryLimit 50 in
     oid <- castId chatId ;;
     found <- findOneM oid userId ;;
     match found with
     | None => ret (mkResponse 404 (Failure "Chat not found or access denied"))
     | Some c =>
         let (chat, messages) := getRecentMessages messageLimit (mkDoc c false) in
         ret (mkResponse 200
                (ChatRetrieved
                   (mkChatInfo (_id (fields chat)) (title (fields chat))
                      (createdAt (fields chat)) (lastMessageAt (fields chat))
                      (getMessageCount chat) (isActive (fields chat)))
                   messages))
     end)
    (fun e => if isCastError e
              then mkResponse 400 (Failure "Invalid chat ID format")
              else mkResponse 500
                     (Failure "Internal server error while retrieving chat")).

(** What one [createNewChat] request reads from outside. *)
Record NewChatEnv : Type := mkNewChatEnv {
  freshId : string;
  builtAt : Z;
  storedAt : Z
}.

(** [createNewChat] *)
Definition createNewChat (env : NewChatEnv) (reqUser : UserModel.User)
    (title : option string) : Collection -> Response * Collection :=
  tryCatch
    (let userId := UserModel._id reqUser in
     let given := match title with
                  | Some t => if truthy t then t else "New Chat"
                  | None => "New Chat"
                  end in
     newChat <- saveM (storedAt env)
                  (newChat (freshId env) userId given (builtAt env)) ;;
     ret (mkResponse 201
            (ChatCreated (_id (fields newChat)) (ChatModel.title (fields newChat))
               (createdAt (fields newChat)) 0 (isActive (fields newChat)))))
    (fun _ => mkResponse 500
                (Failure "Internal server error while creating new chat")).

Definition findOneAndUpdateM (oid owner : string) (update : Chat -> Chat)
    : M (option Chat) :=
  fun col => let (r, col') := findOneAndUpdate oid owner update col in
             (Normal r, col').

(** [deleteChat] *)
Definition deleteChat (reqUser : UserModel.User) (chatId : string)
    : Collection -> Response * Collection :=
  tryCatch
    (let userId := UserModel._id reqUser in
     oid <- castId chatId ;;
     chat <- findOneAndUpdateM oid userId (setIsActive false) ;;
     match chat with
     | None => ret (mkResponse 404 (Failure "Chat not found or access denied"))
     | Some chat => ret (mkResponse 200 (ChatDeleted (_id chat)))
     end)
    (fun e => if isCastError e
              then mkResponse 400 (Failure "Invalid chat ID format")
              else mkResponse 500
                     (Failure "Internal server error while deleting chat")).

(** [updateChatTitle] *)
Definition updateChatTitle (reqUser : UserModel.User) (chatId : string)
    (title : option string) : Collection -> Response * Collection :=
  tryCatch
    (let userId := UserModel._id reqUser in
     match title with
     | None => ret (mkResponse 400 (Failure "Chat title is required"))
     | Some title =>
         if negb (truthy title) || (String.length (trim title) =? 0)%nat then
           ret (mkResponse 400 (Failure "Chat title is required"))
         else if (100 <? String.length title)%nat then
           ret (mkResponse 400 (Failure "Chat title cannot exceed 100 characters"))
         else
           oid <- castId chatId ;;
           chat <- findOneAndUpdateM oid userId (setTitle (trim title)) ;;
           match chat with
           | None => ret (mkResponse 404 (Failure "Chat not found or access denied"))
           | Some chat =>
               ret (mkResponse 200 (TitleUpdated (_id chat) (ChatModel.title chat)))
           end
     end)
    (fun e => if isCastError e
              then mkResponse 400 (Failure "Invalid chat ID format")
              else mkResponse 500
                     (Failure "Internal server error while updating chat title")).

End ChatController.

(* ================================================================== *)
(** * controllers/authController.js *)
(* ================================================================== *)

Module JsonWebToken.
Import Js.

Record Payload : Type := mkPayload {
  id : string;
  email : string;
  name : string
}.

(** The two calls made into jsonwebtoken.
    [sign payload secret expiresIn now] is [jwt.sign] called at time
    [now]; [verify token secret now] is [jwt.verify], which returns
    the decoded payload or throws an error whose [name] is
    [JsonWebTokenError] or [TokenExpiredError]. *)
Class Lib : Type := {
  sign : Payload -> string -> string -> Z -> string;
  verify : string -> string -> Z -> Completion Payload
}.

End JsonWebToken.

Module AuthController.
Import Js Http.

(** [JWT_SECRET] and [JWT_EXPIRES_IN], read once from the
    environment, with their defaults. *)
Record Config : Type := mkConfig {
  JWT_SECRET : string;
  JWT_EXPIRES_IN : string
}.

Definition defaultConfig : Config :=
  mkConfig "your-super-secret-jwt-key-change-in-production" "7d".

(** The outcome of a middleware: a response, or [next()] with
    [req.user] set. *)
Inductive Middleware : Type :=
| Respond (r : Response)
| Next (reqUser : UserModel.User).

Record SignupEnv : Type := mkSignupEnv {
  newId : string;     (* ObjectId of the new user *)
  salt : string;      (* salt drawn by [bcrypt.hash] *)
  issuedAt : Z        (* clock at [jwt.sign] *)
}.

Section WithLibraries.
Context {B : UserModel.Bcrypt} {J : JsonWebToken.Lib}.
Variable cfg : Config.

(** [generateToken] *)
Definition generateToken (now : Z) (u : UserModel.User) : string :=
  JsonWebToken.sign
    (JsonWebToken.mkPayload (UserModel._id u) (UserModel.email u)
                            (UserModel.name u))
    (JWT_SECRET cfg) (JWT_EXPIRES_IN cfg) now.

Definition present (field : option string) : option string :=
  match field with
  | Some s => if truthy s then Some s else None
  | None => None
  end.

(** [signup] *)
Definition signup (env : SignupEnv) (name email password : option string)
    (col : UserModel.Collection) : Response * UserModel.Collection :=
  match present name, present email, present password with
  | Some name, Some email, Some password =>
      if negb (UserModel.emailRegex email) then
        (mkResponse 400 (Failure "Please provide a valid email address"), col)
      else if (String.length password <? 6)%nat then
        (mkResponse 400 (Failure "Password must be at least 6 characters long"), col)
      else
        match UserModel.findByEmail email col with
        | Some _ =>
            (mkResponse 409 (Failure "User with this email already exists"), col)
        | None =>
            let newUser := UserModel.newUser (newId env) (trim name)
                             (trim (toLowerCase email)) password in
            match UserModel.save (salt env) newUser col with
            | (Normal newUser, col') =>
                let token := generateToken (issuedAt env) newUser in
                (mkResponse 201
                   (Authenticated (UserModel.getPublicProfile newUser) token),
                 col')
            | (Throw e, col') =>
                if isDuplicateKey e then
                  (mkResponse 409 (Failure "User with this email already exists"), col')
                else if String.eqb (errorName e) "ValidationError" then
                  (mkResponse 400
                     (ValidationFailure "Validation error"
                        (UserModel.validationErrors newUser)), col')
                else
                  (mkResponse 500
                     (Failure "Internal server error during registration"), col')
            end
        end
  | _, _, _ =>
      (mkResponse 400 (Failure "Please provide name, email, and password"), col)
  end.

(** [login]; [now] is the clock at [jwt.sign]. *)
Definition login (now : Z) (email password : option string)
    (col : UserModel.Collection) : Response :=
  match present email, present password with
  | Some email, Some password =>
      match UserModel.findByEmail email col with
      | None => mkResponse 401 (Failure "Invalid email or password")
      | Some u =>
          if negb (UserModel.comparePassword u password) then
            mkResponse 401 (Failure "Invalid email or password")
          else
            mkResponse 200
              (Authenticated (UserModel.getPublicProfile u)
                             (generateToken now u))
      end
  | _, _ => mkResponse 400 (Failure "Please provide email and password")
  end.

(** [authHeader && authHeader.split(' ')[1]] *)
Definition bearerToken (authorization : option string) : option string :=
  match authorization with
  | None => None
  | Some authHeader =>
      if truthy authHeader then nth_error (split " " authHeader) 1
      else Some authHeader
  end.

(** The [catch] block of [authenticateToken]. *)
Definition tokenFailure (e : Error) : Response :=
  if String.eqb (errorName e) "JsonWebTokenError" then
    mkResponse 401 (Failure "Invalid token")
  else if String.eqb (errorName e) "TokenExpiredError" then
    mkResponse 401 (Failure "Token expired")
  else mkResponse 500 (Failure "Token verification failed").

(** [authenticateToken]; [now] is the clock at [jwt.verify]. *)
Definition authenticateToken (now : Z) (authorization : option string)
    (col : UserModel.Collection) : Middleware :=
  match present (bearerToken authorization) with
  | None => Respond (mkResponse 401 (Failure "Access token required"))
  | Some token =>
      let tokenParts := split "." token in
      if negb (List.length tokenParts =? 3)%nat then
        Respond (mkResponse 401 (Failure "Invalid token format"))
      else
        match JsonWebToken.verify token (JWT_SECRET cfg) now with
        | Throw e => Respond (tokenFailure e)
        | Normal decoded =>
            match UserModel.findById (JsonWebToken.id decoded) col with
            | Throw e => Respond (tokenFailure e)
            | Normal None =>
                Respond (mkResponse 401 (Failure "Invalid token - user not found"))
            | Normal (Some u) => Next u
            end
        end
  end.
End WithLibraries.

End AuthController.

(* ================================================================== *)
(** * routes/chatRoutes.js *)
(* ================================================================== *)

Module ChatRoutes.
Import Js Http AuthController.

(** The route Express matched, with what the handler reads from the
    path, the query and the body. *)
Inductive Route : Type :=
| PostMessage (message chatId : option string)
| GetHistory (queryLimit queryPage : option Z)
| GetChat (chatId : string) (queryLimit : option Z)
| PostNew (title : option string)
| DeleteChat (chatId : string)
| PutTitle (chatId : string) (title : option string).

(** What the handlers of one request read from outside. *)
Record Env : Type := mkEnv {
  clock : Z;                          (* at [jwt.verify] *)
  sendEnv : ChatController.SendEnv;
  newChatEnv : ChatController.NewChatEnv
}.

Definition handler (env : Env) (route : Route) (reqUser : UserModel.User)
    : ChatModel.Collection -> Response * ChatModel.Collection :=
  match route with
  | PostMessage message chatId =>
      ChatController.sendMessage (sendEnv env) reqUser message chatId
  | GetHistory queryLimit queryPage =>
      ChatController.getChatHistory reqUser queryLimit queryPage
  | GetChat chatId queryLimit =>
      ChatController.getChat reqUser chatId queryLimit
  | PostNew title =>
      ChatController.createNewChat (newChatEnv env) reqUser title
  | DeleteChat chatId => ChatController.deleteChat reqUser chatId
  | PutTitle chatId title =>
      ChatController.updateChatTitle reqUser chatId title
  end.

Section WithLibrary.
Context {J : JsonWebToken.Lib}.
Variable cfg : Config.

(** [router.use(authenticateToken)] and then the route: the handler
    runs only after the middleware called [next()], with the
    [req.user] it set. *)
Definition router (env : Env) (authorization : option string)
    (route : Route) (users : UserModel.Collection)
    (chats : ChatModel.Collection) : Response * ChatModel.Collection :=
  match authenticateToken cfg (clock env) authorization users with
  | Respond r => (r, chats)
  | Next reqUser => handler env route reqUser chats
  end.
End WithLibrary.

End ChatRoutes.

(* ================================================================== *)
(** * Sample data *)
(* ================================================================== *)

(** Concrete users, documents and outside worlds on which the handlers
    are run below, and stand-ins for the two libraries. *)
Module Samples.
Import Js.

(** A stand-in with the interface of bcryptjs: the stored form
    carries the salt in the 22 characters after a 7-character
    prefix, and [compare] re-derives it with that salt. *)
Definition standInHash (p : string) (rounds : nat) (salt : string) : string :=
  "$2a$" ++ numberToString (Z.of_nat rounds) ++ "$" ++ salt ++ p.

Definition standInCompare (candidate stored : string) : bool :=
  String.eqb stored (substring 0 7 stored ++ substring 7 22 stored ++ candidate).

Definition standInBcrypt : UserModel.Bcrypt :=
  {| UserModel.hash := standInHash; UserModel.compare := standInCompare |}.

(** A stand-in with the interface of jsonwebtoken: three segments,
    the middle one holding the subject id and the expiry in seconds,
    the last one a keyed checksum of the middle one.  Like the
    library it reads the middle segment before it looks at the
    checksum, and fails with SyntaxError where that does not
    parse. *)
Fixpoint checksum (acc : Z) (s : string) : Z :=
  match s with
  | EmptyString => acc
  | String c s' => checksum ((acc * 31 + Z.of_N (N_of_ascii c)) mod 1000003)%Z s'
  end.

Definition lifetime (expiresIn : string) : Z :=
  if String.eqb expiresIn "7d" then 604800%Z else 3600%Z.

Definition seal (secret claims : string) : string :=
  numberToString (checksum 7 (secret ++ "." ++ claims)).

Definition standInSign (p : JsonWebToken.Payload) (secret expiresIn : string)
    (now : Z) : string :=
  let claims := JsonWebToken.id p ++ "_"
                ++ numberToString (now / 1000 + lifetime expiresIn)%Z in
  "jwt." ++ claims ++ "." ++ seal secret claims.

Definition parseNumber (s : string) : option Z :=
  option_map Z.of_int (NilZero.int_of_string s).

Definition standInVerify (token secret : string) (now : Z)
    : Completion JsonWebToken.Payload :=
  match split "." token with
  | [header; claims; signature] =>
      match split "_" claims with
      | [subject; expiry] =>
          match parseNumber expiry with
          | Some exp =>
              if String.eqb header "jwt"
                 && String.eqb signature (seal secret claims) then
                if (now / 1000 <? exp)%Z
                then Normal (JsonWebToken.mkPayload subject EmptyString EmptyString)
                else Throw (OtherError "TokenExpiredError" "jwt expired")
              else Throw (OtherError "JsonWebTokenError" "invalid signature")
          | None => Throw (OtherError "SyntaxError" "Unexpected token in JSON")
          end
      | _ => Throw (OtherError "SyntaxError" "Unexpected end of JSON input")
      end
  | _ => Throw (OtherError "JsonWebTokenError" "jwt malformed")
  end.

Definition standInJwt : JsonWebToken.Lib :=
  {| JsonWebToken.sign := standInSign; JsonWebToken.verify := standInVerify |}.

(** The clock reading, in milliseconds, from which the stand-in
    refuses a token it signed at [issued] as expired. *)
Definition standInExpiresAt (expiresIn : string) (issued : Z) : option Z :=
  Some ((issued / 1000 + lifetime expiresIn) * 1000)%Z.

(** A character that separates nothing in the stand-in's tokens. *)
Definition plain (c : ascii) : bool :=
  negb (Ascii.eqb c ".") && negb (Ascii.eqb c "_") && negb (Ascii.eqb c " ").

(** Strings of a given length. *)
Fixpoint replicate (n : nat) (c : ascii) : string :=
  match n with
  | O => EmptyString
  | S n' => String c (replicate n' c)
  end.

Definition adaId : string := "650000000000000000000001".
Definition bobId : string := "650000000000000000000002".

Definition ada : UserModel.User :=
  UserModel.mkUser adaId "Ada" "ada@x.com"
    (standInHash "secret1" 12 "abcdefghijklmnopqrstuv").

Definition bob : UserModel.User :=
  UserModel.mkUser bobId "Bob" "bob@x.com"
    (standInHash "hunter22" 12 "abcdefghijklmnopqrstuv").

Definition chatIdOf (n : nat) : string :=
  "66000000000000000000" ++ substring 0 4 (replicate (4 - String.length (NilZero.string_of_uint (Nat.to_uint n))) "0" ++ NilZero.string_of_uint (Nat.to_uint n)).

(** A chat of [owner] with no message, last active at [t]. *)
Definition emptyChat (n : nat) (owner : string) (active : bool) (t : Z)
    : ChatModel.Chat :=
  ChatModel.mkChat (chatIdOf n) "New Chat" owner [] active t t.

(** A chat of [owner] that has its first message, sent at [t]. *)
Definition startedChat (n : nat) (owner : string) (active : bool) (t : Z)
    : ChatModel.Chat :=
  ChatModel.mkChat (chatIdOf n) "Hello" owner
    [ChatModel.mkMessage "Hello" ChatModel.user t
       (numberToString t ++ "-" ++ substring 15 9 (chatIdOf n))]
    active t t.

(** Two messages appended within the same millisecond. *)
Definition firstStamp : ChatModel.Stamp := ChatModel.mkStamp "1000-aaaaaaaaa" 1000 1000.
Definition secondStamp : ChatModel.Stamp := ChatModel.mkStamp "1000-bbbbbbbbb" 1000 1000.

Definition tiedLog : ChatModel.Doc :=
  ChatModel.addMessage "second" ChatModel.ai secondStamp
    (ChatModel.addMessage "first" ChatModel.user firstStamp
       (ChatModel.newChat (chatIdOf 1) adaId "New Chat" 1000)).

(** The upstream service answering every request with [text]. *)
Definition answering (text : string) (request : string) : AiService.Exchange :=
  AiService.Responded 200 (AiService.Parsed "{}" (AiService.Text text)).

Definition configured : AiService.Config :=
  AiService.mkConfig (Some "AIzaSyExampleKey").

Definition sendEnv (fetch : string -> AiService.Exchange)
    : ChatController.SendEnv :=
  ChatController.mkSendEnv (chatIdOf 9) 2000
    (ChatModel.mkStamp "2000-ccccccccc" 2000 2000) 2001
    configured fetch
    (ChatModel.mkStamp "2500-ddddddddd" 2500 2500).

Definition newChatEnv : ChatController.NewChatEnv :=
  ChatController.mkNewChatEnv (chatIdOf 9) 2000 2001.

(** Ada's chats [lo], ..., [lo + n - 1]; chat [k] was last active at
    time [k]. *)
Fixpoint chatsFrom (lo n : nat) : ChatModel.Collection :=
  match n with
  | O => []
  | S n' => startedChat lo adaId true (Z.of_nat lo) :: chatsFrom (S lo) n'
  end.

(** Twenty-five active chats of Ada, one chat of Bob and one chat
    Ada has deleted. *)
Definition crowded : ChatModel.Collection :=
  startedChat 90 bobId true 99
  :: startedChat 91 adaId false 98
  :: chatsFrom 1 25.

End Samples.

(* ================================================================== *)
(** * Notions used in the statements *)
(* ================================================================== *)

Module Notions.
Import Js ChatModel Http ChatController.

(** ** Message logs *)

(** Every timestamp in [l] is later than [t]. *)
Definition allAfter (t : Z) (l : list Message) : Prop :=
  Forall (fun m => (t < timestamp m)%Z) l.

(** Appends made at strictly increasing clock readings. *)
Fixpoint increasing (l : list Message) : Prop :=
  match l with
  | [] => True
  | m :: l' => allAfter (timestamp m) l' /\ increasing l'
  end.

(** ** Stored chats *)

(** Content that the message schema accepts once trimmed. *)
Definition fitsSchema (text : string) : Prop :=
  trim text <> EmptyString /\ (String.length (trim text) <= 5000)%nat.

(** The chat [c] with one more log entry, as [save] stores it. *)
Definition appended (text : string) (who : Sender) (st : Stamp) (c : Chat)
    : Chat :=
  mkChat (_id c) (title c) (userId c)
         (messages c ++ [mkMessage (trim text) who (stampTime st) (stampId st)])
         (isActive c) (stampTime st) (createdAt c).

(** [a] is listed no later than [b]. *)
Definition noLessRecent (a b : Chat) : Prop :=
  (lastMessageAt b <= lastMessageAt a)%Z.

(** [s] is the entry of chat [c] in a listing: its id, its title and
    its two dates. *)
Definition summarises (s : ChatSummary) (c : Chat) : Prop :=
  summaryId s = _id c /\ summaryTitle s = title c
  /\ summaryLastMessageAt s = lastMessageAt c
  /\ summaryCreatedAt s = createdAt c.

(** The owner's active chats, most recently active first. *)
Definition ranked (owner : string) (col : Collection) : list Chat :=
  sort lastMessageDesc (filter (ownedActive owner) col).

(** ** One send-message request *)

(** The log entries one request writes. *)
Definition userEntry (env : SendEnv) (m : string) : Message :=
  mkMessage (trim m) user (stampTime (userStamp env)) (stampId (userStamp env)).

Definition aiEntry (env : SendEnv) (text : string) : Message :=
  mkMessage (trim text) ai (stampTime (aiStamp env)) (stampId (aiStamp env)).

(** [base] after the user message was appended and saved. *)
Definition withUserEntry (env : SendEnv) (m : string) (base : Chat) : Chat :=
  mkChat (_id base) (title base) (userId base)
         (messages base ++ [userEntry env m])
         (isActive base) (stampTime (userStamp env)) (createdAt base).

(** [base] after the reply was appended and saved as well. *)
Definition withReply (env : SendEnv) (m text : string) (base : Chat) : Chat :=
  mkChat (_id base) (title base) (userId base)
         (messages base ++ [userEntry env m; aiEntry env text])
         (isActive base) (stampTime (aiStamp env)) (createdAt base).

(** The chat [createNew] makes for a first message [m], before that
    message is in its log. *)
Definition blank (env : SendEnv) (owner m : string) : Chat :=
  mkChat (newId env) (trim (titleFrom (trim m))) owner [] true
         (constructedAt env) (insertedAt env).

(** The requests whose conversation resolves: no [chatId], or an
    empty one, makes a new chat under a fresh ObjectId; a well-formed
    [chatId] of a stored chat of the caller selects that chat.
    [Resolved ... chatId base write]: the log of [base] is the log
    before the request, and [write c] is the collection once [c] has
    been saved in its place. *)
Inductive Resolved (env : SendEnv) (owner m : string) (col : Collection)
    : option string -> Chat -> (Chat -> Collection) -> Prop :=
| resolved_absent :
    ~ In (newId env) (map _id col) ->
    Resolved env owner m col None (blank env owner m)
             (fun c => (col ++ [c])%list)
| resolved_empty :
    ~ In (newId env) (map _id col) ->
    Resolved env owner m col (Some EmptyString) (blank env owner m)
             (fun c => (col ++ [c])%list)
| resolved_owned (chatId : string) (chat : Chat) :
    isValidObjectId chatId = true ->
    findOne (toLowerCase chatId) owner col = Some chat ->
    validChat chat = true ->
    Resolved env owner m col (Some chatId) chat
             (fun c => replaceById c col).

(** What the guards of [sendMessage] refuse. *)
Definition rejected (message : option string) : Prop :=
  match message with
  | None => True
  | Some m => trim m = EmptyString \/ (5000 < String.length m)%nat
  end.

(** ** Registration *)

(** A field is missing from the request body, or empty. *)
Definition missing (field : option string) : Prop :=
  field = None \/ field = Some EmptyString.

(** What the field checks of a registration refuse, the address
    apart: no name, no password, or a password under six
    characters. *)
Definition refusedFields (n p : option string) : Prop :=
  missing n \/ missing p
  \/ exists pw, p = Some pw /\ (String.length pw < 6)%nat.

(** ** Addresses and tokens *)

(** No white space anywhere. *)
Definition noSpace (s : string) : bool :=
  forallb_string (fun c => negb (isWhiteSpace c)) s.

(** The number of dot-delimited segments of a token. *)
Definition segments (token : string) : nat := List.length (split "." token).

(** [t] is [s] with exactly one byte changed. *)
Fixpoint oneByteApart (s t : string) : bool :=
  match s, t with
  | String a s', String b t' =>
      if Ascii.eqb a b then oneByteApart s' t' else String.eqb s' t'
  | _, _ => false
  end.

(** No blank, so that the token is the second word of its header. *)
Definition noBlank (s : string) : bool :=
  forallb_string (fun c => negb (Ascii.eqb c " ")) s.

(** What issuing and checking a token rely on from jsonwebtoken, for
    a payload whose id is an ObjectId and a secret that is not
    empty.  [expiresAt expiresIn issued] is the expiry, as a clock
    reading in milliseconds, that the library gives a token signed
    at [issued], where it accepts [expiresIn].  A signed token has
    three segments and no blank; checked with the secret it was
    signed with, it gives back the id of its payload before the
    expiry and raises TokenExpiredError from the expiry on. *)
Record Lawful (J : JsonWebToken.Lib)
    (expiresAt : string -> Z -> option Z) : Prop := mkLawful {
  sign_shape :
    forall p secret expiresIn issued,
      ChatModel.isValidObjectId (JsonWebToken.id p) = true ->
      secret <> EmptyString ->
      segments (JsonWebToken.sign p secret expiresIn issued) = 3%nat
      /\ noBlank (JsonWebToken.sign p secret expiresIn issued) = true;
  verify_fresh :
    forall p secret expiresIn issued expiry now,
      ChatModel.isValidObjectId (JsonWebToken.id p) = true ->
      secret <> EmptyString ->
      expiresAt expiresIn issued = Some expiry -> (now < expiry)%Z ->
      exists decoded,
        JsonWebToken.verify (JsonWebToken.sign p secret expiresIn issued)
                            secret now = Normal decoded
        /\ JsonWebToken.id decoded = JsonWebToken.id p;
  verify_expired :
    forall p secret expiresIn issued expiry now,
      ChatModel.isValidObjectId (JsonWebToken.id p) = true ->
      secret <> EmptyString ->
      expiresAt expiresIn issued = Some expiry -> (expiry <= now)%Z ->
      exists e,
        JsonWebToken.verify (JsonWebToken.sign p secret expiresIn issued)
                            secret now = Throw e
        /\ errorName e = "TokenExpiredError"
}.

(** [s] with its first dot overwritten. *)
Fixpoint overwriteFirstDot (s : string) : string :=
  match s with
  | EmptyString => EmptyString
  | String c s' =>
      if Ascii.eqb c "." then String "x" s'
      else String c (overwriteFirstDot s')
  end.

End Notions.

(* ================================================================== *)
(** * utils/helpers.js *)
(* ================================================================== *)

Module Helpers.
Import Js.

(** [s.replace(/\s+/g, ' ')]: every maximal run of white space
    becomes one space.  [inRun] tells that the previous character
    was white space. *)
Fixpoint collapseFrom (inRun : bool) (s : string) : string :=
  match s with
  | EmptyString => EmptyString
  | String c s' =>
      if isWhiteSpace c then
        if inRun then collapseFrom true s'
        else String " " (collapseFrom true s')
      else String c (collapseFrom false s')
  end.

Definition collapseSpaces (s : string) : string := collapseFrom false s.

(** [sanitizeInput], on a string. *)
Definition sanitizeInput (input : string) : string :=
  substring 0 1000 (collapseSpaces (trim input)).

Record Page : Type := mkPage {
  page : Z;
  limit : Z;
  skip : Z
}.

(** The numbers [calculatePagination] is modelled on: whole numbers
    of magnitude at most 2^26.  The source computes on doubles; on
    these inputs every intermediate result is a whole number of
    magnitude below 2^53, where double arithmetic is exact.  Larger
    inputs, on which the product rounds, are outside the model. *)
Definition smallBound : Z := 67108864.

Record Small : Type := mkSmall {
  small : Z;
  small_ok : (Z.abs small <=? smallBound)%Z = true
}.

(** [calculatePagination]; [page] and [limit] are what [parseInt]
    gives for the arguments ([None] for [NaN]). *)
Definition calculatePagination (page limit : option Small)
    (maxLimit : Small) : Page :=
  let currentPage :=
    Z.max 1 (ChatController.orDefault (option_map small page) 1) in
  let currentLimit :=
    Z.min (small maxLimit)
          (Z.max 1 (ChatController.orDefault (option_map small limit) 20)) in
  mkPage currentPage currentLimit ((currentPage - 1) * currentLimit).

End Helpers.

(* ================================================================== *)
(** * services/aiService.js and controllers/healthController.js:
      the connection test and the health checks *)
(* ================================================================== *)

Module Health.
Import Js.

Record Probe : Type := mkProbe {
  probeSuccess : bool;
  probeError : option string
}.

(** [testOpenRouterConnection].  After the configuration check the
    first thing evaluated is the URL of the request, the template
    literal [`${OPENROUTER_BASE_URL}/chat/completions`];
    [OPENROUTER_BASE_URL] is bound nowhere in the module, so reading
    it throws ReferenceError and the [catch] block builds the
    result.  The request and the handling of its response are never
    reached. *)
Definition testOpenRouterConnection (cfg : AiService.Config) : Probe :=
  let configCheck := AiService.validateGeminiConfig cfg in
  if negb (AiService.checkSuccess configCheck) then
    mkProbe false (Some (AiService.checkMessage configCheck))
  else
    mkProbe false
      (Some ("Connection test failed: " ++ "OPENROUTER_BASE_URL is not defined")).

(** [getAvailableModels]: the same unbound name, read first; its
    [catch] block returns the bare message. *)
Definition getAvailableModels : Probe :=
  mkProbe false (Some "OPENROUTER_BASE_URL is not defined").

(** One entry of [healthData.services]; a field the object does not
    have is [None].  Of the database entry the connection's name,
    host, port, [readyState] and collection count are left out. *)
Record Service : Type := mkService {
  serviceStatus : option string;
  serviceConfigured : option bool;
  serviceConnected : option bool;
  serviceMessage : option string
}.

(** [checkDatabaseHealth], from [mongoose.connection.readyState]. *)
Definition checkDatabaseHealth (readyState : Z) : Service :=
  if (readyState =? 1)%Z then mkService (Some "connected") None None None
  else mkService (Some "disconnected") None None
                 (Some "Database connection is not established").

(** The callback given to [every] in [detailedHealthCheck]. *)
Definition serviceHealthy (service : Service) : bool :=
  match serviceConnected service with
  | Some connected => connected
  | None =>
      match serviceStatus service with
      | Some st => String.eqb st "connected"
      | None => false
      end
      || match serviceConfigured service with
         | Some configured => configured
         | None => false
         end
  end.

(** The answer of [detailedHealthCheck]: the status code, [status]
    and the services in the order they were entered. *)
Record Detailed : Type := mkDetailed {
  detailedCode : Z;
  detailedStatus : string;
  services : list Service
}.

(** [detailedHealthCheck] *)
Definition detailedHealthCheck (cfg : AiService.Config) (readyState : Z)
    : Detailed :=
  let database := checkDatabaseHealth readyState in
  let aiConfigStatus := AiService.validateGeminiConfig cfg in
  let aiService :=
    if AiService.checkSuccess aiConfigStatus then
      mkService None (Some true)
                (Some (probeSuccess (testOpenRouterConnection cfg)))
                (Some (AiService.checkMessage aiConfigStatus))
    else mkService None (Some false) None
                   (Some (AiService.checkMessage aiConfigStatus)) in
  let allServicesHealthy := forallb serviceHealthy [database; aiService] in
  mkDetailed (if allServicesHealthy then 200 else 503)
             (if allServicesHealthy then "healthy" else "degraded")
             [database; aiService].

(** The answer of the single-service checks: the status code,
    [status] and [message]. *)
Record Report : Type := mkReport {
  code : Z;
  overall : string;
  message : string
}.

(** [aiHealthCheck] *)
Definition aiHealthCheck (cfg : AiService.Config) : Report :=
  let configCheck := AiService.validateGeminiConfig cfg in
  if negb (AiService.checkSuccess configCheck) then
    mkReport 503 "unhealthy" "AI service not configured"
  else if probeSuccess (testOpenRouterConnection cfg) then
    mkReport 200 "healthy" "AI service is operational"
  else mkReport 503 "unhealthy" "AI service is not responding".

(** [databaseHealthCheck] *)
Definition databaseHealthCheck (readyState : Z) : Report :=
  match serviceStatus (checkDatabaseHealth readyState) with
  | Some "connected" => mkReport 200 "healthy" "Database is connected"
  | _ => mkReport 503 "unhealthy" "Database is not connected"
  end.

End Health.

(* ================================================================== *)
(** * Further notions used in the statements *)
(* ================================================================== *)

Module MoreNotions.
Import Js ChatModel Http ChatController.

(** [a] was stamped no later than [b]. *)
Definition oldestFirst (a b : Message) : Prop :=
  (timestamp a <= timestamp b)%Z.

(** [a] was stamped no earlier than [b]. *)
Definition newestFirstOrder (a b : Message) : Prop :=
  (timestamp b <= timestamp a)%Z.

(** Every stored chat passes the schema's checks. *)
Definition allValid (col : Collection) : Prop :=
  Forall (fun c => validChat c = true) col.

(** The [_id]s of a collection, in order. *)
Definition ids (col : Collection) : list string := map _id col.

(** The first log entry of a document not yet stored is trimmed, so
    that a title made from it is not empty. *)
Definition firstTrimmed (d : Doc) : Prop :=
  isNew d = true ->
  forall f r, messages (fields d) = f :: r -> trim (content f) = content f.

(** Going from [col] to [col'] left every chat with an [_id] other
    than [i] in the collection, and left the collection valid. *)
Definition keeps (i : string) (col col' : Collection) : Prop :=
  (forall c, In c col -> _id c <> i -> In c col')
  /\ (allValid col -> allValid col').

(** Going from [col] to [col'] changed no [_id] and added at most one
    document, under [fresh]. *)
Definition grows (fresh : string) (col col' : Collection) : Prop :=
  ids col' = ids col \/ ids col' = (ids col ++ [fresh])%list.

(** The request was refused with 400 or 404 and changed nothing. *)
Definition refused (col : Collection) (r : Response * Collection) : Prop :=
  (status (fst r) = 400%Z \/ status (fst r) = 404%Z)
  /\ success (fst r) = false /\ snd r = col.

(** The number of active chats of [owner]. *)
Definition activeCount (owner : string) (col : Collection) : Z :=
  Z.of_nat (List.length (filter (ownedActive owner) col)).

(** [c'] is [c], or [c] with only its title replaced by [t]. *)
Definition sameOrRetitled (t : string) (c c' : Chat) : Prop :=
  c' = c \/ c' = setTitle t c.

(** [env] with another upstream service. *)
Definition withFetch (f : string -> AiService.Exchange) (env : SendEnv)
    : SendEnv :=
  mkSendEnv (newId env) (constructedAt env) (userStamp env) (insertedAt env)
            (config env) f (aiStamp env).

(** The request text [t] closes with the user's message [m] twice:
    as a line of the history and as the final line. *)
Definition closesTwice (m t : string) : Prop :=
  exists before,
    t = before ++ "User: " ++ trim m ++ AiService.newline
               ++ "User: " ++ trim m.

(** Tidy white space: none at the start, and afterwards only single
    plain spaces.  [afterSpace] tells that the previous character
    was a space, or that the string starts here. *)
Fixpoint spacedFrom (afterSpace : bool) (s : string) : bool :=
  match s with
  | EmptyString => true
  | String c s' =>
      if isWhiteSpace c
      then Ascii.eqb c " " && negb afterSpace && spacedFrom true s'
      else spacedFrom false s'
  end.

Definition singleSpaced (s : string) : bool := spacedFrom true s.

(** One time unit in a [duration]: the count, the unit's name, a
    plural [s] from two on. *)
Definition ago (n : Z) (unit : string) : string :=
  numberToString n ++ " " ++ unit
  ++ (if (1 <? n)%Z then "s" else EmptyString) ++ " ago".

(** A user document as registration leaves it: a lower-case address
    the pattern accepts, a trimmed name of 2 to 50 characters. *)
Definition storedWell (u : UserModel.User) : Prop :=
  UserModel.emailRegex (UserModel.email u) = true
  /\ toLowerCase (UserModel.email u) = UserModel.email u
  /\ trim (UserModel.name u) = UserModel.name u
  /\ (2 <= String.length (UserModel.name u) <= 50)%nat.

(** No two users share an address, and every user is well stored. *)
Definition wellFormedUsers (col : UserModel.Collection) : Prop :=
  NoDup (map UserModel.email col) /\ Forall storedWell col.

End MoreNotions.

(* ================================================================== *)
(** * Facts about strings and arrays *)
(* ================================================================== *)

Module JsFacts.
Import Js.

Lemma truthy_true (s : string) : truthy s = true <-> s <> EmptyString.
Proof. destruct s; simpl; split; congruence. Qed.

Lemma length_zero (s : string) : String.length s = 0%nat <-> s = EmptyString.
Proof. destruct s; simpl; split; congruence. Qed.

Lemma length_append (s t : string) :
  String.length (s ++ t) = (String.length s + String.length t)%nat.
Proof. induction s; simpl; congruence. Qed.

Lemma trimStart_length (s : string) :
  (String.length (trimStart s) <= String.length s)%nat.
Proof.
  induction s as [|c s IH]; simpl; [lia|].
  destruct (isWhiteSpace c); simpl; lia.
Qed.

Lemma trimEnd_length (s : string) :
  (String.length (trimEnd s) <= String.length s)%nat.
Proof.
  induction s as [|c s IH]; simpl; [lia|].
  destruct (trimEnd s) as [|d r]; simpl in *.
  - destruct (isWhiteSpace c); simpl; lia.
  - lia.
Qed.

Lemma trim_length (s : string) :
  (String.length (trim s) <= String.length s)%nat.
Proof.
  unfold trim.
  pose proof (trimEnd_length (trimStart s)).
  pose proof (trimStart_length s). lia.
Qed.

(** What is left by [trimStart] begins with a character that is no
    white space. *)
Lemma trimStart_head (s : string) (c : ascii) (r : string) :
  trimStart s = String c r -> isWhiteSpace c = false.
Proof.
  induction s as [|a s IH]; simpl; [discriminate|].
  destruct (isWhiteSpace a) eqn:E; [exact IH|].
  intros H; injection H as -> _; exact E.
Qed.

Lemma trimEnd_cons (c : ascii) (r : string) :
  isWhiteSpace c = false -> trimEnd (String c r) = String c (trimEnd r).
Proof.
  intros E; simpl. destruct (trimEnd r); [rewrite E|]; reflexivity.
Qed.

Lemma trimStart_cons (c : ascii) (r : string) :
  isWhiteSpace c = false -> trimStart (String c r) = String c r.
Proof. intros E; simpl; rewrite E; reflexivity. Qed.

Lemma trimEnd_idem (s : string) : trimEnd (trimEnd s) = trimEnd s.
Proof.
  induction s as [|c s IH]; simpl; [reflexivity|].
  destruct (trimEnd s) as [|d r] eqn:E.
  - destruct (isWhiteSpace c) eqn:W; simpl; [reflexivity|].
    rewrite W; reflexivity.
  - change (trimEnd (String c (String d r)))
      with (match trimEnd (String d r) with
            | EmptyString =>
                if isWhiteSpace c then EmptyString else String c EmptyString
            | String d' r' => String c (String d' r')
            end).
    rewrite IH; reflexivity.
Qed.

(** A trimmed string is empty or begins with a character that is no
    white space. *)
Lemma trim_head (s : string) (c : ascii) (r : string) :
  trim s = String c r -> isWhiteSpace c = false.
Proof.
  unfold trim.
  destruct (trimStart s) as [|a t] eqn:E; [simpl; discriminate|].
  pose proof (trimStart_head _ _ _ E) as W.
  rewrite (trimEnd_cons _ _ W).
  intros H; injection H as -> _; exact W.
Qed.

Lemma trim_idem (s : string) : trim (trim s) = trim s.
Proof.
  destruct (trim s) as [|c r] eqn:E; [reflexivity|].
  pose proof (trim_head _ _ _ E) as W.
  unfold trim. rewrite (trimStart_cons _ _ W).
  rewrite <- E. unfold trim. apply trimEnd_idem.
Qed.

(** A string that begins with a character that is no white space
    stays non-empty under [trim], and keeps that first character. *)
Lemma trim_cons (c : ascii) (r : string) :
  isWhiteSpace c = false -> trim (String c r) = String c (trimEnd r).
Proof.
  intros W. unfold trim. rewrite (trimStart_cons _ _ W).
  apply trimEnd_cons; exact W.
Qed.

Lemma substring_length (n : nat) (s : string) :
  (String.length (substring 0 n s) <= n)%nat.
Proof.
  revert s; induction n as [|n IH]; intros [|c s]; simpl; try lia.
  specialize (IH s); lia.
Qed.

(** [slice(0, k)] followed by [reverse], on a reversed array, is the
    last [k] entries in their order. *)
Lemma rev_firstn_rev {A : Type} (k : nat) (l : list A) :
  rev (firstn k (rev l)) = skipn (List.length l - k) l.
Proof.
  rewrite firstn_rev, rev_involutive. reflexivity.
Qed.

End JsFacts.

(* ================================================================== *)
(** * The message log *)
(* ================================================================== *)

Module ChatModelFacts.
Import Js ChatModel Notions.

Lemma insertSorted_oldest (x : Message) (l : list Message) :
  allAfter (timestamp x) l -> insertSorted newestFirst x l = (l ++ [x])%list.
Proof.
  induction 1 as [|y l Hy _ IH]; simpl; [reflexivity|].
  unfold newestFirst at 1.
  destruct (Z.leb_spec (timestamp y - timestamp x) 0); [lia|].
  rewrite IH; reflexivity.
Qed.

Lemma allAfter_rev (t : Z) (l : list Message) :
  allAfter t l -> allAfter t (rev l).
Proof. unfold allAfter; apply Forall_rev. Qed.

(** With distinct, increasing timestamps the sort of
    [getRecentMessages] reverses the log. *)
Lemma sort_increasing (l : list Message) :
  increasing l -> sort newestFirst l = rev l.
Proof.
  unfold sort.
  induction l as [|x l IH]; simpl; [reflexivity|].
  intros [Hx Hl]. rewrite (IH Hl).
  apply insertSorted_oldest, allAfter_rev, Hx.
Qed.

(** With distinct, increasing timestamps and a limit that is not
    negative, [getRecentMessages] returns the last [limit] entries of
    the log in append order. *)
Lemma getRecentMessages_increasing (limit : Z) (d : Doc) :
  (0 <= limit)%Z ->
  increasing (messages (fields d)) ->
  snd (getRecentMessages limit d)
  = skipn (List.length (messages (fields d)) - Z.to_nat limit)
          (messages (fields d)).
Proof.
  intros Hl Hinc. unfold getRecentMessages; simpl.
  rewrite (sort_increasing _ Hinc). unfold slice0.
  destruct (Z.ltb_spec limit 0); [lia|].
  rewrite length_rev, JsFacts.rev_firstn_rev. f_equal. lia.
Qed.

Lemma sort_app (l r : list Message) :
  sort newestFirst (l ++ r)
  = fold_right (insertSorted newestFirst) (sort newestFirst r) l.
Proof. unfold sort. apply fold_right_app. Qed.

(** Two entries appended at the same clock reading [t], after a log
    of earlier entries, come out of the sort in append order, and so
    out of [getRecentMessages] in reverse. *)
Lemma sort_tie (l : list Message) (a b : Message) (t : Z) :
  increasing l -> Forall (fun m => (timestamp m < t)%Z) l ->
  timestamp a = t -> timestamp b = t ->
  sort newestFirst (l ++ [a; b]) = (a :: b :: rev l)%list.
Proof.
  intros Hinc Hbefore Ha Hb. rewrite sort_app.
  assert (sort newestFirst [a; b] = [a; b]) as ->.
  { unfold sort; simpl. unfold newestFirst. rewrite Ha, Hb, Z.sub_diag.
    reflexivity. }
  induction l as [|x l IH]; simpl; [reflexivity|].
  destruct Hinc as [Hx Hl]. inversion Hbefore as [|? ? Hxt Hlt]; subst.
  rewrite (IH Hl Hlt).
  rewrite (insertSorted_oldest x (a :: b :: rev l)); [reflexivity|].
  repeat constructor; try lia. apply allAfter_rev, Hx.
Qed.

Lemma getRecentMessages_tie (d : Doc) (a b : Message) (t : Z) :
  increasing (messages (fields d)) ->
  Forall (fun m => (timestamp m < t)%Z) (messages (fields d)) ->
  timestamp a = t -> timestamp b = t ->
  snd (getRecentMessages 2
         (onFields (setMessages (messages (fields d) ++ [a; b])) d))
  = [b; a].
Proof.
  intros Hinc Hbefore Ha Hb. unfold getRecentMessages; simpl.
  rewrite (sort_tie _ a b t Hinc Hbefore Ha Hb).
  unfold slice0.
  assert (Z.to_nat
            (if (2 <? 0)%Z
             then Z.max (Z.of_nat (List.length (a :: b :: rev (messages (fields d)))) + 2) 0
             else Z.min 2 (Z.of_nat (List.length (a :: b :: rev (messages (fields d))))))
          = 2%nat) as ->.
  { simpl List.length. change (2 <? 0)%Z with false. cbv iota. lia. }
  reflexivity.
Qed.

Lemma getMessageCount_addMessage (text : string) (who : Sender)
    (st : Stamp) (d : Doc) :
  getMessageCount (addMessage text who st d) = S (getMessageCount d).
Proof.
  unfold getMessageCount, addMessage; simpl.
  rewrite length_app; simpl; lia.
Qed.

(** C4, on the code: two appends within one millisecond.  The log
    holds "first" and then "second"; [getRecentMessages] returns
    "second" before "first", and with limit 1 it returns "first",
    which is not the most recent entry. *)
Theorem getRecentMessages_reverses_equal_timestamps :
  messages (fields Samples.tiedLog)
  = [mkMessage "first" user 1000 "1000-aaaaaaaaa";
     mkMessage "second" ai 1000 "1000-bbbbbbbbb"]
  /\ snd (getRecentMessages 20 Samples.tiedLog)
     = [mkMessage "second" ai 1000 "1000-bbbbbbbbb";
        mkMessage "first" user 1000 "1000-aaaaaaaaa"]
  /\ snd (getRecentMessages 1 Samples.tiedLog)
     = [mkMessage "first" user 1000 "1000-aaaaaaaaa"].
Proof. repeat split; reflexivity. Qed.

End ChatModelFacts.

(* ================================================================== *)
(** * The chat handlers *)
(* ================================================================== *)

Module ChatControllerFacts.
Import Js ChatModel Http ChatController Notions.

(** ** Saving *)

Lemma validMessage_trim (text : string) (who : Sender) (t : Z) (i : string) :
  fitsSchema text -> validMessage (mkMessage (trim text) who t i) = true.
Proof.
  intros [Hne Hlen]. unfold validMessage; simpl.
  destruct (trim text) as [|c r] eqn:E; [congruence|].
  simpl in *. apply Nat.leb_le in Hlen.
  change (String.length r <=? 4999)%nat with (S (String.length r) <=? 5000)%nat.
  rewrite Hlen; reflexivity.
Qed.

Lemma validChat_appended (text : string) (who : Sender) (st : Stamp) (c : Chat) :
  validChat c = true -> fitsSchema text ->
  validChat (appended text who st c) = true.
Proof.
  unfold validChat, appended; simpl. intros Hc Hf.
  apply andb_true_iff in Hc as [Ht Hm]. rewrite Ht; simpl.
  rewrite forallb_app, Hm; simpl.
  rewrite (validMessage_trim _ _ _ _ Hf); reflexivity.
Qed.

Lemma last_of_app {A : Type} (l : list A) (x : A) :
  rev (l ++ [x]) = x :: rev l.
Proof. rewrite rev_app_distr; reflexivity. Qed.

(** Appending to a stored, valid chat and saving it. *)
Lemma save_appended (now : Z) (text : string) (who : Sender) (st : Stamp)
    (c : Chat) (col : Collection) :
  validChat c = true -> fitsSchema text ->
  save now (addMessage text who st (mkDoc c false)) col
  = (Normal (mkDoc (appended text who st c) false),
     replaceById (appended text who st c) col).
Proof.
  intros Hc Hf.
  pose proof (validChat_appended text who st c Hc Hf) as Hv.
  unfold save, addMessage, onFields; simpl.
  unfold appended in Hv; unfold validChat in *; simpl in *.
  rewrite forallb_app in *; simpl in *.
  apply andb_true_iff in Hc as [Ht Hm]. rewrite Ht, Hm; simpl.
  rewrite (validMessage_trim _ _ _ _ Hf); simpl.
  unfold preSave; simpl. rewrite last_of_app; simpl.
  match goal with
  | |- context [emptyLog ?x] =>
      assert (emptyLog x = false) as ->
        by (unfold emptyLog; simpl; destruct (messages c); reflexivity)
  end.
  reflexivity.
Qed.

Lemma preSave_messages (d : Doc) :
  messages (fields (preSave d)) = messages (fields d).
Proof.
  unfold preSave. cbn [fields].
  set (c1 := match rev (messages (fields d)) with
             | lastMessage :: _ =>
                 setLastMessageAt (timestamp lastMessage) (fields d)
             | [] => fields d
             end).
  assert (messages c1 = messages (fields d)) as M1
    by (unfold c1; destruct (rev (messages (fields d))); reflexivity).
  destruct (isNew d); [|exact M1].
  rewrite <- M1.
  destruct (messages c1) as [|first rest] eqn:E; [exact E|].
  destruct (truthy (content first)); exact E.
Qed.

Lemma emptyLog_preSave (d : Doc) :
  emptyLog (fields (preSave d)) = emptyLog (fields d).
Proof. unfold emptyLog. rewrite preSave_messages. reflexivity. Qed.

(** Saving a stored document whose log is not empty. *)
Lemma save_stored_nonempty (now : Z) (d : Doc) (col : Collection) :
  isNew d = false -> validChat (fields d) = true ->
  emptyLog (fields d) = false ->
  save now d col = (Normal (preSave d), replaceById (fields (preSave d)) col).
Proof.
  intros N V E. unfold save. rewrite V. cbv zeta.
  assert (isNew (preSave d) = false) as -> by exact N.
  rewrite emptyLog_preSave, E. reflexivity.
Qed.

Lemma emptyLog_addMessage (text : string) (who : Sender) (st : Stamp)
    (d : Doc) :
  emptyLog (fields (addMessage text who st d)) = false.
Proof.
  unfold emptyLog, addMessage, onFields; simpl.
  destruct (messages (fields d)); reflexivity.
Qed.

(** The three ways a [save] ends: refused with nothing written, a
    new document appended, a stored document overwritten. *)
Lemma save_cases (now : Z) (d : Doc) (col : Collection) :
  (exists e, save now d col = (Throw e, col))
  \/ (isNew d = true /\ validChat (fields d) = true
      /\ save now d col
         = (Normal (mkDoc (setCreatedAt now (fields (preSave d))) false),
            (col ++ [setCreatedAt now (fields (preSave d))])%list))
  \/ (isNew d = false /\ validChat (fields d) = true
      /\ save now d col
         = (Normal (preSave d), replaceById (fields (preSave d)) col)).
Proof.
  unfold save. destruct (validChat (fields d)); [|left; eexists; reflexivity].
  cbv zeta. assert (isNew (preSave d) = isNew d) as -> by reflexivity.
  destruct (isNew d).
  - destruct (emptyLog _ && existsb emptyLog col);
      [left; eexists; reflexivity|].
    right; left. repeat split.
  - destruct (emptyLog _ && otherEmptyLog _ col);
      [left; eexists; reflexivity|].
    right; right. repeat split.
Qed.

Lemma replaceById_twice (c1 c2 : Chat) (col : Collection) :
  _id c1 = _id c2 ->
  replaceById c2 (replaceById c1 col) = replaceById c2 col.
Proof.
  intros E. induction col as [|x col IH]; simpl; [reflexivity|].
  destruct (String.eqb (_id x) (_id c1)) eqn:X; simpl.
  - rewrite E, String.eqb_refl. rewrite <- E, X. reflexivity.
  - rewrite <- E, X, IH. reflexivity.
Qed.

Lemma replaceById_last (c1 c2 : Chat) (col : Collection) :
  _id c1 = _id c2 -> ~ In (_id c1) (map _id col) ->
  replaceById c2 (col ++ [c1])%list = (col ++ [c2])%list.
Proof.
  intros E. induction col as [|x col IH]; simpl; intros H.
  - rewrite E, String.eqb_refl; reflexivity.
  - destruct (String.eqb_spec (_id x) (_id c2)) as [X|N].
    + exfalso; apply H; left; congruence.
    + rewrite IH; [reflexivity|]. intros F; apply H; right; exact F.
Qed.

(** ** Titles made from a first message *)

Lemma titleFrom_length (text : string) :
  (String.length (titleFrom text) <= 53)%nat.
Proof.
  unfold titleFrom. rewrite JsFacts.length_append.
  pose proof (JsFacts.substring_length 50 text).
  destruct (50 <? String.length text)%nat; simpl; lia.
Qed.

Lemma title_of_trimmed (m : string) :
  trim m <> EmptyString ->
  truthy (trim (titleFrom (trim m))) = true
  /\ (String.length (trim (titleFrom (trim m))) <= 100)%nat.
Proof.
  intros Hne. split.
  - destruct (trim m) as [|c r] eqn:E; [congruence|].
    pose proof (JsFacts.trim_head _ _ _ E) as W.
    unfold titleFrom. simpl substring. simpl append.
    rewrite (JsFacts.trim_cons _ _ W). reflexivity.
  - pose proof (JsFacts.trim_length (titleFrom (trim m))).
    pose proof (titleFrom_length (trim m)). lia.
Qed.

(** ** The guards of [sendMessage] *)

Lemma guards_pass (m : string) :
  trim m <> EmptyString -> (String.length m <= 5000)%nat ->
  negb (truthy m) || (String.length (trim m) =? 0)%nat = false
  /\ (5000 <? String.length m)%nat = false.
Proof.
  intros Hne Hlen. split.
  - apply orb_false_iff; split.
    + destruct m; [exfalso; apply Hne; reflexivity | reflexivity].
    + apply Nat.eqb_neq. rewrite JsFacts.length_zero. exact Hne.
  - apply Nat.ltb_ge; exact Hlen.
Qed.

(** C1, on the code: a send-message request whose content passes the
    guards and whose chatId is not 24 hex digits is answered with
    500, and nothing is stored: no conversation is created. *)
Theorem sendMessage_malformed_chatId_fails (env : SendEnv)
    (reqUser : UserModel.User) (m chatId : string) (col : Collection) :
  trim m <> EmptyString -> (String.length m <= 5000)%nat ->
  chatId <> EmptyString -> isValidObjectId chatId = false ->
  sendMessage env reqUser (Some m) (Some chatId) col
  = (mkResponse 500 (Failure "Internal server error while sending message"),
     col).
Proof.
  intros Hne Hlen Hc Hv.
  destruct (guards_pass m Hne Hlen) as [G1 G2].
  unfold sendMessage, tryCatch. rewrite G1, G2.
  unfold bind, resolveChat.
  apply JsFacts.truthy_true in Hc. rewrite Hc, Hv. reflexivity.
Qed.

Lemma sendMessage_malformed_chatId_fails_witness :
  sendMessage (Samples.sendEnv (Samples.answering "Hi there"))
              Samples.ada (Some "Hello!") (Some "1700000000000") []
  = (mkResponse 500 (Failure "Internal server error while sending message"),
     []).
Proof.
  apply sendMessage_malformed_chatId_fails.
  - vm_compute; discriminate.
  - vm_compute; lia.
  - discriminate.
  - reflexivity.
Defined.


(** ** Creating an empty chat *)

(** C10 as stated fails: a title of 101 characters, the last one a
    space, is trimmed to 100 characters by the schema and the chat is
    created. *)
Lemma createNewChat_trailing_space_accepted :
  String.length (Samples.replicate 100 "a" ++ " ") = 101%nat
  /\ createNewChat Samples.newChatEnv Samples.ada
       (Some (Samples.replicate 100 "a" ++ " ")) []
     = (mkResponse 201
          (ChatCreated (Samples.chatIdOf 9) (Samples.replicate 100 "a")
                       2001 0 true),
        [mkChat (Samples.chatIdOf 9) (Samples.replicate 100 "a")
                Samples.adaId [] true 2000 2001]).
Proof. split; vm_compute; reflexivity. Qed.

Lemma trim_nonempty_source (t : string) : trim t <> EmptyString -> truthy t = true.
Proof. destruct t; [intros H; exfalso; apply H|]; reflexivity. Qed.

(** C10, amended: the handler checks no length; a title longer than
    100 characters after trimming is refused by the schema on save
    and reported as 500, with nothing stored; a request without a
    title, when no stored chat has an empty log, stores a chat titled
    "New Chat" with an empty log and is answered with 201. *)
Theorem createNewChat_title_bound (env : NewChatEnv)
    (reqUser : UserModel.User) (t : string) (col : Collection) :
  (100 < String.length (trim t))%nat ->
  createNewChat env reqUser (Some t) col
  = (mkResponse 500 (Failure "Internal server error while creating new chat"),
     col)
  /\ (existsb emptyLog col = false ->
      createNewChat env reqUser None col
      = (mkResponse 201
           (ChatCreated (freshId env) "New Chat" (storedAt env) 0 true),
         (col ++ [mkChat (freshId env) "New Chat" (UserModel._id reqUser) []
                         true (builtAt env) (storedAt env)])%list)).
Proof.
  intros Hlong. split; [|intros Hnone].
  - assert (truthy t = true) as Ht.
    { apply trim_nonempty_source.
      intros E; rewrite E in Hlong; simpl in Hlong; lia. }
    unfold createNewChat, tryCatch, bind, saveM, save, newChat.
    rewrite Ht. unfold validChat; simpl.
    apply Nat.leb_gt in Hlong. rewrite Hlong.
    rewrite andb_false_r. reflexivity.
  - unfold createNewChat, tryCatch, bind, saveM, save, newChat; simpl.
    rewrite Hnone. reflexivity.
Qed.

Lemma createNewChat_title_bound_witness :
  createNewChat Samples.newChatEnv Samples.ada
    (Some (Samples.replicate 101 "a")) []
  = (mkResponse 500 (Failure "Internal server error while creating new chat"),
     [])
  /\ createNewChat Samples.newChatEnv Samples.ada None []
     = (mkResponse 201
          (ChatCreated (Samples.chatIdOf 9) "New Chat" 2001 0 true),
        [mkChat (Samples.chatIdOf 9) "New Chat" Samples.adaId [] true
                2000 2001]).
Proof.
  destruct (createNewChat_title_bound Samples.newChatEnv Samples.ada
              (Samples.replicate 101 "a") []) as [Hlong Hnone].
  - vm_compute; lia.
  - split; [exact Hlong | apply Hnone; reflexivity].
Defined.

(** ** Sorting and paging the chat list *)

Lemma insertSorted_perm {A : Type} (cmp : A -> A -> Z) (x : A) (l : list A) :
  Permutation (insertSorted cmp x l) (x :: l).
Proof.
  induction l as [|y l IH]; simpl; [apply Permutation_refl|].
  destruct (cmp x y <=? 0)%Z; [apply Permutation_refl|].
  eapply perm_trans; [apply perm_skip, IH | apply perm_swap].
Qed.

Lemma sort_perm {A : Type} (cmp : A -> A -> Z) (l : list A) :
  Permutation (sort cmp l) l.
Proof.
  unfold sort. induction l as [|x l IH]; simpl; [constructor|].
  eapply perm_trans; [apply insertSorted_perm | apply perm_skip, IH].
Qed.

Lemma insertSorted_sorted (x : Chat) (l : list Chat) :
  StronglySorted noLessRecent l ->
  StronglySorted noLessRecent (insertSorted lastMessageDesc x l).
Proof.
  induction 1 as [|y l Hs IH Hy]; simpl.
  - repeat constructor.
  - unfold lastMessageDesc at 1.
    destruct (Z.leb_spec (lastMessageAt y - lastMessageAt x) 0) as [L|G].
    + constructor; [constructor; assumption|].
      constructor; [unfold noLessRecent; lia|].
      eapply Forall_impl; [|exact Hy].
      unfold noLessRecent; intros; lia.
    + constructor; [exact IH|].
      eapply Permutation_Forall;
        [apply Permutation_sym, insertSorted_perm|].
      constructor; [unfold noLessRecent; lia | exact Hy].
Qed.

Lemma sort_sorted (l : list Chat) :
  StronglySorted noLessRecent (sort lastMessageDesc l).
Proof.
  unfold sort. induction l as [|x l IH]; simpl; [constructor|].
  apply insertSorted_sorted, IH.
Qed.

(** Documents with the same [lastMessageAt] keep their order. *)
Lemma insertSorted_stable (t : Z) (x : Chat) (l : list Chat) :
  StronglySorted noLessRecent l ->
  filter (fun c => (lastMessageAt c =? t)%Z) (insertSorted lastMessageDesc x l)
  = filter (fun c => (lastMessageAt c =? t)%Z) (x :: l).
Proof.
  induction 1 as [|y l Hs IH Hy]; [reflexivity|].
  simpl insertSorted. unfold lastMessageDesc at 1.
  destruct (Z.leb_spec (lastMessageAt y - lastMessageAt x) 0) as [L|G];
    [reflexivity|].
  simpl filter in *. rewrite IH.
  destruct (Z.eqb_spec (lastMessageAt y) t) as [Ey|Ny];
    destruct (Z.eqb_spec (lastMessageAt x) t) as [Ex|Nx];
    try reflexivity.
  lia.
Qed.

Lemma sort_stable (t : Z) (l : list Chat) :
  filter (fun c => (lastMessageAt c =? t)%Z) (sort lastMessageDesc l)
  = filter (fun c => (lastMessageAt c =? t)%Z) l.
Proof.
  induction l as [|x l IH]; [reflexivity|].
  change (sort lastMessageDesc (x :: l))
    with (insertSorted lastMessageDesc x (sort lastMessageDesc l)).
  rewrite (insertSorted_stable t x _ (sort_sorted l)).
  simpl. rewrite IH. reflexivity.
Qed.

Lemma In_firstn {A : Type} (n : nat) (l : list A) (x : A) :
  In x (firstn n l) -> In x l.
Proof.
  intros H. rewrite <- (firstn_skipn n l). apply in_or_app; left; exact H.
Qed.

Lemma In_skipn {A : Type} (n : nat) (l : list A) (x : A) :
  In x (skipn n l) -> In x l.
Proof.
  intros H. rewrite <- (firstn_skipn n l). apply in_or_app; right; exact H.
Qed.

(** Whatever the query, a listed chat is a stored, active chat of the
    caller. *)
Lemma getChatHistory_items (reqUser : UserModel.User)
    (queryLimit queryPage : option Z) (col : Collection)
    (chats : list ChatSummary) (pg : Pagination) :
  fst (getChatHistory reqUser queryLimit queryPage col)
  = mkResponse 200 (ChatHistory chats pg) ->
  forall s, In s chats ->
  exists c, In c col /\ s = select c
            /\ userId c = UserModel._id reqUser /\ isActive c = true.
Proof.
  unfold getChatHistory, tryCatch, bind, findPage, countDocuments, ret.
  destruct (100 <? orDefault queryLimit 20)%Z; simpl; [discriminate|].
  destruct ((orDefault queryPage 1 - 1) * orDefault queryLimit 20 <? 0)%Z;
    simpl; [discriminate|].
  intros H; injection H as <- _. intros s Hs.
  apply in_map_iff in Hs as [c [<- Hc]].
  apply In_firstn, In_skipn in Hc.
  apply (Permutation_in _ (sort_perm _ _)) in Hc.
  apply filter_In in Hc as [Hin Hf].
  unfold ownedActive in Hf. apply andb_true_iff in Hf as [Ho Ha].
  apply String.eqb_eq in Ho.
  exists c; repeat split; assumption.
Qed.



(** ** Soft delete *)

Lemma findOneAndUpdate_found (oid owner : string) (f : Chat -> Chat)
    (col col' : Collection) (c' : Chat) :
  (forall c, _id (f c) = _id c /\ userId (f c) = userId c) ->
  findOneAndUpdate oid owner f col = (Some c', col') ->
  exists l1 c l2,
    col = (l1 ++ c :: l2)%list /\ col' = (l1 ++ f c :: l2)%list /\ c' = f c
    /\ _id c = oid /\ userId c = owner
    /\ findOne oid owner col' = Some (f c).
Proof.
  intros Hf. revert col'.
  induction col as [|x col IH]; intros col'; simpl; [discriminate|].
  destruct (String.eqb (_id x) oid && String.eqb (userId x) owner) eqn:E.
  - intros H; injection H as <- <-.
    exists [], x, col. apply andb_true_iff in E as [E1 E2].
    apply String.eqb_eq in E1, E2.
    repeat split; try assumption.
    unfold findOne; simpl. destruct (Hf x) as [-> ->].
    rewrite E1, E2, !String.eqb_refl. reflexivity.
  - destruct (findOneAndUpdate oid owner f col) as [r col''] eqn:R.
    intros H; injection H as -> <-.
    destruct (IH col'' eq_refl) as (l1 & c & l2 & -> & -> & -> & Hi & Ho & Hfind).
    exists (x :: l1), c, l2. repeat split; try assumption.
    unfold findOne in *; simpl. rewrite E. exact Hfind.
Qed.

Lemma setIsActive_keys (b : bool) (c : Chat) :
  _id (setIsActive b c) = _id c /\ userId (setIsActive b c) = userId c.
Proof. split; reflexivity. Qed.

Lemma castObjectId_Some (s oid : string) :
  castObjectId s = Some oid -> oid = toLowerCase s.
Proof.
  unfold castObjectId. destruct (isValidObjectId s); [|discriminate].
  intros H; injection H as <-; reflexivity.
Qed.

Lemma deleteChat_ok (reqUser : UserModel.User) (chatId : string)
    (col col' : Collection) (r : Response) :
  deleteChat reqUser chatId col = (r, col') -> status r = 200%Z ->
  exists c',
    castObjectId chatId = Some (toLowerCase chatId)
    /\ findOneAndUpdate (toLowerCase chatId) (UserModel._id reqUser)
         (setIsActive false) col = (Some c', col').
Proof.
  unfold deleteChat, tryCatch, bind, castId, findOneAndUpdateM.
  destruct (castObjectId chatId) as [oid|] eqn:C; simpl.
  - pose proof (castObjectId_Some _ _ C) as ->.
    destruct (findOneAndUpdate (toLowerCase chatId) (UserModel._id reqUser)
                (setIsActive false) col) as [[c'|] col''] eqn:F; simpl.
    + intros H _; injection H as _ <-. exists c'; split; reflexivity.
    + intros H; injection H as <- _; simpl; discriminate.
  - intros H; injection H as <- _; simpl; discriminate.
Qed.

(** C3 as stated fails: after a successful delete the owner still
    fetches the chat, now flagged inactive. *)
Lemma getChat_after_deleteChat_succeeds :
  deleteChat Samples.ada (Samples.chatIdOf 1)
    [Samples.emptyChat 1 Samples.adaId true 5]
  = (mkResponse 200 (ChatDeleted (Samples.chatIdOf 1)),
     [Samples.emptyChat 1 Samples.adaId false 5])
  /\ getChat Samples.ada (Samples.chatIdOf 1) None
       [Samples.emptyChat 1 Samples.adaId false 5]
     = (mkResponse 200
          (ChatRetrieved
             (mkChatInfo (Samples.chatIdOf 1) "New Chat" 5 5 0 false) []),
        [Samples.emptyChat 1 Samples.adaId false 5]).
Proof. split; vm_compute; reflexivity. Qed.

(** C3, amended: after [deleteChat] has answered 200 for its owner,
    the chat is in no listing of [getChatHistory]; its document stays
    in the collection with [isActive = false]; and [getChat] by the
    same owner still answers 200 with that chat, reporting
    [isActive = false]. *)
Theorem deleteChat_hides_from_history (reqUser : UserModel.User)
    (chatId : string) (col col' : Collection) (r : Response) :
  NoDup (map _id col) ->
  deleteChat reqUser chatId col = (r, col') -> status r = 200%Z ->
  (forall queryLimit queryPage chats pg,
     fst (getChatHistory reqUser queryLimit queryPage col')
     = mkResponse 200 (ChatHistory chats pg) ->
     ~ In (toLowerCase chatId) (map summaryId chats))
  /\ (exists c, In c col' /\ _id c = toLowerCase chatId
                /\ userId c = UserModel._id reqUser /\ isActive c = false)
  /\ List.length col' = List.length col
  /\ (forall queryLimit, exists info msgs,
        getChat reqUser chatId queryLimit col'
        = (mkResponse 200 (ChatRetrieved info msgs), col')
        /\ infoId info = toLowerCase chatId
        /\ infoIsActive info = false).
Proof.
  intros Hnd Hdel Hok.
  destruct (deleteChat_ok _ _ _ _ _ Hdel Hok) as (c' & Hcast & Hupd).
  destruct (findOneAndUpdate_found _ _ _ _ _ _ (setIsActive_keys false) Hupd)
    as (l1 & c & l2 & -> & -> & -> & Hid & Hown & Hfind).
  split; [|split; [|split]].
  - intros queryLimit queryPage chats pg Hresp Hin.
    apply in_map_iff in Hin as [s [Hs Hin]].
    destruct (getChatHistory_items _ _ _ _ _ _ Hresp s Hin)
      as (x & Hx & -> & _ & Hact).
    simpl in Hs.
    rewrite map_app in Hnd; simpl in Hnd.
    apply NoDup_remove_2 in Hnd.
    apply in_app_or in Hx as [Hx | [<- | Hx]].
    + apply Hnd, in_or_app; left.
      apply in_map_iff; exists x; split; [congruence | exact Hx].
    + simpl in Hact; discriminate.
    + apply Hnd, in_or_app; right.
      apply in_map_iff; exists x; split; [congruence | exact Hx].
  - exists (setIsActive false c). repeat split; try assumption.
    apply in_or_app; right; left; reflexivity.
  - rewrite !length_app; reflexivity.
  - intros queryLimit.
    unfold getChat, tryCatch, bind, castId, findOneM.
    rewrite Hcast; simpl. rewrite Hfind; simpl.
    eexists; eexists; split; [reflexivity|]. simpl. split; [exact Hid | reflexivity].
Qed.

Lemma deleteChat_hides_from_history_witness :
  (forall queryLimit queryPage chats pg,
     fst (getChatHistory Samples.ada queryLimit queryPage
            [Samples.emptyChat 1 Samples.adaId false 5])
     = mkResponse 200 (ChatHistory chats pg) ->
     ~ In (toLowerCase (Samples.chatIdOf 1)) (map summaryId chats))
  /\ (exists c, In c [Samples.emptyChat 1 Samples.adaId false 5]
                /\ _id c = toLowerCase (Samples.chatIdOf 1)
                /\ userId c = UserModel._id Samples.ada /\ isActive c = false)
  /\ List.length [Samples.emptyChat 1 Samples.adaId false 5]
     = List.length [Samples.emptyChat 1 Samples.adaId true 5]
  /\ (forall queryLimit, exists info msgs,
        getChat Samples.ada (Samples.chatIdOf 1) queryLimit
          [Samples.emptyChat 1 Samples.adaId false 5]
        = (mkResponse 200 (ChatRetrieved info msgs),
           [Samples.emptyChat 1 Samples.adaId false 5])
        /\ infoId info = toLowerCase (Samples.chatIdOf 1)
        /\ infoIsActive info = false).
Proof.
  apply (deleteChat_hides_from_history Samples.ada (Samples.chatIdOf 1)
           [Samples.emptyChat 1 Samples.adaId true 5]
           [Samples.emptyChat 1 Samples.adaId false 5]
           (mkResponse 200 (ChatDeleted (Samples.chatIdOf 1)))).
  - repeat constructor. simpl; tauto.
  - vm_compute; reflexivity.
  - reflexivity.
Defined.

(** ** Sending a message *)

Lemma fitsSchema_trimmed (m : string) :
  trim m <> EmptyString -> (String.length m <= 5000)%nat -> fitsSchema (trim m).
Proof.
  intros Hne Hlen. unfold fitsSchema. rewrite JsFacts.trim_idem.
  split; [exact Hne|]. pose proof (JsFacts.trim_length m); lia.
Qed.

Lemma appended_trimmed (env : SendEnv) (m : string) (c : Chat) :
  appended (trim m) user (userStamp env) c = withUserEntry env m c.
Proof.
  unfold appended, withUserEntry, userEntry.
  rewrite JsFacts.trim_idem. reflexivity.
Qed.

Lemma appended_reply (env : SendEnv) (m text : string) (c : Chat) :
  appended text ai (aiStamp env) (withUserEntry env m c) = withReply env m text c.
Proof.
  unfold appended, withUserEntry, withReply; simpl.
  rewrite <- app_assoc. reflexivity.
Qed.

Lemma validChat_blank (env : SendEnv) (owner m : string) :
  trim m <> EmptyString -> validChat (blank env owner m) = true.
Proof.
  intros Hne. destruct (title_of_trimmed m Hne) as [Ht Hl].
  unfold validChat, blank; simpl. rewrite Ht.
  apply Nat.leb_le in Hl. rewrite Hl. reflexivity.
Qed.

Lemma Resolved_valid (env : SendEnv) (owner m : string) (col : Collection)
    (chatId : option string) (base : Chat) (write : Chat -> Collection) :
  trim m <> EmptyString -> Resolved env owner m col chatId base write ->
  validChat base = true.
Proof.
  intros Hne [F|F|c chat _ _ V]; try apply validChat_blank; assumption.
Qed.

Lemma validChat_withUserEntry (env : SendEnv) (m : string) (c : Chat) :
  trim m <> EmptyString -> (String.length m <= 5000)%nat -> validChat c = true ->
  validChat (withUserEntry env m c) = true.
Proof.
  intros Hne Hlen Hv. rewrite <- appended_trimmed.
  apply validChat_appended; [exact Hv | apply fitsSchema_trimmed; assumption].
Qed.

(** [createNew] for a first message that passed the guards. *)
Lemma createNew_saved (env : SendEnv) (owner m : string) (col : Collection) :
  trim m <> EmptyString -> (String.length m <= 5000)%nat ->
  createNew env owner (trim m) user col
  = (Normal (mkDoc (withUserEntry env m (blank env owner m)) false),
     (col ++ [withUserEntry env m (blank env owner m)])%list).
Proof.
  intros Hne Hlen.
  destruct (title_of_trimmed m Hne) as [Ht Hl]. apply Nat.leb_le in Hl.
  pose proof (validMessage_trim (trim m) user (stampTime (userStamp env))
                (stampId (userStamp env)) (fitsSchema_trimmed m Hne Hlen)) as Hm.
  rewrite JsFacts.trim_idem in Hm.
  unfold createNew, saveM, save, addMessage, newChat, onFields; simpl.
  rewrite JsFacts.trim_idem.
  unfold validChat; simpl. rewrite Ht, Hl, Hm; simpl.
  unfold preSave; simpl.
  assert (truthy (trim m) = true) as -> by (apply JsFacts.truthy_true; exact Hne).
  reflexivity.
Qed.

(** The first half of [sendMessage] on a request that resolves. *)
Lemma resolveChat_resolved (env : SendEnv) (reqUser : UserModel.User)
    (m : string) (chatId : option string) (col : Collection)
    (base : Chat) (write : Chat -> Collection) :
  trim m <> EmptyString -> (String.length m <= 5000)%nat ->
  Resolved env (UserModel._id reqUser) m col chatId base write ->
  resolveChat env reqUser m chatId col
  = (Normal (inr (mkDoc (withUserEntry env m base) false)),
     write (withUserEntry env m base)).
Proof.
  intros Hne Hlen [F|F|c chat Hv Hf Hc]; unfold resolveChat, bind; simpl.
  - rewrite (createNew_saved env _ m col Hne Hlen). reflexivity.
  - rewrite (createNew_saved env _ m col Hne Hlen). reflexivity.
  - assert (truthy c = true) as ->.
    { destruct c; [discriminate Hv | reflexivity]. }
    rewrite Hv; simpl. unfold findOneM. rewrite Hf. unfold saveM.
    rewrite (save_appended _ _ _ _ _ _ Hc (fitsSchema_trimmed m Hne Hlen)).
    rewrite appended_trimmed. reflexivity.
Qed.

Lemma findOne_In (oid owner : string) (col : Collection) (c : Chat) :
  findOne oid owner col = Some c -> In c col /\ _id c = oid /\ userId c = owner.
Proof.
  unfold findOne. intros H. apply find_some in H as [Hin Hb].
  apply andb_true_iff in Hb as [H1 H2].
  apply String.eqb_eq in H1, H2. auto.
Qed.

Lemma replaceById_In (c x : Chat) (col : Collection) :
  In x col -> _id x = _id c -> In c (replaceById c col).
Proof.
  induction col as [|y col IH]; simpl; [tauto|].
  intros Hin E. destruct (String.eqb_spec (_id y) (_id c)) as [Y|N].
  - left; reflexivity.
  - right. destruct Hin as [->|Hin]; [congruence | apply IH; assumption].
Qed.

(** Writing back a chat with the id of [base] stores it, and a second
    write replaces the first. *)
Lemma Resolved_write (env : SendEnv) (owner m : string) (col : Collection)
    (chatId : option string) (base : Chat) (write : Chat -> Collection) :
  Resolved env owner m col chatId base write ->
  forall c1 c2, _id c1 = _id base -> _id c2 = _id base ->
    In c1 (write c1) /\ replaceById c2 (write c1) = write c2.
Proof.
  intros [F|F|c chat Hv Hf Hc] c1 c2 E1 E2.
  - split; [apply in_or_app; right; left; reflexivity|].
    apply replaceById_last; [congruence | rewrite E1; exact F].
  - split; [apply in_or_app; right; left; reflexivity|].
    apply replaceById_last; [congruence | rewrite E1; exact F].
  - apply findOne_In in Hf as (Hin & _ & _). split.
    + apply (replaceById_In c1 chat); [exact Hin | congruence].
    + apply replaceById_twice; congruence.
Qed.

(** Whatever the gateway reports as a failure carries one of its
    fixed replies, which the message schema accepts unchanged. *)
Lemma fallback_fits (cfg : AiService.Config)
    (fetch : string -> AiService.Exchange) (m : string)
    (history : list Message) :
  let r := AiService.generateAIResponse cfg fetch m history in
  AiService.success r = false ->
  fitsSchema (AiService.content r) /\ trim (AiService.content r) = AiService.content r.
Proof.
  unfold AiService.generateAIResponse.
  destruct (negb (AiService.checkSuccess (AiService.validateGeminiConfig cfg)));
    [intros _; repeat split; vm_compute; (discriminate || lia || reflexivity)|].
  destruct (negb (truthy m) || (String.length (trim m) =? 0)%nat);
    [intros _; repeat split; vm_compute; (discriminate || lia || reflexivity)|].
  destruct (fetch _) as [thrown|status body];
    [intros _; repeat split; vm_compute; (discriminate || lia || reflexivity)|].
  destruct (negb (AiService.ok status)).
  - destruct (status =? 401)%Z;
      [intros _; repeat split; vm_compute; (discriminate || lia || reflexivity)|].
    destruct (status =? 429)%Z;
      [intros _; repeat split; vm_compute; (discriminate || lia || reflexivity)|].
    destruct (500 <=? status)%Z;
      intros _; repeat split; vm_compute; (discriminate || lia || reflexivity).
  - destruct body as [thrown|stringified [|thrown|text]];
      try (intros _; repeat split; vm_compute; (discriminate || lia || reflexivity)).
    simpl; discriminate.
Qed.

(** [sendMessage] on a request that resolves and whose reply the
    schema accepts. *)
Lemma sendMessage_resolved (env : SendEnv) (reqUser : UserModel.User)
    (m : string) (chatId : option string) (col : Collection)
    (base : Chat) (write : Chat -> Collection) :
  trim m <> EmptyString -> (String.length m <= 5000)%nat ->
  Resolved env (UserModel._id reqUser) m col chatId base write ->
  let r := AiService.generateAIResponse (config env) (fetch env) m
             (messages base ++ [userEntry env m]) in
  fitsSchema (AiService.content r) ->
  sendMessage env reqUser (Some m) chatId col
  = (mkResponse 200
       (MessageSent (_id base)
          (snd (getRecentMessages 20
                  (mkDoc (withReply env m (AiService.content r) base) false)))
          (List.length (messages base) + 2)
          (if AiService.success r then "success" else "error")
          (if AiService.success r then None else AiService.error r)),
     write (withReply env m (AiService.content r) base)).
Proof.
  intros Hne Hlen Hres r Hfit.
  destruct (guards_pass m Hne Hlen) as [G1 G2].
  pose proof (Resolved_valid _ _ _ _ _ _ _ Hne Hres) as Hbase.
  pose proof (validChat_withUserEntry env m base Hne Hlen Hbase) as Hv.
  unfold sendMessage, tryCatch. rewrite G1, G2. unfold bind.
  rewrite (resolveChat_resolved _ _ _ _ _ _ _ Hne Hlen Hres).
  cbv beta iota. unfold saveM.
  change (messages (fields (mkDoc (withUserEntry env m base) false)))
    with (messages base ++ [userEntry env m])%list.
  fold r.
  rewrite (save_appended _ _ _ _ _ _ Hv Hfit), appended_reply.
  destruct (Resolved_write _ _ _ _ _ _ _ Hres
              (withUserEntry env m base)
              (withReply env m (AiService.content r) base)
              eq_refl eq_refl) as [_ ->].
  unfold ret, getMessageCount; simpl.
  rewrite (Permutation_length (sort_perm _ _)), length_app; simpl. reflexivity.
Qed.

(** A well-formed [chatId] that names no chat of the caller: the
    explicit guard answers 404 and nothing is written. *)
Lemma sendMessage_unknown_chat (env : SendEnv) (reqUser : UserModel.User)
    (m other : string) (col : Collection) :
  trim m <> EmptyString -> (String.length m <= 5000)%nat ->
  isValidObjectId other = true ->
  findOne (toLowerCase other) (UserModel._id reqUser) col = None ->
  sendMessage env reqUser (Some m) (Some other) col
  = (mkResponse 404 (Failure "Chat not found or access denied"), col).
Proof.
  intros Hne Hlen Hv Hf. destruct (guards_pass m Hne Hlen) as [G1 G2].
  unfold sendMessage, tryCatch. rewrite G1, G2.
  unfold bind, resolveChat.
  assert (truthy other = true) as -> by (destruct other; [discriminate Hv | reflexivity]).
  rewrite Hv; simpl. unfold bind, findOneM. rewrite Hf. reflexivity.
Qed.




(** ** Validation of the message *)

(** C6 as stated fails: one letter followed by 5000 spaces is within
    bounds once trimmed, and is refused. *)
Lemma sendMessage_rejects_padded_message :
  trim ("a" ++ Samples.replicate 5000 " ") = "a"
  /\ sendMessage (Samples.sendEnv (Samples.answering "Hi there")) Samples.ada
       (Some ("a" ++ Samples.replicate 5000 " ")) None []
     = (mkResponse 400 (Failure "Message cannot exceed 5000 characters"), []).
Proof. split; vm_compute; reflexivity. Qed.

Lemma resolveChat_inl (env : SendEnv) (reqUser : UserModel.User)
    (m : string) (chatId : option string) (col col1 : Collection)
    (resp : Response) :
  resolveChat env reqUser m chatId col = (Normal (inl resp), col1) ->
  status resp = 404%Z.
Proof.
  unfold resolveChat, bind, createNew, saveM, findOneM, ret, throw.
  destruct chatId as [c|].
  - destruct (truthy c).
    + destruct (negb (isValidObjectId c)); [discriminate|].
      destruct (findOne _ _ col).
      * destruct (save _ _ col) as [[d|e] col']; discriminate.
      * intros H; injection H as <- _; reflexivity.
    + destruct (save _ _ col) as [[d|e] col']; discriminate.
  - destruct (save _ _ col) as [[d|e] col']; discriminate.
Qed.

Lemma sendMessage_accepted_status (env : SendEnv) (reqUser : UserModel.User)
    (m : string) (chatId : option string) (col : Collection) :
  trim m <> EmptyString -> (String.length m <= 5000)%nat ->
  status (fst (sendMessage env reqUser (Some m) chatId col)) <> 400%Z.
Proof.
  intros Hne Hlen. destruct (guards_pass m Hne Hlen) as [G1 G2].
  unfold sendMessage, tryCatch. rewrite G1, G2. unfold bind.
  destruct (resolveChat env reqUser m chatId col) as [[[resp|d]|e] col1] eqn:R.
  - simpl. rewrite (resolveChat_inl _ _ _ _ _ _ _ R). discriminate.
  - destruct (saveM _ _ col1) as [[d2|e] col2]; [|simpl; discriminate].
    destruct (getRecentMessages 20 d2); simpl; discriminate.
  - simpl; discriminate.
Qed.

(** C6, amended: the request is refused with 400 exactly when the
    content is missing, is empty after trimming, or is longer than
    5000 characters before trimming.  Any other content is never
    answered 400: when the conversation of the request resolves (no
    chatId, or the well-formed chatId of a chat of the caller) it is
    stored in that conversation as its trimmed form, whole; when a
    well-formed chatId names no chat of the caller the answer is 404
    and nothing is stored. *)
Theorem sendMessage_validation (env : SendEnv) (reqUser : UserModel.User)
    (message chatId : option string) (col : Collection) :
  (status (fst (sendMessage env reqUser message chatId col)) = 400%Z
   <-> rejected message)
  /\ (forall m base write,
        message = Some m -> ~ rejected message ->
        Resolved env (UserModel._id reqUser) m col chatId base write ->
        exists stored rest,
          In stored (snd (sendMessage env reqUser message chatId col))
          /\ _id stored = _id base
          /\ messages stored
             = (messages base
                ++ mkMessage (trim m) user (stampTime (userStamp env))
                             (stampId (userStamp env)) :: rest)%list)
  /\ (forall m other,
        message = Some m -> ~ rejected message ->
        chatId = Some other -> isValidObjectId other = true ->
        findOne (toLowerCase other) (UserModel._id reqUser) col = None ->
        sendMessage env reqUser message chatId col
        = (mkResponse 404 (Failure "Chat not found or access denied"), col)).
Proof.
  split; [|split].
  - destruct message as [m|]; [|simpl; tauto].
    destruct (string_dec (trim m) EmptyString) as [E|Hne].
    + split; [intros _; left; exact E|]. intros _.
      unfold sendMessage, tryCatch. rewrite E; simpl.
      rewrite orb_true_r. reflexivity.
    + destruct (le_lt_dec (String.length m) 5000) as [Hlen|Hlong].
      * split.
        -- intros H. exfalso.
           exact (sendMessage_accepted_status env reqUser m chatId col Hne Hlen H).
        -- intros [E|Hlong]; [contradiction | lia].
      * split; [intros _; right; exact Hlong|]. intros _.
        unfold sendMessage, tryCatch.
        destruct (negb (truthy m) || (String.length (trim m) =? 0)%nat);
          [reflexivity|].
        apply Nat.ltb_lt in Hlong. rewrite Hlong. reflexivity.
  - intros m base write -> Hacc Hres.
    assert (trim m <> EmptyString) as Hne by (intros E; apply Hacc; left; exact E).
    assert (String.length m <= 5000)%nat as Hlen.
    { destruct (le_lt_dec (String.length m) 5000); [assumption|].
      exfalso; apply Hacc; right; assumption. }
    destruct (guards_pass m Hne Hlen) as [G1 G2].
    unfold sendMessage, tryCatch. rewrite G1, G2. unfold bind.
    rewrite (resolveChat_resolved _ _ _ _ _ _ _ Hne Hlen Hres).
    cbv beta iota. unfold saveM.
    match goal with
    | |- context [save ?now ?doc ?c] =>
        destruct (validChat (fields doc)) eqn:V;
        [rewrite (save_stored_nonempty now doc c eq_refl V
                    (emptyLog_addMessage _ _ _ _))
        |unfold save; rewrite V]
    end.
    + match goal with
      | |- context [replaceById ?c _] => set (final := c)
      end.
      assert (_id final = _id base) as Hid.
      { unfold final, preSave; simpl. rewrite last_of_app. reflexivity. }
      assert (messages final
              = ((messages base ++ [userEntry env m])
                 ++ [mkMessage (trim (AiService.content
                       (AiService.generateAIResponse (config env) (fetch env) m
                          (messages base ++ [userEntry env m]))))
                     ai (stampTime (aiStamp env)) (stampId (aiStamp env))])%list)
        as Hm.
      { unfold final, preSave; simpl. rewrite last_of_app. reflexivity. }
      rewrite <- app_assoc in Hm.
      destruct (Resolved_write _ _ _ _ _ _ _ Hres
                  (withUserEntry env m base) final eq_refl Hid) as [Hin Hw].
      eexists final, _. split; [|split; [exact Hid | exact Hm]].
      destruct (getRecentMessages 20 _); simpl.
      apply (replaceById_In final (withUserEntry env m base)); [exact Hin|].
      rewrite Hid; reflexivity.
    + simpl.
      exists (withUserEntry env m base), []. split; [|split; reflexivity].
      apply (Resolved_write _ _ _ _ _ _ _ Hres
               (withUserEntry env m base) (withUserEntry env m base)
               eq_refl eq_refl).
  - intros m other -> Hacc -> Hv Hf.
    assert (trim m <> EmptyString) as Hne by (intros E; apply Hacc; left; exact E).
    assert (String.length m <= 5000)%nat as Hlen.
    { destruct (le_lt_dec (String.length m) 5000); [assumption|].
      exfalso; apply Hacc; right; assumption. }
    apply sendMessage_unknown_chat; assumption.
Qed.

Lemma sendMessage_validation_witness :
  (status (fst (sendMessage (Samples.sendEnv (Samples.answering "Hi there"))
                  Samples.ada (Some " Hello! ") None [])) = 400%Z
   <-> rejected (Some " Hello! "))
  /\ exists stored rest,
       In stored (snd (sendMessage (Samples.sendEnv (Samples.answering "Hi there"))
                         Samples.ada (Some " Hello! ") None []))
       /\ _id stored = Samples.chatIdOf 9
       /\ messages stored = mkMessage "Hello!" user 2000 "2000-ccccccccc" :: rest.
Proof.
  destruct (sendMessage_validation (Samples.sendEnv (Samples.answering "Hi there"))
              Samples.ada (Some " Hello! ") None []) as (H1 & H2 & _).
  split; [exact H1|].
  apply (H2 " Hello! "
            (blank (Samples.sendEnv (Samples.answering "Hi there"))
                   Samples.adaId " Hello! ")
            (fun c => ([] ++ [c])%list) eq_refl).
  - intros [H|H]; vm_compute in H; [discriminate | lia].
  - constructor. simpl; tauto.
Defined.

End ChatControllerFacts.

(* ================================================================== *)
(** * Registration *)
(* ================================================================== *)

Module UserModelFacts.
Import Js UserModel Notions.

Ltac each_char c := destruct c as [[] [] [] [] [] [] [] []]; reflexivity.

Lemma lowerChar_isWhiteSpace (c : ascii) :
  isWhiteSpace (lowerChar c) = isWhiteSpace c.
Proof. each_char c. Qed.

Lemma lowerChar_at (c : ascii) : Ascii.eqb (lowerChar c) "@" = Ascii.eqb c "@".
Proof. each_char c. Qed.

Lemma lowerChar_dot (c : ascii) : Ascii.eqb (lowerChar c) "." = Ascii.eqb c ".".
Proof. each_char c. Qed.

Lemma lowerChar_idem (c : ascii) : lowerChar (lowerChar c) = lowerChar c.
Proof. each_char c. Qed.

Lemma toLowerCase_idem (s : string) : toLowerCase (toLowerCase s) = toLowerCase s.
Proof.
  induction s as [|c s IH]; simpl; [reflexivity|].
  rewrite lowerChar_idem, IH; reflexivity.
Qed.

Lemma truthy_toLowerCase (s : string) : truthy (toLowerCase s) = truthy s.
Proof. destruct s; reflexivity. Qed.

Lemma split_toLowerCase (s : string) :
  split "@" (toLowerCase s) = map toLowerCase (split "@" s).
Proof.
  induction s as [|c s IH]; simpl; [reflexivity|].
  rewrite lowerChar_at, IH.
  destruct (Ascii.eqb c "@"); [reflexivity|].
  destruct (split "@" s); reflexivity.
Qed.

Lemma notSpaceNorAt_toLowerCase (s : string) :
  forallb_string notSpaceNorAt (toLowerCase s) = forallb_string notSpaceNorAt s.
Proof.
  induction s as [|c s IH]; simpl; [reflexivity|].
  unfold notSpaceNorAt at 1 3.
  rewrite lowerChar_isWhiteSpace, lowerChar_at, IH; reflexivity.
Qed.

Lemma hasDotBeforeLast_toLowerCase (s : string) :
  hasDotBeforeLast (toLowerCase s) = hasDotBeforeLast s.
Proof.
  induction s as [|c s IH]; [reflexivity|].
  destruct s as [|d s]; [reflexivity|].
  change (hasDotBeforeLast (toLowerCase (String c (String d s))))
    with (Ascii.eqb (lowerChar c) "."
          || hasDotBeforeLast (toLowerCase (String d s))).
  rewrite IH, lowerChar_dot. reflexivity.
Qed.

(** Letter case does not matter to the email pattern. *)
Lemma emailRegex_toLowerCase (s : string) :
  emailRegex (toLowerCase s) = emailRegex s.
Proof.
  unfold emailRegex. rewrite split_toLowerCase.
  destruct (split "@" s) as [|l [|d [|x xs]]]; simpl; try reflexivity.
  rewrite truthy_toLowerCase, !notSpaceNorAt_toLowerCase.
  destruct d as [|a d]; simpl; [reflexivity|].
  rewrite hasDotBeforeLast_toLowerCase. reflexivity.
Qed.

Lemma split_nonempty (sep : ascii) (s : string) : split sep s <> [].
Proof.
  destruct s as [|c s]; simpl; [discriminate|].
  destruct (Ascii.eqb c sep); [discriminate|].
  destruct (split sep s); discriminate.
Qed.

Lemma split_one (sep : ascii) (s p : string) : split sep s = [p] -> s = p.
Proof.
  revert p. induction s as [|c s IH]; simpl; intros p.
  - intros H; injection H as <-; reflexivity.
  - destruct (Ascii.eqb c sep).
    + intros H; injection H as _ H. exfalso; exact (split_nonempty _ _ H).
    + destruct (split sep s) as [|q qs] eqn:E;
        [exfalso; exact (split_nonempty _ _ E)|].
      intros H; injection H as <- ->. rewrite (IH q eq_refl). reflexivity.
Qed.

Lemma split_two (sep : ascii) (s l d : string) :
  split sep s = [l; d] -> s = l ++ String sep d.
Proof.
  revert l. induction s as [|c s IH]; simpl; intros l; [discriminate|].
  destruct (Ascii.eqb_spec c sep) as [->|N].
  - intros H; injection H as <- H. rewrite (split_one _ _ _ H). reflexivity.
  - destruct (split sep s) as [|q qs] eqn:E;
      [exfalso; exact (split_nonempty _ _ E)|].
    intros H; injection H as <- ->. rewrite (IH q eq_refl). reflexivity.
Qed.

Lemma forallb_string_app (p : ascii -> bool) (s t : string) :
  forallb_string p (s ++ t) = forallb_string p s && forallb_string p t.
Proof.
  induction s as [|c s IH]; simpl; [reflexivity|].
  rewrite IH, andb_assoc; reflexivity.
Qed.

Lemma notSpaceNorAt_noSpace (s : string) :
  forallb_string notSpaceNorAt s = true -> noSpace s = true.
Proof.
  unfold noSpace. induction s as [|c s IH]; simpl; [reflexivity|].
  unfold notSpaceNorAt at 1. intros H.
  apply andb_true_iff in H as [H1 H2]. apply andb_true_iff in H1 as [H1 _].
  rewrite H1, (IH H2). reflexivity.
Qed.

(** An address the pattern accepts holds no white space. *)
Lemma emailRegex_noSpace (s : string) : emailRegex s = true -> noSpace s = true.
Proof.
  unfold emailRegex.
  destruct (split "@" s) as [|l [|d [|x xs]]] eqn:E; try discriminate.
  intros H. rewrite (split_two _ _ _ _ E).
  apply andb_true_iff in H as [H _]. apply andb_true_iff in H as [H Hd].
  apply andb_true_iff in H as [_ Hl].
  unfold noSpace. rewrite forallb_string_app.
  fold (noSpace l). rewrite (notSpaceNorAt_noSpace _ Hl). simpl.
  fold (noSpace d). apply (notSpaceNorAt_noSpace _ Hd).
Qed.

Lemma emailRegex_truthy (s : string) : emailRegex s = true -> truthy s = true.
Proof. destruct s; [discriminate | reflexivity]. Qed.

Lemma noSpace_trimEnd (s : string) : noSpace s = true -> trimEnd s = s.
Proof.
  unfold noSpace. induction s as [|c s IH]; simpl; [reflexivity|].
  intros H. apply andb_true_iff in H as [Hc Hs].
  apply negb_true_iff in Hc. rewrite (IH Hs), Hc.
  destruct s; reflexivity.
Qed.

Lemma noSpace_trim (s : string) : noSpace s = true -> trim s = s.
Proof.
  intros H. unfold trim.
  assert (trimStart s = s) as ->.
  { destruct s as [|c s]; [reflexivity|].
    unfold noSpace in H; simpl in H.
    apply andb_true_iff in H as [Hc _]. apply negb_true_iff in Hc.
    simpl. rewrite Hc. reflexivity. }
  apply noSpace_trimEnd; exact H.
Qed.

Lemma noSpace_toLowerCase (s : string) : noSpace (toLowerCase s) = noSpace s.
Proof.
  unfold noSpace. induction s as [|c s IH]; simpl; [reflexivity|].
  rewrite lowerChar_isWhiteSpace, IH; reflexivity.
Qed.

(** What is stored for, and looked up from, an accepted address. *)
Lemma stored_email (e : string) :
  emailRegex e = true -> setEmail (trim (toLowerCase e)) = toLowerCase e.
Proof.
  intros H. apply emailRegex_noSpace in H.
  rewrite <- noSpace_toLowerCase in H.
  unfold setEmail. rewrite !(noSpace_trim _ H). apply toLowerCase_idem.
Qed.

Lemma lookup_email (e : string) :
  emailRegex e = true -> setEmail (toLowerCase e) = toLowerCase e.
Proof.
  intros H. apply emailRegex_noSpace in H.
  rewrite <- noSpace_toLowerCase in H.
  unfold setEmail. rewrite (noSpace_trim _ H). apply toLowerCase_idem.
Qed.

End UserModelFacts.

Module AuthFacts.
Import Js Http AuthController Notions.

Lemma find_matches {A : Type} (f : A -> bool) (l : list A) (x : A) :
  In x l -> f x = true -> find f l <> None.
Proof.
  intros Hin Hx H. pose proof (find_none f _ H x Hin) as N.
  rewrite Hx in N. discriminate N.
Qed.

Section WithLibraries.
Context {B : UserModel.Bcrypt} {J : JsonWebToken.Lib}.
Variable cfg : Config.

(** A registration answered with 201 has appended one user, whose
    email is the lower-cased address and whose password field is
    the hash. *)
Lemma signup_created (env : SignupEnv) (n e p : option string)
    (col col1 : UserModel.Collection) (r : Response) :
  signup cfg env n e p col = (r, col1) -> status r = 201%Z ->
  exists name email password,
    n = Some name /\ e = Some email /\ p = Some password
    /\ UserModel.emailRegex email = true
    /\ col1 = (col ++ [UserModel.mkUser (newId env) (trim (trim name))
                         (toLowerCase email)
                         (UserModel.hash password 12 (salt env))])%list.
Proof.
  unfold signup, present.
  destruct n as [n|]; [destruct (truthy n)|];
    (destruct e as [e|]; [destruct (truthy e)|]);
    (destruct p as [p|]; [destruct (truthy p)|]);
    try (intros H; injection H as <- _; simpl; discriminate).
  destruct (UserModel.emailRegex e) eqn:R; simpl;
    [|intros H; injection H as <- _; simpl; discriminate].
  destruct (String.length p <? 6)%nat;
    [intros H; injection H as <- _; simpl; discriminate|].
  destruct (UserModel.findByEmail e col);
    [intros H; injection H as <- _; simpl; discriminate|].
  unfold UserModel.save.
  destruct (UserModel.validUser _).
  - destruct (existsb _ col);
      [intros H; injection H as <- _; simpl; discriminate|].
    intros H _; injection H as _ <-.
    exists n, e, p.
    split; [reflexivity|]. split; [reflexivity|]. split; [reflexivity|].
    split; [exact R|].
    pose proof (UserModelFacts.stored_email e R) as S.
    unfold UserModel.setEmail in S.
    unfold UserModel.preSave, UserModel.newUser, UserModel.setEmail; simpl.
    rewrite S. reflexivity.
  - simpl. intros H; injection H as <- _; simpl; discriminate.
Qed.

(** C9, amended: once a registration has been answered with 201, a
    later registration with the same address up to letter case
    stores nothing: it is answered with 409 when it carries a name
    and a password of six characters or more, and with 400, by the
    field checks made before the lookup, when its name or password
    is missing or its password is shorter; the address stored by the
    first is its lower-cased, trimmed form. *)
Theorem signup_duplicate_email (env1 env2 : SignupEnv)
    (n1 e1 p1 : option string) (e2 address : string)
    (col col1 col2 : UserModel.Collection) (r1 : Response) :
  signup cfg env1 n1 e1 p1 col = (r1, col1) -> status r1 = 201%Z ->
  e1 = Some address ->
  toLowerCase e2 = toLowerCase address ->
  incl col1 col2 ->
  (forall n2 p2, n2 <> EmptyString -> (6 <= String.length p2)%nat ->
     signup cfg env2 (Some n2) (Some e2) (Some p2) col2
     = (mkResponse 409 (Failure "User with this email already exists"), col2))
  /\ (exists u, col1 = (col ++ [u])%list
                /\ UserModel.email u = trim (toLowerCase address)
                /\ toLowerCase (UserModel.email u) = UserModel.email u
                /\ trim (UserModel.email u) = UserModel.email u)
  /\ (forall n p, refusedFields n p ->
        status (fst (signup cfg env2 n (Some e2) p col2)) = 400%Z
        /\ snd (signup cfg env2 n (Some e2) p col2) = col2).
Proof.
  intros H1 Hok -> Hcase Hincl.
  destruct (signup_created _ _ _ _ _ _ _ H1 Hok)
    as (name & email & password & -> & He & -> & R & ->).
  injection He as <-.
  pose proof (UserModelFacts.emailRegex_noSpace _ R) as Hns.
  rewrite <- UserModelFacts.noSpace_toLowerCase in Hns.
  assert (UserModel.emailRegex e2 = true) as R2.
  { rewrite <- UserModelFacts.emailRegex_toLowerCase, Hcase,
      UserModelFacts.emailRegex_toLowerCase. exact R. }
  split.
  - intros n2 p2 Hn Hp. unfold signup, present.
    assert (truthy n2 = true) as -> by (apply JsFacts.truthy_true; exact Hn).
    rewrite (UserModelFacts.emailRegex_truthy _ R2).
    assert (truthy p2 = true) as ->.
    { destruct p2; [simpl in Hp; lia | reflexivity]. }
    rewrite R2; simpl.
    assert ((String.length p2 <? 6)%nat = false) as ->
      by (apply Nat.ltb_ge; exact Hp).
    destruct (UserModel.findByEmail e2 col2) eqn:F; [reflexivity|].
    exfalso. unfold UserModel.findByEmail in F.
    rewrite (UserModelFacts.lookup_email _ R2), Hcase in F.
    revert F. apply find_matches with
      (x := UserModel.mkUser (newId env1) (trim (trim name))
              (toLowerCase address)
              (UserModel.hash password 12 (salt env1))).
    + apply Hincl, in_or_app; right; left; reflexivity.
    + simpl. apply String.eqb_refl.
  - split.
    + eexists; split; [reflexivity|]. simpl.
      rewrite (UserModelFacts.noSpace_trim _ Hns).
      split; [reflexivity|].
      split; [apply UserModelFacts.toLowerCase_idem | reflexivity].
    + intros n p Href. unfold signup, present.
      rewrite (UserModelFacts.emailRegex_truthy _ R2).
      destruct Href as [[-> | ->]|[[-> | ->]|(pw & -> & Hshort)]];
        try (split; reflexivity);
        try (destruct n as [n|]; [destruct (truthy n)|]; split; reflexivity).
      destruct n as [n|]; [destruct (truthy n)|]; try (split; reflexivity).
      destruct (truthy pw); [|split; reflexivity].
      rewrite R2; simpl.
      apply Nat.ltb_lt in Hshort. rewrite Hshort. split; reflexivity.
Qed.

(** The password field of a stored user is what [bcrypt.hash]
    returned, and [login] succeeds for a found user exactly when
    [bcrypt.compare] accepts the candidate. *)
Lemma login_follows_compare (now : Z) (e p : string) (u : UserModel.User)
    (col : UserModel.Collection) :
  e <> EmptyString -> p <> EmptyString -> UserModel.findByEmail e col = Some u ->
  (status (login cfg now (Some e) (Some p) col) = 200%Z
   <-> UserModel.compare p (UserModel.password u) = true).
Proof.
  intros He Hp Hf. unfold login, present.
  apply JsFacts.truthy_true in He, Hp. rewrite He, Hp, Hf.
  unfold UserModel.comparePassword.
  destruct (UserModel.compare p (UserModel.password u)); simpl;
    split; congruence.
Qed.

End WithLibraries.

(** C9 as stated fails: after Ada has registered, a registration
    with her address in capitals and a password of three characters
    is answered with 400, not with 409. *)
Lemma second_registration_short_password :
  signup (B := Samples.standInBcrypt) (J := Samples.standInJwt) defaultConfig
    (mkSignupEnv Samples.adaId "abcdefghijklmnopqrstuv" 0)
    (Some "Ada") (Some "Ada@X.com") (Some "secret1") []
  = (mkResponse 201
       (Authenticated (UserModel.mkProfile Samples.adaId "Ada" "ada@x.com")
          (generateToken (J := Samples.standInJwt) defaultConfig 0 Samples.ada)),
     [Samples.ada])
  /\ toLowerCase "ADA@X.COM" = toLowerCase "Ada@X.com"
  /\ signup (B := Samples.standInBcrypt) (J := Samples.standInJwt)
       defaultConfig
       (mkSignupEnv Samples.bobId "vutsrqponmlkjihgfedcba" 5000)
       (Some "Eve") (Some "ADA@X.COM") (Some "abc") [Samples.ada]
     = (mkResponse 400 (Failure "Password must be at least 6 characters long"),
        [Samples.ada]).
Proof. repeat split; vm_compute; reflexivity. Qed.

Lemma signup_duplicate_email_witness :
  signup (B := Samples.standInBcrypt) (J := Samples.standInJwt) defaultConfig
    (mkSignupEnv Samples.bobId "vutsrqponmlkjihgfedcba" 5000)
    (Some "Eve") (Some "ADA@X.COM") (Some "password") [Samples.ada]
  = (mkResponse 409 (Failure "User with this email already exists"),
     [Samples.ada])
  /\ (exists u, [Samples.ada] = ([] ++ [u])%list
                /\ UserModel.email u = trim (toLowerCase "Ada@X.com")
                /\ toLowerCase (UserModel.email u) = UserModel.email u
                /\ trim (UserModel.email u) = UserModel.email u)
  /\ (forall n p, refusedFields n p ->
        status (fst (signup (B := Samples.standInBcrypt)
                       (J := Samples.standInJwt) defaultConfig
                       (mkSignupEnv Samples.bobId "vutsrqponmlkjihgfedcba" 5000)
                       n (Some "ADA@X.COM") p [Samples.ada])) = 400%Z
        /\ snd (signup (B := Samples.standInBcrypt)
                  (J := Samples.standInJwt) defaultConfig
                  (mkSignupEnv Samples.bobId "vutsrqponmlkjihgfedcba" 5000)
                  n (Some "ADA@X.COM") p [Samples.ada]) = [Samples.ada]).
Proof.
  destruct (signup_duplicate_email (B := Samples.standInBcrypt)
              (J := Samples.standInJwt) defaultConfig
              (mkSignupEnv Samples.adaId "abcdefghijklmnopqrstuv" 0)
              (mkSignupEnv Samples.bobId "vutsrqponmlkjihgfedcba" 5000)
              (Some "Ada") (Some "Ada@X.com") (Some "secret1")
              "ADA@X.COM" "Ada@X.com"
              [] [Samples.ada] [Samples.ada]
              (mkResponse 201
                 (Authenticated
                    (UserModel.mkProfile Samples.adaId "Ada" "ada@x.com")
                    "jwt.650000000000000000000001_604800.262241")))
    as (Hduplicate & Hstored & Hrefused).
  - vm_compute; reflexivity.
  - reflexivity.
  - reflexivity.
  - vm_compute; reflexivity.
  - apply incl_refl.
  - split; [|split; [exact Hstored | exact Hrefused]].
    apply Hduplicate; [discriminate | vm_compute; lia].
Defined.

End AuthFacts.

(* ================================================================== *)
(** * Session tokens *)
(* ================================================================== *)

Module TokenFacts.
Import Js Http AuthController Notions.

Lemma split_free (sep : ascii) (s : string) :
  forallb_string (fun c => negb (Ascii.eqb c sep)) s = true ->
  split sep s = [s].
Proof.
  induction s as [|c s IH]; simpl; [reflexivity|].
  intros H. apply andb_true_iff in H as [Hc Hs].
  apply negb_true_iff in Hc. rewrite Hc, (IH Hs). reflexivity.
Qed.

Lemma bearerToken_of (t : string) :
  noBlank t = true -> bearerToken (Some ("Bearer " ++ t)) = Some t.
Proof.
  intros H. unfold bearerToken. simpl.
  rewrite (split_free " " t H). reflexivity.
Qed.

Lemma split_length_cons (sep c : ascii) (s : string) :
  Ascii.eqb c sep = false ->
  List.length (split sep (String c s)) = List.length (split sep s).
Proof.
  intros E; simpl; rewrite E.
  destruct (split sep s) eqn:S; [|reflexivity].
  exfalso; exact (UserModelFacts.split_nonempty _ _ S).
Qed.

Lemma overwriteFirstDot_segments (s : string) (n : nat) :
  segments s = S (S n) -> segments (overwriteFirstDot s) = S n.
Proof.
  unfold segments. revert n. induction s as [|c s IH]; intros n.
  - simpl; discriminate.
  - simpl overwriteFirstDot. destruct (Ascii.eqb c ".") eqn:E.
    + rewrite (split_length_cons "." "x" s eq_refl).
      simpl. rewrite E. simpl. lia.
    + rewrite (split_length_cons _ _ _ E). intros H.
      rewrite (split_length_cons _ _ _ E). apply IH; exact H.
Qed.

Lemma overwriteFirstDot_apart (s : string) (n : nat) :
  segments s = S (S n) -> oneByteApart s (overwriteFirstDot s) = true.
Proof.
  unfold segments. induction s as [|c s IH].
  - simpl; discriminate.
  - simpl overwriteFirstDot. destruct (Ascii.eqb_spec c ".") as [->|N].
    + intros _; simpl. apply String.eqb_refl.
    + assert (Ascii.eqb c "." = false) as E by (apply Ascii.eqb_neq; exact N).
      rewrite (split_length_cons _ _ _ E). intros H.
      simpl. rewrite Ascii.eqb_refl. apply IH; exact H.
Qed.

Lemma overwriteFirstDot_noBlank (s : string) :
  noBlank s = true -> noBlank (overwriteFirstDot s) = true.
Proof.
  unfold noBlank. induction s as [|c s IH]; simpl; [reflexivity|].
  intros H. apply andb_true_iff in H as [Hc Hs].
  destruct (Ascii.eqb c "."); simpl; [exact Hs|].
  rewrite Hc, (IH Hs). reflexivity.
Qed.

Lemma overwriteFirstDot_nonempty (s : string) :
  s <> EmptyString -> overwriteFirstDot s <> EmptyString.
Proof.
  destruct s as [|c s]; [congruence|]. intros _. simpl.
  destruct (Ascii.eqb c "."); discriminate.
Qed.

Section WithLibrary.
Context {J : JsonWebToken.Lib}.
Variable cfg : Config.

(** The shape check comes first: a token that does not have three
    segments is answered before the library is asked. *)
Lemma authenticateToken_malformed (now : Z) (authorization : option string)
    (token : string) (col : UserModel.Collection) :
  bearerToken authorization = Some token -> token <> EmptyString ->
  segments token <> 3%nat ->
  authenticateToken cfg now authorization col
  = Respond (mkResponse 401 (Failure "Invalid token format")).
Proof.
  intros Hb Hne Hseg. unfold authenticateToken, present.
  rewrite Hb. apply JsFacts.truthy_true in Hne. rewrite Hne.
  apply Nat.eqb_neq in Hseg. unfold segments in Hseg. rewrite Hseg.
  reflexivity.
Qed.

(** After the shape check the answer follows the library. *)
Lemma authenticateToken_checked (now : Z) (authorization : option string)
    (token : string) (col : UserModel.Collection) :
  bearerToken authorization = Some token -> token <> EmptyString ->
  segments token = 3%nat ->
  authenticateToken cfg now authorization col
  = match JsonWebToken.verify token (JWT_SECRET cfg) now with
    | Throw e => Respond (tokenFailure e)
    | Normal decoded =>
        match UserModel.findById (JsonWebToken.id decoded) col with
        | Throw e => Respond (tokenFailure e)
        | Normal None =>
            Respond (mkResponse 401 (Failure "Invalid token - user not found"))
        | Normal (Some u) => Next u
        end
    end.
Proof.
  intros Hb Hne Hseg. unfold authenticateToken, present.
  rewrite Hb. apply JsFacts.truthy_true in Hne. rewrite Hne.
  unfold segments in Hseg. rewrite Hseg. reflexivity.
Qed.

Lemma findById_valid (oid : string) (col : UserModel.Collection)
    (found : option UserModel.User) :
  UserModel.findById oid col = Normal found ->
  ChatModel.isValidObjectId oid = true.
Proof.
  unfold UserModel.findById, ChatModel.castObjectId.
  destruct (ChatModel.isValidObjectId oid); [reflexivity | discriminate].
Qed.

(** The [catch] block maps two error names to 401 and everything
    else to 500: a three-segment bearer token on which [jwt.verify]
    throws an error of another name, as it does with SyntaxError for
    a payload that does not decode, is answered 500 "Token
    verification failed". *)
Theorem authenticateToken_other_error (now : Z) (x : string)
    (col : UserModel.Collection) (e : Error) :
  noBlank x = true -> segments x = 3%nat ->
  JsonWebToken.verify x (JWT_SECRET cfg) now = Throw e ->
  errorName e <> "JsonWebTokenError" ->
  errorName e <> "TokenExpiredError" ->
  authenticateToken cfg now (Some ("Bearer " ++ x)) col
  = Respond (mkResponse 500 (Failure "Token verification failed")).
Proof.
  intros Hx Hseg Hv Hn1 Hn2.
  assert (x <> EmptyString) as Hne
    by (intros E; rewrite E in Hseg; discriminate Hseg).
  rewrite (authenticateToken_checked now _ x col (bearerToken_of x Hx) Hne Hseg).
  rewrite Hv. unfold tokenFailure.
  apply String.eqb_neq in Hn1, Hn2. rewrite Hn1, Hn2. reflexivity.
Qed.

Variable expiresAt : string -> Z -> option Z.
Hypothesis lawful : Lawful J expiresAt.


End WithLibrary.

(** ** The stand-in library keeps the contract *)

Lemma split_app_sep (sep : ascii) (a b : string) :
  forallb_string (fun c => negb (Ascii.eqb c sep)) a = true ->
  split sep (a ++ String sep b) = a :: split sep b.
Proof.
  induction a as [|c a IH]; simpl.
  - intros _. rewrite Ascii.eqb_refl. reflexivity.
  - intros H. apply andb_true_iff in H as [Hc Ha].
    apply negb_true_iff in Hc. rewrite Hc, (IH Ha). reflexivity.
Qed.

Lemma forallb_string_impl (p q : ascii -> bool) (s : string) :
  (forall c, p c = true -> q c = true) ->
  forallb_string p s = true -> forallb_string q s = true.
Proof.
  intros Hpq. induction s as [|c s IH]; simpl; [reflexivity|].
  intros H. apply andb_true_iff in H as [Hc Hs].
  rewrite (Hpq c Hc), (IH Hs). reflexivity.
Qed.

Lemma plain_not (sep c : ascii) :
  Samples.plain sep = false -> Samples.plain c = true ->
  negb (Ascii.eqb c sep) = true.
Proof.
  intros Hs Hc. destruct (Ascii.eqb_spec c sep) as [->|N]; [|reflexivity].
  congruence.
Qed.

Lemma plain_free (sep : ascii) (s : string) :
  Samples.plain sep = false -> forallb_string Samples.plain s = true ->
  forallb_string (fun c => negb (Ascii.eqb c sep)) s = true.
Proof.
  intros Hs. apply forallb_string_impl. intros c. apply plain_not; exact Hs.
Qed.

Lemma isHexDigit_plain (c : ascii) :
  isHexDigit c = true -> Samples.plain c = true.
Proof.
  destruct c as [[] [] [] [] [] [] [] []]; intros H;
    vm_compute in H |- *; congruence.
Qed.

Lemma objectId_plain (oid : string) :
  ChatModel.isValidObjectId oid = true ->
  forallb_string Samples.plain oid = true.
Proof.
  unfold ChatModel.isValidObjectId. intros H.
  apply andb_true_iff in H as [_ H].
  revert H. apply forallb_string_impl, isHexDigit_plain.
Qed.

Lemma uint_plain (d : Decimal.uint) :
  forallb_string Samples.plain (NilEmpty.string_of_uint d) = true.
Proof. induction d; simpl; try rewrite IHd; reflexivity. Qed.

Lemma numberToString_plain (z : Z) :
  forallb_string Samples.plain (numberToString z) = true.
Proof.
  unfold numberToString, NilZero.string_of_int, NilZero.string_of_uint.
  destruct (Z.to_int z) as [d|d]; destruct d; simpl;
    try rewrite uint_plain; reflexivity.
Qed.

Lemma parseNumber_numberToString (z : Z) :
  Samples.parseNumber (numberToString z) = Some z.
Proof.
  unfold Samples.parseNumber, numberToString.
  rewrite NilZero.isi.
  - simpl. rewrite DecimalZ.of_to. reflexivity.
  - destruct z; simpl; try discriminate.
    intros H; injection H as H. exact (Unsigned.to_uint_nonnil _ H).
  - destruct z; simpl; try discriminate.
    intros H; injection H as H. exact (Unsigned.to_uint_nonnil _ H).
Qed.

Lemma claims_free (sep : ascii) (oid : string) (z : Z) :
  Samples.plain sep = false -> Ascii.eqb "_" sep = false ->
  ChatModel.isValidObjectId oid = true ->
  forallb_string (fun c => negb (Ascii.eqb c sep))
    (oid ++ "_" ++ numberToString z) = true.
Proof.
  intros Hs Hu Hoid. rewrite UserModelFacts.forallb_string_app.
  rewrite (plain_free sep oid Hs (objectId_plain oid Hoid)).
  change ("_" ++ numberToString z) with (String "_" (numberToString z)).
  cbn [forallb_string]. rewrite Hu.
  rewrite (plain_free sep _ Hs (numberToString_plain z)). reflexivity.
Qed.

(** How the stand-in takes apart a token it signed. *)
Lemma standInSign_split (p : JsonWebToken.Payload)
    (secret expiresIn : string) (issued : Z) :
  ChatModel.isValidObjectId (JsonWebToken.id p) = true ->
  split "." (Samples.standInSign p secret expiresIn issued)
  = ["jwt";
     JsonWebToken.id p ++ "_"
     ++ numberToString (issued / 1000 + Samples.lifetime expiresIn);
     Samples.seal secret
       (JsonWebToken.id p ++ "_"
        ++ numberToString (issued / 1000 + Samples.lifetime expiresIn))].
Proof.
  intros Hoid. unfold Samples.standInSign. cbv zeta.
  set (claims := JsonWebToken.id p ++ "_"
                 ++ numberToString (issued / 1000 + Samples.lifetime expiresIn)).
  change ("jwt." ++ claims ++ "." ++ Samples.seal secret claims)
    with ("jwt" ++ String "." (claims ++ String "." (Samples.seal secret claims))).
  rewrite split_app_sep by reflexivity.
  rewrite split_app_sep
    by (apply claims_free; [reflexivity | reflexivity | exact Hoid]).
  rewrite split_free; [reflexivity|].
  apply plain_free; [reflexivity | apply numberToString_plain].
Qed.

Lemma standInSign_claims (oid : string) (z : Z) :
  ChatModel.isValidObjectId oid = true ->
  split "_" (oid ++ "_" ++ numberToString z) = [oid; numberToString z].
Proof.
  intros Hoid.
  change (oid ++ "_" ++ numberToString z)
    with (oid ++ String "_" (numberToString z)).
  rewrite split_app_sep
    by (apply plain_free; [reflexivity | apply objectId_plain; exact Hoid]).
  rewrite split_free; [reflexivity|].
  apply plain_free; [reflexivity | apply numberToString_plain].
Qed.

Lemma standInVerify_standInSign (p : JsonWebToken.Payload)
    (secret expiresIn : string) (issued now : Z) :
  ChatModel.isValidObjectId (JsonWebToken.id p) = true ->
  Samples.standInVerify (Samples.standInSign p secret expiresIn issued)
    secret now
  = if (now / 1000 <? issued / 1000 + Samples.lifetime expiresIn)%Z
    then Normal (JsonWebToken.mkPayload (JsonWebToken.id p)
                   EmptyString EmptyString)
    else Throw (OtherError "TokenExpiredError" "jwt expired").
Proof.
  intros Hoid. unfold Samples.standInVerify.
  rewrite (standInSign_split p secret expiresIn issued Hoid).
  rewrite (standInSign_claims _ _ Hoid).
  rewrite parseNumber_numberToString.
  rewrite !String.eqb_refl. reflexivity.
Qed.

(** The stand-in satisfies the contract. *)
Lemma standInJwt_lawful : Lawful Samples.standInJwt Samples.standInExpiresAt.
Proof.
  constructor.
  - intros p secret expiresIn issued Hoid _. unfold segments. simpl JsonWebToken.sign.
    rewrite (standInSign_split p secret expiresIn issued Hoid).
    split; [reflexivity|].
    unfold noBlank, Samples.standInSign. cbv zeta.
    pose proof (claims_free " " (JsonWebToken.id p)
                  (issued / 1000 + Samples.lifetime expiresIn)
                  eq_refl eq_refl Hoid) as Hc.
    set (claims := JsonWebToken.id p ++ "_"
                   ++ numberToString (issued / 1000 + Samples.lifetime expiresIn))
      in *.
    change ("jwt." ++ claims ++ "." ++ Samples.seal secret claims)
      with (String "j" (String "w" (String "t" (String "."
              (claims ++ String "." (Samples.seal secret claims)))))).
    cbn [forallb_string].
    rewrite UserModelFacts.forallb_string_app, Hc.
    cbn [forallb_string].
    unfold Samples.seal.
    rewrite (plain_free " " _ eq_refl (numberToString_plain _)).
    reflexivity.
  - intros p secret expiresIn issued expiry now Hoid _ Hexp Hnow.
    injection Hexp as <-.
    exists (JsonWebToken.mkPayload (JsonWebToken.id p) EmptyString EmptyString).
    split; [|reflexivity]. simpl JsonWebToken.verify. simpl JsonWebToken.sign.
    rewrite (standInVerify_standInSign p secret expiresIn issued now Hoid).
    assert ((now / 1000 <? issued / 1000 + Samples.lifetime expiresIn)%Z = true)
      as ->; [|reflexivity].
    apply Z.ltb_lt. apply Z.div_lt_upper_bound; lia.
  - intros p secret expiresIn issued expiry now Hoid _ Hexp Hnow.
    injection Hexp as <-.
    exists (OtherError "TokenExpiredError" "jwt expired").
    split; [|reflexivity]. simpl JsonWebToken.verify. simpl JsonWebToken.sign.
    rewrite (standInVerify_standInSign p secret expiresIn issued now Hoid).
    assert ((now / 1000 <? issued / 1000 + Samples.lifetime expiresIn)%Z = false)
      as ->; [|reflexivity].
    apply Z.ltb_ge. apply Z.div_le_lower_bound; lia.
Qed.

Lemma authenticateToken_other_error_witness :
  authenticateToken (J := Samples.standInJwt) defaultConfig 1000
    (Some ("Bearer " ++ "jwt.650000000000000000000001_6048x0.262241"))
    [Samples.ada]
  = Respond (mkResponse 500 (Failure "Token verification failed")).
Proof.
  apply (authenticateToken_other_error (J := Samples.standInJwt) defaultConfig
           1000 "jwt.650000000000000000000001_6048x0.262241" [Samples.ada]
           (OtherError "SyntaxError" "Unexpected token in JSON"));
    try (vm_compute; reflexivity); vm_compute; discriminate.
Defined.



End TokenFacts.

(* ================================================================== *)
(** * More on sorting *)
(* ================================================================== *)

Module SortFacts.
Import Js.

Section ByKey.
Context {A : Type} (key : A -> Z) (cmp : A -> A -> Z).
Hypothesis cmp_key : forall a b, cmp a b = (key b - key a)%Z.

Lemma insertSorted_descending (x : A) (l : list A) :
  StronglySorted (fun a b => (key b <= key a)%Z) l ->
  StronglySorted (fun a b => (key b <= key a)%Z) (insertSorted cmp x l).
Proof.
  induction 1 as [|y l Hs IH Hy]; simpl.
  - repeat constructor.
  - rewrite cmp_key.
    destruct (Z.leb_spec (key y - key x) 0) as [L|G].
    + constructor; [constructor; assumption|].
      constructor; [lia|].
      eapply Forall_impl; [|exact Hy]. simpl; intros; lia.
    + constructor; [exact IH|].
      eapply Permutation_Forall;
        [apply Permutation_sym, ChatControllerFacts.insertSorted_perm|].
      constructor; [lia | exact Hy].
Qed.

Lemma sort_descending (l : list A) :
  StronglySorted (fun a b => (key b <= key a)%Z) (sort cmp l).
Proof.
  unfold sort. induction l as [|x l IH]; simpl; [constructor|].
  apply insertSorted_descending, IH.
Qed.

End ByKey.

Lemma StronglySorted_firstn {A : Type} (R : A -> A -> Prop) (n : nat)
    (l : list A) :
  StronglySorted R l -> StronglySorted R (firstn n l).
Proof.
  intros H. revert n. induction H as [|x l Hs IH Hx]; intros [|n]; simpl;
    try constructor.
  - apply IH.
  - rewrite Forall_forall in *. intros y Hy. apply Hx.
    apply (ChatControllerFacts.In_firstn n l y Hy).
Qed.

Lemma StronglySorted_across {A : Type} (R : A -> A -> Prop) (l1 l2 : list A) :
  StronglySorted R (l1 ++ l2) ->
  forall a b, In a l1 -> In b l2 -> R a b.
Proof.
  induction l1 as [|x l1 IH]; simpl; [tauto|].
  intros H a b [<-|Ha] Hb; inversion H as [|? ? Hs Hx]; subst.
  - rewrite Forall_forall in Hx. apply Hx, in_or_app; right; exact Hb.
  - apply IH; assumption.
Qed.

Lemma StronglySorted_snoc {A : Type} (R : A -> A -> Prop) (l : list A) (x : A) :
  StronglySorted R l -> Forall (fun y => R y x) l ->
  StronglySorted R (l ++ [x]).
Proof.
  induction 1 as [|y l Hs IH Hy]; simpl; intros Hx.
  - repeat constructor.
  - inversion Hx as [|? ? Hyx Hlx]; subst.
    constructor; [apply IH; exact Hlx|].
    apply Forall_app; split; [exact Hy | repeat constructor; exact Hyx].
Qed.

Lemma StronglySorted_rev {A : Type} (R : A -> A -> Prop) (l : list A) :
  StronglySorted R l -> StronglySorted (fun a b => R b a) (rev l).
Proof.
  induction 1 as [|x l Hs IH Hx]; simpl; [constructor|].
  apply StronglySorted_snoc; [exact IH|].
  apply Forall_rev. exact Hx.
Qed.

End SortFacts.

(* ================================================================== *)
(** * More on the Chat model *)
(* ================================================================== *)

Module LogFacts.
Import Js ChatModel Notions MoreNotions.

Lemma slice0_firstn {A : Type} (l : list A) (limit : Z) :
  (0 <= limit)%Z ->
  slice0 l limit = firstn (Nat.min (Z.to_nat limit) (List.length l)) l.
Proof.
  intros H. unfold slice0.
  destruct (Z.ltb_spec limit 0); [lia|]. f_equal. lia.
Qed.

(** What [getRecentMessages] returns for a limit that is not
    negative: as many entries as the limit allows, oldest first by
    timestamp, and no entry left out is newer than one returned. *)
Theorem getRecentMessages_window (limit : Z) (d : Doc) :
  (0 <= limit)%Z ->
  List.length (snd (getRecentMessages limit d))
  = Nat.min (Z.to_nat limit) (getMessageCount d)
  /\ StronglySorted oldestFirst (snd (getRecentMessages limit d))
  /\ exists older,
       Permutation (older ++ snd (getRecentMessages limit d))
                   (messages (fields d))
       /\ forall o m, In o older -> In m (snd (getRecentMessages limit d)) ->
                      (timestamp o <= timestamp m)%Z.
Proof.
  intros Hl. unfold getRecentMessages, getMessageCount; simpl.
  set (log := messages (fields d)).
  set (sorted := sort newestFirst log).
  assert (Permutation sorted log) as Hperm
    by apply ChatControllerFacts.sort_perm.
  assert (StronglySorted newestFirstOrder sorted) as Hsorted.
  { apply (SortFacts.sort_descending timestamp newestFirst).
    intros a b; reflexivity. }
  rewrite (slice0_firstn sorted limit Hl).
  rewrite (Permutation_length Hperm).
  set (k := Nat.min (Z.to_nat limit) (List.length log)).
  split; [|split].
  - rewrite length_rev, length_firstn, (Permutation_length Hperm).
    unfold k. lia.
  - apply (SortFacts.StronglySorted_rev newestFirstOrder).
    apply SortFacts.StronglySorted_firstn. exact Hsorted.
  - exists (skipn k sorted). split.
    + eapply perm_trans; [apply Permutation_app_comm|].
      eapply perm_trans;
        [apply Permutation_app_tail, Permutation_sym, Permutation_rev|].
      rewrite firstn_skipn. exact Hperm.
    + intros o m Ho Hm. apply in_rev in Hm.
      rewrite <- (firstn_skipn k sorted) in Hsorted.
      apply (SortFacts.StronglySorted_across _ _ _ Hsorted m o Hm Ho).
Qed.

Lemma getRecentMessages_window_witness :
  List.length (snd (getRecentMessages 1 Samples.tiedLog))
  = Nat.min (Z.to_nat 1) (getMessageCount Samples.tiedLog)
  /\ StronglySorted oldestFirst (snd (getRecentMessages 1 Samples.tiedLog))
  /\ exists older,
       Permutation (older ++ snd (getRecentMessages 1 Samples.tiedLog))
                   (messages (fields Samples.tiedLog))
       /\ forall o m, In o older ->
                      In m (snd (getRecentMessages 1 Samples.tiedLog)) ->
                      (timestamp o <= timestamp m)%Z.
Proof. apply (getRecentMessages_window 1 Samples.tiedLog). lia. Defined.

(** [getRecentMessages] leaves the document with the same entries,
    newest first, and nothing else changed. *)
Theorem getRecentMessages_reorders_document (limit : Z) (d : Doc) :
  Permutation (messages (fields (fst (getRecentMessages limit d))))
              (messages (fields d))
  /\ StronglySorted newestFirstOrder
       (messages (fields (fst (getRecentMessages limit d))))
  /\ getMessageCount (fst (getRecentMessages limit d)) = getMessageCount d
  /\ setMessages (messages (fields d)) (fields (fst (getRecentMessages limit d)))
     = fields d
  /\ isNew (fst (getRecentMessages limit d)) = isNew d.
Proof.
  unfold getRecentMessages, getMessageCount; simpl.
  split; [apply ChatControllerFacts.sort_perm|].
  split; [apply (SortFacts.sort_descending timestamp newestFirst);
          intros a b; reflexivity|].
  split; [apply Permutation_length, ChatControllerFacts.sort_perm|].
  split; [|reflexivity].
  destruct d as [[i t u ms a l c] n]; reflexivity.
Qed.

(** A successful [save] of a document whose log is not empty keeps
    the log, the owner, the id and the active flag, marks the
    document as stored and sets [lastMessageAt] to the timestamp of
    the last log entry; and that is the document the collection
    holds afterwards: appended when it was new, in the place of the
    stored one otherwise. *)
Theorem save_stamps_last_entry (now : Z) (d d' : Doc) (col col' : Collection)
    (l : list Message) (m : Message) :
  save now d col = (Normal d', col') ->
  messages (fields d) = (l ++ [m])%list ->
  messages (fields d') = (l ++ [m])%list
  /\ lastMessageAt (fields d') = timestamp m
  /\ _id (fields d') = _id (fields d)
  /\ userId (fields d') = userId (fields d)
  /\ isActive (fields d') = isActive (fields d)
  /\ isNew d' = false
  /\ (isNew d = true -> col' = (col ++ [fields d'])%list)
  /\ (isNew d = false -> col' = replaceById (fields d') col)
  /\ (isNew d = true \/ In (_id (fields d)) (ids col) ->
      In (fields d') col').
Proof.
  unfold save. destruct (validChat (fields d)); [|discriminate].
  intros H Hm.
  assert (fields (preSave d)
          = (if isNew d then
               match messages (fields d) with
               | firstMessage :: _ =>
                   if truthy (content firstMessage)
                   then setTitle (trim (titleFrom (content firstMessage)))
                          (setLastMessageAt (timestamp m) (fields d))
                   else setLastMessageAt (timestamp m) (fields d)
               | [] => setLastMessageAt (timestamp m) (fields d)
               end
             else setLastMessageAt (timestamp m) (fields d))) as Hpre.
  { unfold preSave. rewrite Hm, ChatControllerFacts.last_of_app. simpl.
    rewrite Hm. reflexivity. }
  assert (isNew (preSave d) = isNew d) as Hnew by reflexivity.
  cbv zeta in H. rewrite Hnew in H.
  assert (messages (fields (preSave d)) = (l ++ [m])%list
          /\ lastMessageAt (fields (preSave d)) = timestamp m
          /\ _id (fields (preSave d)) = _id (fields d)
          /\ userId (fields (preSave d)) = userId (fields d)
          /\ isActive (fields (preSave d)) = isActive (fields d)) as Hkeep.
  { rewrite Hpre. destruct (isNew d); [|simpl; rewrite Hm; repeat split].
    destruct (messages (fields d)) as [|f r] eqn:E;
      [destruct l; discriminate|].
    destruct (truthy (content f)); simpl; rewrite E, Hm; repeat split. }
  destruct Hkeep as (K1 & K2 & K3 & K4 & K5).
  assert (emptyLog (fields (preSave d)) = false) as Hlog.
  { unfold emptyLog. rewrite K1. destruct l; reflexivity. }
  destruct (isNew d) eqn:N.
  - assert (emptyLog (setCreatedAt now (fields (preSave d))) = false) as Hc
      by exact Hlog.
    rewrite Hc in H. injection H as <- <-. cbn [fields isNew].
    split; [exact K1|]. split; [exact K2|]. split; [exact K3|].
    split; [exact K4|]. split; [exact K5|]. split; [reflexivity|].
    split; [reflexivity|]. split; [discriminate|].
    intros _. apply in_or_app; right; left; reflexivity.
  - rewrite Hlog in H. injection H as <- <-.
    split; [exact K1|]. split; [exact K2|]. split; [exact K3|].
    split; [exact K4|]. split; [exact K5|]. split; [exact N|].
    split; [discriminate|]. split; [reflexivity|].
    intros [F|Hin]; [discriminate|].
    unfold ids in Hin. apply in_map_iff in Hin as (x & Hx & Hin).
    apply (ChatControllerFacts.replaceById_In _ x); [exact Hin|].
    rewrite K3. exact Hx.
Qed.

Lemma save_stamps_last_entry_witness :
  lastMessageAt (appended "Hello!" user Samples.firstStamp
                   (Samples.emptyChat 1 Samples.adaId true 5))
  = timestamp (mkMessage "Hello!" user 1000 "1000-aaaaaaaaa")
  /\ In (appended "Hello!" user Samples.firstStamp
           (Samples.emptyChat 1 Samples.adaId true 5))
        [appended "Hi" user Samples.secondStamp
           (Samples.emptyChat 2 Samples.bobId true 7);
         appended "Hello!" user Samples.firstStamp
           (Samples.emptyChat 1 Samples.adaId true 5)].
Proof.
  destruct (save_stamps_last_entry 7
              (addMessage "Hello!" user
                 (mkStamp "1000-aaaaaaaaa" 1000 4242)
                 (mkDoc (Samples.emptyChat 1 Samples.adaId true 5) false))
              (mkDoc (appended "Hello!" user Samples.firstStamp
                        (Samples.emptyChat 1 Samples.adaId true 5)) false)
              [appended "Hi" user Samples.secondStamp
                 (Samples.emptyChat 2 Samples.bobId true 7);
               Samples.emptyChat 1 Samples.adaId true 5]
              [appended "Hi" user Samples.secondStamp
                 (Samples.emptyChat 2 Samples.bobId true 7);
               appended "Hello!" user Samples.firstStamp
                 (Samples.emptyChat 1 Samples.adaId true 5)]
              [] (mkMessage "Hello!" user 1000 "1000-aaaaaaaaa"))
    as (_ & H2 & _ & _ & _ & _ & _ & _ & H9).
  - vm_compute; reflexivity.
  - vm_compute; reflexivity.
  - split; [exact H2|]. apply H9. right. right; left; reflexivity.
Defined.

End LogFacts.

(* ================================================================== *)
(** * More on the chat handlers *)
(* ================================================================== *)

Module ChatHandlerFacts.
Import Js ChatModel Http ChatController Notions MoreNotions.

(** ** The title of a chat made from a first message *)

Lemma trimEnd_app (s t : string) :
  trimEnd t = t -> t <> EmptyString -> trimEnd (s ++ t) = s ++ t.
Proof.
  intros Ht Hne. induction s as [|a s IH]; simpl; [exact Ht|].
  rewrite IH. destruct (s ++ t) eqn:E; [|reflexivity].
  exfalso. destruct s; simpl in E; [contradiction | discriminate].
Qed.

Lemma substring_all (n : nat) (s : string) :
  (String.length s <= n)%nat -> substring 0 n s = s.
Proof.
  revert s. induction n as [|n IH]; intros [|c s]; simpl; intros H;
    try reflexivity; try lia.
  rewrite IH; [reflexivity | lia].
Qed.

Lemma trimEnd_tail (c : ascii) (r : string) :
  isWhiteSpace c = false -> trimEnd (String c r) = String c r -> trimEnd r = r.
Proof.
  intros W H. rewrite (JsFacts.trimEnd_cons _ _ W) in H.
  injection H as H; exact H.
Qed.

Lemma titleFrom_trimmed (m : string) :
  trim m <> EmptyString -> trim (titleFrom (trim m)) = titleFrom (trim m).
Proof.
  intros Hne.
  pose proof (JsFacts.trim_idem m) as Hidem.
  destruct (trim m) as [|c r] eqn:E; [congruence|].
  pose proof (JsFacts.trim_head _ _ _ E) as W.
  assert (trimEnd r = r) as Hr.
  { apply (trimEnd_tail c r W).
    rewrite (JsFacts.trim_cons _ _ W) in Hidem.
    rewrite JsFacts.trimEnd_cons; exact W || exact Hidem. }
  unfold titleFrom.
  change (substring 0 50 (String c r)) with (String c (substring 0 49 r)).
  change (String c (substring 0 49 r) ++ ?x)
    with (String c (substring 0 49 r ++ x)).
  simpl String.length.
  destruct (50 <? S (String.length r))%nat eqn:L.
  - rewrite (JsFacts.trim_cons _ _ W).
    rewrite trimEnd_app; [reflexivity | reflexivity | discriminate].
  - apply Nat.ltb_ge in L.
    rewrite (substring_all 49 r) by lia.
    rewrite (JsFacts.trim_cons _ _ W).
    assert (r ++ EmptyString = r) as -> by (clear; induction r; simpl; congruence).
    rewrite Hr. reflexivity.
Qed.

(** A chat made from a first message that passed the guards is
    stored with that message as its only log entry and with the
    title cut from it: the trimmed message itself up to 50
    characters, otherwise its first 50 characters and three dots. *)
Theorem createNew_title (env : SendEnv) (owner m : string) (col : Collection) :
  trim m <> EmptyString -> (String.length m <= 5000)%nat ->
  exists d,
    createNew env owner (trim m) user col = (Normal d, (col ++ [fields d])%list)
    /\ messages (fields d) = [userEntry env m]
    /\ title (fields d) = titleFrom (trim m)
    /\ ((String.length (trim m) <= 50)%nat -> title (fields d) = trim m)
    /\ ((50 < String.length (trim m))%nat ->
        title (fields d) = substring 0 50 (trim m) ++ "...")
    /\ (String.length (title (fields d)) <= 53)%nat.
Proof.
  intros Hne Hlen.
  exists (mkDoc (withUserEntry env m (blank env owner m)) false).
  split; [apply ChatControllerFacts.createNew_saved; assumption|].
  split; [reflexivity|]. simpl.
  rewrite (titleFrom_trimmed m Hne).
  split; [reflexivity|]. split; [|split].
  - intros H. unfold titleFrom.
    apply Nat.ltb_ge in H. rewrite H.
    apply Nat.ltb_ge in H. rewrite (substring_all 50 _ H).
    clear. induction (trim m); simpl; congruence.
  - intros H. unfold titleFrom. apply Nat.ltb_lt in H. rewrite H. reflexivity.
  - apply ChatControllerFacts.titleFrom_length.
Qed.

Lemma createNew_title_witness :
  exists d,
    createNew (Samples.sendEnv (Samples.answering "Hi there")) Samples.adaId
      (trim "  Hello!  ") user []
    = (Normal d, ([] ++ [fields d])%list)
    /\ messages (fields d)
       = [userEntry (Samples.sendEnv (Samples.answering "Hi there")) "  Hello!  "]
    /\ title (fields d) = titleFrom (trim "  Hello!  ")
    /\ ((String.length (trim "  Hello!  ") <= 50)%nat ->
        title (fields d) = trim "  Hello!  ")
    /\ ((50 < String.length (trim "  Hello!  "))%nat ->
        title (fields d) = substring 0 50 (trim "  Hello!  ") ++ "...")
    /\ (String.length (title (fields d)) <= 53)%nat.
Proof.
  apply (createNew_title (Samples.sendEnv (Samples.answering "Hi there"))
           Samples.adaId "  Hello!  " []).
  - vm_compute; discriminate.
  - vm_compute; lia.
Defined.

(** ** What every save keeps *)

Lemma replaceById_Forall (P : Chat -> Prop) (c : Chat) (col : Collection) :
  P c -> Forall P col -> Forall P (replaceById c col).
Proof.
  intros Hc. induction 1 as [|x col Hx Hcol IH]; simpl; [constructor|].
  destruct (String.eqb (_id x) (_id c)); constructor; assumption.
Qed.

Lemma replaceById_ids (c : Chat) (col : Collection) :
  ids (replaceById c col) = ids col.
Proof.
  unfold ids. induction col as [|x col IH]; simpl; [reflexivity|].
  destruct (String.eqb_spec (_id x) (_id c)) as [E|N]; simpl;
    [rewrite E | rewrite IH]; reflexivity.
Qed.

Lemma replaceById_other (c x : Chat) (col : Collection) :
  In c col -> _id c <> _id x -> In c (replaceById x col).
Proof.
  induction col as [|y col IH]; simpl; [tauto|].
  intros [->|Hin] N.
  - destruct (String.eqb_spec (_id c) (_id x)); [contradiction | left; reflexivity].
  - destruct (String.eqb (_id y) (_id x)); right; [exact Hin | apply IH; assumption].
Qed.

Lemma preSave_id (d : Doc) : _id (fields (preSave d)) = _id (fields d).
Proof.
  unfold preSave.
  destruct (rev (messages (fields d))); destruct (isNew d); simpl;
    try reflexivity;
    match goal with
    | |- context [match ?l with _ => _ end] => destruct l; simpl; try reflexivity
    end;
    match goal with
    | |- context [truthy ?x] => destruct (truthy x); reflexivity
    end.
Qed.

Lemma preSave_valid (d : Doc) :
  validChat (fields d) = true -> firstTrimmed d ->
  validChat (fields (preSave d)) = true.
Proof.
  intros V T. unfold preSave.
  assert (forall t c, validChat (setLastMessageAt t c) = validChat c) as Hl
    by reflexivity.
  set (c1 := match rev (messages (fields d)) with
             | lastMessage :: _ => setLastMessageAt (timestamp lastMessage) (fields d)
             | [] => fields d
             end).
  assert (validChat c1 = true /\ messages c1 = messages (fields d)) as [V1 M1].
  { unfold c1. destruct (rev (messages (fields d))); split; auto. }
  simpl. destruct (isNew d) eqn:N; [|exact V1].
  fold c1. destruct (messages c1) as [|f r] eqn:E; [exact V1|].
  destruct (truthy (content f)) eqn:Tf; [|exact V1].
  symmetry in M1. specialize (T N f r M1).
  assert (trim (content f) <> EmptyString) as Hne.
  { rewrite T. apply JsFacts.truthy_true. exact Tf. }
  destruct (ChatControllerFacts.title_of_trimmed (content f) Hne) as [Ht Hlen].
  rewrite T in Ht, Hlen.
  unfold validChat in *. simpl. rewrite Ht.
  apply Nat.leb_le in Hlen. rewrite Hlen. simpl.
  apply andb_true_iff in V1 as [_ Vm]. exact Vm.
Qed.

Lemma save_valid (now : Z) (d : Doc) (col col' : Collection)
    (r : Completion Doc) :
  save now d col = (r, col') -> allValid col -> firstTrimmed d ->
  allValid col'
  /\ forall d', r = Normal d' ->
       validChat (fields d') = true /\ isNew d' = false
       /\ _id (fields d') = _id (fields d).
Proof.
  intros H Hcol T.
  pose proof (preSave_id d) as Ip.
  destruct (ChatControllerFacts.save_cases now d col)
    as [[e S]|[(N & V & S)|(N & V & S)]];
    rewrite S in H; injection H as <- <-.
  - split; [exact Hcol | discriminate].
  - pose proof (preSave_valid d V T) as Vp. split.
    + apply Forall_app; split; [exact Hcol|]. constructor; [exact Vp|constructor].
    + intros d' E; injection E as <-. simpl. repeat split; assumption.
  - pose proof (preSave_valid d V T) as Vp. split.
    + apply replaceById_Forall; assumption.
    + intros d' E; injection E as <-. repeat split; assumption.
Qed.

Lemma save_ids (now : Z) (d : Doc) (col col' : Collection)
    (r : Completion Doc) :
  save now d col = (r, col') ->
  ids col' = ids col
  \/ (isNew d = true /\ ids col' = (ids col ++ [_id (fields d)])%list).
Proof.
  intros H.
  destruct (ChatControllerFacts.save_cases now d col)
    as [[e S]|[(N & V & S)|(N & V & S)]];
    rewrite S in H; injection H as _ <-.
  - left; reflexivity.
  - right. split; [exact N|]. unfold ids. rewrite map_app.
    f_equal. cbn [map]. f_equal.
    change (_id (fields (preSave d)) = _id (fields d)). apply preSave_id.
  - left. apply replaceById_ids.
Qed.

Lemma save_other (now : Z) (d : Doc) (col : Collection) (c : Chat) :
  In c col -> _id c <> _id (fields d) -> In c (snd (save now d col)).
Proof.
  intros Hin N.
  destruct (ChatControllerFacts.save_cases now d col)
    as [[e S]|[(_ & _ & S)|(_ & _ & S)]]; rewrite S; cbn [snd].
  - exact Hin.
  - apply in_or_app; left; exact Hin.
  - apply replaceById_other; [exact Hin|]. rewrite preSave_id. exact N.
Qed.

Lemma firstTrimmed_stored (d : Doc) : isNew d = false -> firstTrimmed d.
Proof. intros H N. congruence. Qed.

Lemma firstTrimmed_addMessage (text : string) (who : Sender) (st : Stamp)
    (d : Doc) :
  messages (fields d) = [] -> firstTrimmed (addMessage text who st d).
Proof.
  intros E _ f r. unfold addMessage, onFields; simpl. rewrite E; simpl.
  intros H; injection H as <- _. simpl. apply JsFacts.trim_idem.
Qed.

(** ** What a request does to the collection *)

Lemma keeps_refl (i : string) (col : Collection) : keeps i col col.
Proof. split; auto. Qed.

Lemma keeps_trans (i : string) (col col1 col2 : Collection) :
  keeps i col col1 -> keeps i col1 col2 -> keeps i col col2.
Proof. intros [A1 B1] [A2 B2]. split; auto. Qed.

Lemma grows_refl (i : string) (col : Collection) : grows i col col.
Proof. left; reflexivity. Qed.

Lemma save_keeps (now : Z) (d : Doc) (col col' : Collection)
    (r : Completion Doc) :
  save now d col = (r, col') -> firstTrimmed d ->
  keeps (_id (fields d)) col col'.
Proof.
  intros H T. split.
  - intros c Hin N. change col' with (snd (r, col')). rewrite <- H.
    apply save_other; assumption.
  - intros V. exact (proj1 (save_valid _ _ _ _ _ H V T)).
Qed.

Lemma save_result (now : Z) (d d' : Doc) (col col' : Collection) :
  save now d col = (Normal d', col') ->
  isNew d' = false /\ _id (fields d') = _id (fields d).
Proof.
  intros H. pose proof (preSave_id d) as Ip.
  destruct (ChatControllerFacts.save_cases now d col)
    as [[e S]|[(N & _ & S)|(N & _ & S)]];
    rewrite S in H; [discriminate| |]; injection H as <- _.
  - split; [reflexivity | exact Ip].
  - split; assumption.
Qed.

Lemma save_stored_ids (now : Z) (d : Doc) (col col' : Collection)
    (r : Completion Doc) :
  save now d col = (r, col') -> isNew d = false -> ids col' = ids col.
Proof.
  intros H N. destruct (save_ids _ _ _ _ _ H) as [E|[E _]]; [exact E|congruence].
Qed.

Lemma createNew_keeps (env : SendEnv) (owner text : string)
    (col col1 : Collection) (r : Completion Doc) :
  createNew env owner (trim text) user col = (r, col1) ->
  keeps (newId env) col col1 /\ grows (newId env) col col1
  /\ forall d, r = Normal d -> isNew d = false /\ _id (fields d) = newId env.
Proof.
  unfold createNew, saveM. intros H. split; [|split].
  - apply (save_keeps _ _ _ _ _ H). apply firstTrimmed_addMessage. reflexivity.
  - destruct (save_ids _ _ _ _ _ H) as [E|[_ E]]; [left | right]; exact E.
  - intros d ->. apply (save_result _ _ _ _ _ H).
Qed.

Lemma resolveChat_keeps (env : SendEnv) (reqUser : UserModel.User)
    (m : string) (chatId : option string) (col col1 : Collection)
    (r : Completion (Response + Doc)) :
  resolveChat env reqUser m chatId col = (r, col1) ->
  exists i,
    (i = newId env \/ exists x, chatId = Some x /\ i = toLowerCase x)
    /\ keeps i col col1 /\ grows (newId env) col col1
    /\ forall d, r = Normal (inr d) -> isNew d = false /\ _id (fields d) = i.
Proof.
  assert (forall owner,
            bind (createNew env owner (trim m) user) (fun d => ret (inr d)) col
            = (r, col1) ->
            exists i,
              (i = newId env \/ exists x, chatId = Some x /\ i = toLowerCase x)
              /\ keeps i col col1 /\ grows (newId env) col col1
              /\ forall d, r = Normal (inr d) ->
                   isNew d = false /\ _id (fields d) = i) as Hnew.
  { intros owner. unfold bind.
    destruct (createNew env owner (trim m) user col) as [[d|e] c0] eqn:C;
      destruct (createNew_keeps _ _ _ _ _ _ C) as (K & G & Hd);
      intros H; injection H as <- <-; exists (newId env);
      (split; [left; reflexivity|]); (split; [exact K|]); (split; [exact G|]).
    - intros d0 E; injection E as <-. apply Hd; reflexivity.
    - discriminate. }
  unfold resolveChat. destruct chatId as [x|]; [|apply Hnew].
  destruct (truthy x); [|apply Hnew].
  destruct (isValidObjectId x); simpl.
  - unfold bind, findOneM.
    destruct (findOne (toLowerCase x) (UserModel._id reqUser) col) as [c|] eqn:F.
    + apply ChatControllerFacts.findOne_In in F as (Hin & Hid & _).
      unfold saveM.
      destruct (save (insertedAt env)
                  (addMessage (trim m) user (userStamp env) (mkDoc c false)) col)
        as [[d|e] c0] eqn:S;
        intros H; injection H as <- <-; exists (toLowerCase x);
        (split; [right; exists x; split; reflexivity|]);
        pose proof (save_keeps _ _ _ _ _ S
                      (firstTrimmed_stored
                         (addMessage (trim m) user (userStamp env) (mkDoc c false))
                         eq_refl)) as K;
        pose proof (save_stored_ids _ _ _ _ _ S eq_refl) as G;
        change (_id (fields (addMessage (trim m) user (userStamp env)
                               (mkDoc c false)))) with (_id c) in K;
        rewrite Hid in K;
        (split; [exact K|]); (split; [left; exact G|]).
      * intros d0 E; injection E as <-.
        destruct (save_result _ _ _ _ _ S) as [N I]. split; [exact N|].
        rewrite I. exact Hid.
      * discriminate.
    + intros H; injection H as <- <-. exists (newId env).
      split; [left; reflexivity|]. split; [apply keeps_refl|].
      split; [apply grows_refl | discriminate].
  - unfold throw. intros H; injection H as <- <-. exists (newId env).
    split; [left; reflexivity|]. split; [apply keeps_refl|].
    split; [apply grows_refl | discriminate].
Qed.

Lemma sendMessage_keeps (env : SendEnv) (reqUser : UserModel.User)
    (message chatId : option string) (col : Collection) :
  exists i,
    (i = newId env \/ exists x, chatId = Some x /\ i = toLowerCase x)
    /\ keeps i col (snd (sendMessage env reqUser message chatId col))
    /\ grows (newId env) col (snd (sendMessage env reqUser message chatId col)).
Proof.
  assert (exists i,
            (i = newId env \/ exists x, chatId = Some x /\ i = toLowerCase x)
            /\ keeps i col col /\ grows (newId env) col col) as Hsame.
  { exists (newId env). split; [left; reflexivity|].
    split; [apply keeps_refl | apply grows_refl]. }
  unfold sendMessage, tryCatch. destruct message as [m|]; [|exact Hsame].
  destruct (negb (truthy m) || (String.length (trim m) =? 0)%nat);
    [exact Hsame|].
  destruct (5000 <? String.length m)%nat; [exact Hsame|].
  unfold bind.
  destruct (resolveChat env reqUser m chatId col) as [[[resp|d]|e] col1] eqn:R;
    destruct (resolveChat_keeps _ _ _ _ _ _ _ R) as (i & Hi & K & G & Hd);
    exists i; (split; [exact Hi|]);
    try (split; [exact K | exact G]).
  destruct (Hd d eq_refl) as [N I].
  unfold saveM.
  match goal with
  | |- context [save ?now ?doc col1] =>
      destruct (save now doc col1) as [[d2|e] col2] eqn:S;
      pose proof (save_keeps _ _ _ _ _ S (firstTrimmed_stored doc N)) as K2;
      pose proof (save_stored_ids _ _ _ _ _ S N) as G2
  end;
    change (_id (fields (addMessage ?t ai (aiStamp env) d)))
      with (_id (fields d)) in K2;
    rewrite I in K2;
    assert (grows (newId env) col col2) as G'
      by (unfold grows in *; rewrite G2; exact G).
  - destruct (getRecentMessages 20 d2) as [chat recent]. simpl.
    split; [exact (keeps_trans _ _ _ _ K K2) | exact G'].
  - simpl. split; [exact (keeps_trans _ _ _ _ K K2) | exact G'].
Qed.

Lemma findOneAndUpdate_Forall (P : Chat -> Prop) (oid owner : string)
    (f : Chat -> Chat) (col : Collection) :
  (forall c, P c -> P (f c)) -> Forall P col ->
  Forall P (snd (findOneAndUpdate oid owner f col)).
Proof.
  intros Hf. induction 1 as [|x col Hx Hcol IH]; simpl; [constructor|].
  destruct (String.eqb (_id x) oid && String.eqb (userId x) owner); simpl.
  - constructor; auto.
  - destruct (findOneAndUpdate oid owner f col) as [r col'']; simpl in *.
    constructor; assumption.
Qed.

Lemma findOneAndUpdate_ids (oid owner : string) (f : Chat -> Chat)
    (col : Collection) :
  (forall c, _id (f c) = _id c) ->
  ids (snd (findOneAndUpdate oid owner f col)) = ids col.
Proof.
  intros Hf. unfold ids. induction col as [|x col IH]; simpl; [reflexivity|].
  destruct (String.eqb (_id x) oid && String.eqb (userId x) owner); simpl.
  - rewrite Hf. reflexivity.
  - destruct (findOneAndUpdate oid owner f col) as [r col'']; simpl in *.
    rewrite IH. reflexivity.
Qed.

Lemma deleteChat_snd (reqUser : UserModel.User) (chatId : string)
    (col : Collection) :
  snd (deleteChat reqUser chatId col) = col
  \/ exists oid,
       snd (deleteChat reqUser chatId col)
       = snd (findOneAndUpdate oid (UserModel._id reqUser)
                (setIsActive false) col).
Proof.
  unfold deleteChat, tryCatch, bind, castId, findOneAndUpdateM.
  destruct (castObjectId chatId) as [oid|]; simpl; [|left; reflexivity].
  right. exists oid.
  destruct (findOneAndUpdate oid (UserModel._id reqUser) (setIsActive false) col)
    as [[c|] col']; reflexivity.
Qed.

Lemma updateChatTitle_snd (reqUser : UserModel.User) (chatId : string)
    (ttl : option string) (col : Collection) :
  snd (updateChatTitle reqUser chatId ttl col) = col
  \/ exists oid t,
       ttl = Some t /\ trim t <> EmptyString /\ (String.length t <= 100)%nat
       /\ snd (updateChatTitle reqUser chatId ttl col)
          = snd (findOneAndUpdate oid (UserModel._id reqUser)
                   (setTitle (trim t)) col).
Proof.
  unfold updateChatTitle, tryCatch.
  destruct ttl as [t|]; [|left; reflexivity].
  destruct (negb (truthy t) || (String.length (trim t) =? 0)%nat) eqn:G1;
    [left; reflexivity|].
  destruct (100 <? String.length t)%nat eqn:G2; [left; reflexivity|].
  unfold bind, castId, findOneAndUpdateM.
  destruct (castObjectId chatId) as [oid|]; simpl; [|left; reflexivity].
  right. exists oid, t. split; [reflexivity|].
  apply orb_false_iff in G1 as [_ G1]. apply Nat.eqb_neq in G1.
  rewrite JsFacts.length_zero in G1. apply Nat.ltb_ge in G2.
  split; [exact G1|]. split; [exact G2|].
  destruct (findOneAndUpdate oid (UserModel._id reqUser) (setTitle (trim t)) col)
    as [[c|] col']; reflexivity.
Qed.

Lemma createNewChat_snd (env : NewChatEnv) (reqUser : UserModel.User)
    (ttl : option string) (col : Collection) :
  exists given,
    snd (createNewChat env reqUser ttl col)
    = snd (save (storedAt env)
             (newChat (freshId env) (UserModel._id reqUser) given (builtAt env))
             col).
Proof.
  unfold createNewChat, tryCatch, bind, saveM.
  match goal with
  | |- context [newChat _ _ ?g _] => exists g
  end.
  match goal with
  | |- context [save ?now ?doc col] =>
      destruct (save now doc col) as [[d|e] col']; reflexivity
  end.
Qed.

Lemma getChat_snd (reqUser : UserModel.User) (chatId : string)
    (queryLimit : option Z) (col : Collection) :
  snd (getChat reqUser chatId queryLimit col) = col.
Proof.
  unfold getChat, tryCatch, bind, castId, findOneM.
  destruct (castObjectId chatId) as [oid|]; simpl; [|reflexivity].
  destruct (findOne oid (UserModel._id reqUser) col) as [c|]; reflexivity.
Qed.

Lemma getChatHistory_snd (reqUser : UserModel.User)
    (queryLimit queryPage : option Z) (col : Collection) :
  snd (getChatHistory reqUser queryLimit queryPage col) = col.
Proof.
  unfold getChatHistory, tryCatch, bind, findPage, countDocuments, ret.
  destruct (100 <? orDefault queryLimit 20)%Z; [reflexivity|].
  destruct ((orDefault queryPage 1 - 1) * orDefault queryLimit 20 <? 0)%Z;
    reflexivity.
Qed.

(** Every chat handler keeps the collection valid: if every stored
    chat passes the schema's checks before a request to sendMessage,
    createNewChat, deleteChat or updateChatTitle, every stored chat
    passes them afterwards, whatever the request and its outcome. *)
Theorem chat_handlers_keep_validity (env : SendEnv) (nenv : NewChatEnv)
    (reqUser : UserModel.User) (message chatId ttl : option string)
    (pathId : string) (col : Collection) :
  allValid col ->
  allValid (snd (sendMessage env reqUser message chatId col))
  /\ allValid (snd (createNewChat nenv reqUser ttl col))
  /\ allValid (snd (deleteChat reqUser pathId col))
  /\ allValid (snd (updateChatTitle reqUser pathId ttl col)).
Proof.
  intros V. split; [|split; [|split]].
  - destruct (sendMessage_keeps env reqUser message chatId col)
      as (i & _ & [_ K] & _). exact (K V).
  - destruct (createNewChat_snd nenv reqUser ttl col) as [given ->].
    match goal with
    | |- context [save ?now ?doc col] =>
        destruct (save now doc col) as [r col'] eqn:S;
        refine (proj1 (save_valid _ _ _ _ _ S V _))
    end.
    intros _ f r0 E. discriminate E.
  - destruct (deleteChat_snd reqUser pathId col) as [->|[oid ->]]; [exact V|].
    apply findOneAndUpdate_Forall; [|exact V]. intros c Hc; exact Hc.
  - destruct (updateChatTitle_snd reqUser pathId ttl col)
      as [->|(oid & t & _ & Hne & Hlen & ->)]; [exact V|].
    apply findOneAndUpdate_Forall; [|exact V].
    intros c Hc. unfold validChat in *; simpl.
    apply andb_true_iff in Hc as [_ Hm]. rewrite Hm.
    apply JsFacts.truthy_true in Hne. rewrite Hne.
    pose proof (JsFacts.trim_length t) as L.
    assert ((String.length (trim t) <=? 100)%nat = true) as ->
      by (apply Nat.leb_le; lia).
    reflexivity.
Qed.

Lemma chat_handlers_keep_validity_witness :
  allValid (snd (sendMessage (Samples.sendEnv (Samples.answering "Hi there"))
                   Samples.ada (Some "Hello!") None
                   [Samples.emptyChat 1 Samples.adaId true 5]))
  /\ allValid (snd (createNewChat Samples.newChatEnv Samples.ada
                      (Some (Samples.replicate 101 "a"))
                      [Samples.emptyChat 1 Samples.adaId true 5]))
  /\ allValid (snd (deleteChat Samples.ada (Samples.chatIdOf 1)
                      [Samples.emptyChat 1 Samples.adaId true 5]))
  /\ allValid (snd (updateChatTitle Samples.ada (Samples.chatIdOf 1)
                      (Some (Samples.replicate 101 "a"))
                      [Samples.emptyChat 1 Samples.adaId true 5])).
Proof.
  apply (chat_handlers_keep_validity
           (Samples.sendEnv (Samples.answering "Hi there")) Samples.newChatEnv
           Samples.ada (Some "Hello!") None (Some (Samples.replicate 101 "a"))
           (Samples.chatIdOf 1) [Samples.emptyChat 1 Samples.adaId true 5]).
  constructor; [reflexivity | constructor].
Defined.

(** No chat handler removes a document or changes an [_id]:
    sendMessage and createNewChat leave the list of ids as it is or
    add the one fresh id of the request at its end; deleteChat and
    updateChatTitle leave the list of ids as it is; getChat and
    getChatHistory leave the whole collection as it is. *)
Theorem chat_handlers_keep_documents (env : SendEnv) (nenv : NewChatEnv)
    (reqUser : UserModel.User) (message chatId ttl : option string)
    (pathId : string) (queryLimit queryPage : option Z) (col : Collection) :
  grows (newId env) col (snd (sendMessage env reqUser message chatId col))
  /\ grows (freshId nenv) col (snd (createNewChat nenv reqUser ttl col))
  /\ ids (snd (deleteChat reqUser pathId col)) = ids col
  /\ ids (snd (updateChatTitle reqUser pathId ttl col)) = ids col
  /\ snd (getChat reqUser pathId queryLimit col) = col
  /\ snd (getChatHistory reqUser queryLimit queryPage col) = col.
Proof.
  split; [|split; [|split; [|split; [|split]]]].
  - destruct (sendMessage_keeps env reqUser message chatId col)
      as (i & _ & _ & G). exact G.
  - destruct (createNewChat_snd nenv reqUser ttl col) as [given ->].
    match goal with
    | |- context [save ?now ?doc col] =>
        destruct (save now doc col) as [r col'] eqn:S;
        destruct (save_ids _ _ _ _ _ S) as [E|[_ E]]
    end; [left | right]; exact E.
  - destruct (deleteChat_snd reqUser pathId col) as [->|[oid ->]];
      [reflexivity|].
    apply findOneAndUpdate_ids. reflexivity.
  - destruct (updateChatTitle_snd reqUser pathId ttl col)
      as [->|(oid & t & _ & _ & _ & ->)]; [reflexivity|].
    apply findOneAndUpdate_ids. reflexivity.
  - apply getChat_snd.
  - apply getChatHistory_snd.
Qed.

(** A send-message request leaves every other chat alone: a stored
    chat whose [_id] is neither the fresh id of the request nor the
    request's chatId is in the collection afterwards, unchanged. *)
Theorem sendMessage_leaves_other_chats (env : SendEnv)
    (reqUser : UserModel.User) (message chatId : option string)
    (col : Collection) (c : Chat) :
  In c col -> _id c <> newId env ->
  (forall x, chatId = Some x -> _id c <> toLowerCase x) ->
  In c (snd (sendMessage env reqUser message chatId col)).
Proof.
  intros Hin Hfresh Hother.
  destruct (sendMessage_keeps env reqUser message chatId col)
    as (i & Hi & [K _] & _).
  apply K; [exact Hin|].
  destruct Hi as [->|(x & E & ->)]; [exact Hfresh | exact (Hother x E)].
Qed.

Lemma sendMessage_leaves_other_chats_witness :
  In (Samples.startedChat 2 Samples.bobId true 7)
     (snd (sendMessage (Samples.sendEnv (Samples.answering "Hi there"))
             Samples.ada (Some "Hello!") (Some (Samples.chatIdOf 1))
             [Samples.emptyChat 1 Samples.adaId true 5;
              Samples.startedChat 2 Samples.bobId true 7])).
Proof.
  apply sendMessage_leaves_other_chats.
  - right; left; reflexivity.
  - vm_compute; discriminate.
  - intros x E; injection E as <-. vm_compute; discriminate.
Defined.

End ChatHandlerFacts.

(* ================================================================== *)
(** * Ownership, renaming and paging *)
(* ================================================================== *)

Module ChatAccessFacts.
Import Js ChatModel Http ChatController Notions MoreNotions.

(** ** Chats of other users *)

Lemma same_id_same_chat (col : Collection) (a b : Chat) :
  NoDup (ids col) -> In a col -> In b col -> _id a = _id b -> a = b.
Proof.
  unfold ids. induction col as [|x col IH]; simpl; [tauto|].
  intros Hnd Ha Hb E. inversion Hnd as [|? ? Hx Hnd']; subst.
  destruct Ha as [->|Ha]; destruct Hb as [->|Hb]; try reflexivity.
  - exfalso. apply Hx. rewrite E. apply in_map; exact Hb.
  - exfalso. apply Hx. rewrite <- E. apply in_map; exact Ha.
  - apply IH; assumption.
Qed.

Lemma findOne_foreign (oid owner : string) (col : Collection) (c : Chat) :
  NoDup (ids col) -> In c col -> _id c = oid -> userId c <> owner ->
  findOne oid owner col = None.
Proof.
  intros Hnd Hin Hid Hown.
  destruct (findOne oid owner col) as [x|] eqn:F; [|reflexivity].
  apply ChatControllerFacts.findOne_In in F as (Hx & Hxi & Hxo).
  exfalso. apply Hown.
  rewrite (same_id_same_chat col c x Hnd Hin Hx); [exact Hxo | congruence].
Qed.

Lemma findOneAndUpdate_none (oid owner : string) (f : Chat -> Chat)
    (col : Collection) :
  findOne oid owner col = None ->
  findOneAndUpdate oid owner f col = (None, col).
Proof.
  unfold findOne. induction col as [|x col IH]; simpl; [reflexivity|].
  destruct (String.eqb (_id x) oid && String.eqb (userId x) owner);
    [discriminate|].
  intros H. rewrite (IH H). reflexivity.
Qed.

Lemma isValidObjectId_truthy (s : string) :
  isValidObjectId s = true -> truthy s = true.
Proof. destruct s; [discriminate | reflexivity]. Qed.

(** A chat of another user is out of reach.  With unique [_id]s, a
    request that names, by a well-formed id, a stored chat the caller
    does not own is answered 404 by getChat and deleteChat and 400 or
    404 by sendMessage and updateChatTitle, never with success, and
    the collection stays as it was. *)
Theorem foreign_chat_out_of_reach (env : SendEnv) (reqUser : UserModel.User)
    (chatId : string) (message ttl : option string) (queryLimit : option Z)
    (col : Collection) (c : Chat) :
  NoDup (ids col) -> In c col ->
  isValidObjectId chatId = true -> _id c = toLowerCase chatId ->
  userId c <> UserModel._id reqUser ->
  getChat reqUser chatId queryLimit col
  = (mkResponse 404 (Failure "Chat not found or access denied"), col)
  /\ deleteChat reqUser chatId col
     = (mkResponse 404 (Failure "Chat not found or access denied"), col)
  /\ refused col (sendMessage env reqUser message (Some chatId) col)
  /\ refused col (updateChatTitle reqUser chatId ttl col).
Proof.
  intros Hnd Hin Hv Hid Hown.
  pose proof (findOne_foreign _ _ _ _ Hnd Hin Hid Hown) as F.
  assert (castObjectId chatId = Some (toLowerCase chatId)) as C
    by (unfold castObjectId; rewrite Hv; reflexivity).
  split; [|split; [|split]].
  - unfold getChat, tryCatch, bind, castId, findOneM.
    rewrite C; simpl. rewrite F. reflexivity.
  - unfold deleteChat, tryCatch, bind, castId, findOneAndUpdateM.
    rewrite C; simpl. rewrite (findOneAndUpdate_none _ _ _ _ F). reflexivity.
  - unfold refused, sendMessage, tryCatch.
    destruct message as [m|]; [|simpl; auto].
    destruct (negb (truthy m) || (String.length (trim m) =? 0)%nat);
      [simpl; auto|].
    destruct (5000 <? String.length m)%nat; [simpl; auto|].
    unfold bind, resolveChat.
    rewrite (isValidObjectId_truthy _ Hv), Hv; simpl.
    unfold bind, findOneM. rewrite F. simpl. auto.
  - unfold refused, updateChatTitle, tryCatch.
    destruct ttl as [t|]; [|simpl; auto].
    destruct (negb (truthy t) || (String.length (trim t) =? 0)%nat);
      [simpl; auto|].
    destruct (100 <? String.length t)%nat; [simpl; auto|].
    unfold bind, castId, findOneAndUpdateM. rewrite C; simpl.
    rewrite (findOneAndUpdate_none _ _ _ _ F). simpl. auto.
Qed.

Lemma foreign_chat_out_of_reach_witness :
  getChat Samples.ada (Samples.chatIdOf 2) None
    [Samples.emptyChat 2 Samples.bobId true 7]
  = (mkResponse 404 (Failure "Chat not found or access denied"),
     [Samples.emptyChat 2 Samples.bobId true 7])
  /\ deleteChat Samples.ada (Samples.chatIdOf 2)
       [Samples.emptyChat 2 Samples.bobId true 7]
     = (mkResponse 404 (Failure "Chat not found or access denied"),
        [Samples.emptyChat 2 Samples.bobId true 7])
  /\ refused [Samples.emptyChat 2 Samples.bobId true 7]
       (sendMessage (Samples.sendEnv (Samples.answering "Hi there"))
          Samples.ada (Some "Hello!") (Some (Samples.chatIdOf 2))
          [Samples.emptyChat 2 Samples.bobId true 7])
  /\ refused [Samples.emptyChat 2 Samples.bobId true 7]
       (updateChatTitle Samples.ada (Samples.chatIdOf 2) (Some "Mine now")
          [Samples.emptyChat 2 Samples.bobId true 7]).
Proof.
  apply (foreign_chat_out_of_reach
           (Samples.sendEnv (Samples.answering "Hi there")) Samples.ada
           (Samples.chatIdOf 2) (Some "Hello!") (Some "Mine now") None
           [Samples.emptyChat 2 Samples.bobId true 7]
           (Samples.emptyChat 2 Samples.bobId true 7)).
  - repeat constructor. simpl; tauto.
  - left; reflexivity.
  - reflexivity.
  - reflexivity.
  - vm_compute; discriminate.
Defined.

(** ** Renaming a chat *)

Lemma findOneAndUpdate_Forall2 (R : Chat -> Chat -> Prop) (oid owner : string)
    (f : Chat -> Chat) (col : Collection) :
  (forall c, R c c) -> (forall c, R c (f c)) ->
  Forall2 R col (snd (findOneAndUpdate oid owner f col)).
Proof.
  intros Hr Hf. induction col as [|x col IH]; simpl; [constructor|].
  destruct (String.eqb (_id x) oid && String.eqb (userId x) owner); simpl.
  - constructor; [apply Hf|]. clear IH. induction col; constructor; auto.
  - destruct (findOneAndUpdate oid owner f col) as [r col'']; simpl in *.
    constructor; [apply Hr | exact IH].
Qed.

Lemma findOneAndUpdate_both (oid owner : string) (f : Chat -> Chat)
    (col col' : Collection) (c' : Chat) :
  (forall c, _id (f c) = _id c /\ userId (f c) = userId c) ->
  findOneAndUpdate oid owner f col = (Some c', col') ->
  exists c, findOne oid owner col = Some c /\ c' = f c /\ _id c = oid
            /\ findOne oid owner col' = Some (f c).
Proof.
  intros Hf. unfold findOne. revert col'.
  induction col as [|x col IH]; intros col'; simpl; [discriminate|].
  destruct (String.eqb (_id x) oid && String.eqb (userId x) owner) eqn:E.
  - intros H; injection H as <- <-. exists x.
    split; [reflexivity|]. split; [reflexivity|].
    simpl. destruct (Hf x) as [-> ->]. rewrite E.
    apply andb_true_iff in E as [E _]. apply String.eqb_eq in E.
    split; [exact E | reflexivity].
  - destruct (findOneAndUpdate oid owner f col) as [r col''].
    intros H; injection H as -> <-.
    destruct (IH col'' eq_refl) as (c & H1 & H2 & H3 & H4).
    exists c. simpl. rewrite E. repeat split; assumption.
Qed.

Lemma updateChatTitle_ok (reqUser : UserModel.User) (chatId t : string)
    (col col' : Collection) (r : Response) :
  updateChatTitle reqUser chatId (Some t) col = (r, col') ->
  status r = 200%Z ->
  trim t <> EmptyString /\ (String.length t <= 100)%nat
  /\ castObjectId chatId = Some (toLowerCase chatId)
  /\ exists c',
       findOneAndUpdate (toLowerCase chatId) (UserModel._id reqUser)
         (setTitle (trim t)) col = (Some c', col')
       /\ r = mkResponse 200 (TitleUpdated (_id c') (title c')).
Proof.
  unfold updateChatTitle, tryCatch.
  destruct (negb (truthy t) || (String.length (trim t) =? 0)%nat) eqn:G1;
    [intros H; injection H as <- _; simpl; discriminate|].
  destruct (100 <? String.length t)%nat eqn:G2;
    [intros H; injection H as <- _; simpl; discriminate|].
  apply orb_false_iff in G1 as [_ G1]. apply Nat.eqb_neq in G1.
  rewrite JsFacts.length_zero in G1. apply Nat.ltb_ge in G2.
  unfold bind, castId, findOneAndUpdateM.
  destruct (castObjectId chatId) as [oid|] eqn:C; simpl.
  - pose proof (ChatControllerFacts.castObjectId_Some _ _ C) as ->.
    destruct (findOneAndUpdate (toLowerCase chatId) (UserModel._id reqUser)
                (setTitle (trim t)) col) as [[c'|] col''] eqn:F; simpl.
    + intros H _; injection H as <- <-.
      repeat split; try assumption. exists c'; split; reflexivity.
    + intros H; injection H as <- _; simpl; discriminate.
  - intros H; injection H as <- _; simpl; discriminate.
Qed.


(** ** Repeating a request *)

Lemma findOneAndUpdate_again (oid owner : string) (f : Chat -> Chat)
    (col : Collection) :
  (forall c, _id (f c) = _id c /\ userId (f c) = userId c) ->
  (forall c, f (f c) = f c) ->
  findOneAndUpdate oid owner f (snd (findOneAndUpdate oid owner f col))
  = findOneAndUpdate oid owner f col.
Proof.
  intros Hk Hf. induction col as [|x col IH]; simpl; [reflexivity|].
  destruct (String.eqb (_id x) oid && String.eqb (userId x) owner) eqn:E; simpl.
  - destruct (Hk x) as [-> ->]. rewrite E, Hf. reflexivity.
  - destruct (findOneAndUpdate oid owner f col) as [r col''] eqn:F; simpl in *.
    rewrite E, IH. reflexivity.
Qed.

(** ** One empty chat at a time *)

(** While some stored chat, of whatever user, has an empty log,
    createNewChat stores nothing and answers 500, whatever the
    title: the new chat would be a second document with the key null
    in the unique index on [messages.messageId]. *)
Theorem createNewChat_second_empty_chat (env : NewChatEnv)
    (reqUser : UserModel.User) (ttl : option string) (col : Collection) :
  existsb emptyLog col = true ->
  createNewChat env reqUser ttl col
  = (mkResponse 500 (Failure "Internal server error while creating new chat"),
     col).
Proof.
  intros H. unfold createNewChat, tryCatch, bind, saveM, save.
  match goal with
  | |- context [validChat ?c] => destruct (validChat c); [|reflexivity]
  end.
  cbv zeta.
  match goal with
  | |- context [isNew (preSave ?d)] =>
      assert (isNew (preSave d) = true) as -> by reflexivity;
      assert (emptyLog (setCreatedAt (storedAt env) (fields (preSave d))) = true)
        as -> by reflexivity
  end.
  rewrite H. reflexivity.
Qed.

Lemma createNewChat_second_empty_chat_witness :
  createNewChat Samples.newChatEnv Samples.ada (Some "Plans")
    [Samples.emptyChat 2 Samples.bobId true 7]
  = (mkResponse 500 (Failure "Internal server error while creating new chat"),
     [Samples.emptyChat 2 Samples.bobId true 7]).
Proof.
  apply (createNewChat_second_empty_chat Samples.newChatEnv Samples.ada
           (Some "Plans") [Samples.emptyChat 2 Samples.bobId true 7]).
  reflexivity.
Defined.

Lemma findOneAndUpdate_unmatched (oid owner : string) (f : Chat -> Chat)
    (col col' : Collection) :
  findOneAndUpdate oid owner f col = (None, col') -> col' = col.
Proof.
  revert col'. induction col as [|x col IH]; intros col'; simpl.
  - intros H; injection H as <-; reflexivity.
  - destruct (String.eqb (_id x) oid && String.eqb (userId x) owner);
      [discriminate|].
    destruct (findOneAndUpdate oid owner f col) as [r col''].
    intros H; injection H as -> <-. rewrite (IH col'' eq_refl). reflexivity.
Qed.

(** Deleting and renaming are idempotent: the same deleteChat or
    updateChatTitle request made a second time gets the same answer
    and leaves the collection as the first one left it.  A delete
    leaves the collection as it is or clears the [isActive] flag of
    one chat, every other chat and field staying as it was. *)
Theorem deleteChat_updateChatTitle_idempotent (reqUser : UserModel.User)
    (chatId : string) (ttl : option string) (col : Collection) :
  deleteChat reqUser chatId (snd (deleteChat reqUser chatId col))
  = deleteChat reqUser chatId col
  /\ updateChatTitle reqUser chatId ttl
       (snd (updateChatTitle reqUser chatId ttl col))
     = updateChatTitle reqUser chatId ttl col
  /\ (snd (deleteChat reqUser chatId col) = col
      \/ exists before c after,
           col = (before ++ c :: after)%list
           /\ snd (deleteChat reqUser chatId col)
              = (before ++ setIsActive false c :: after)%list).
Proof.
  split; [|split].
  - unfold deleteChat, tryCatch, bind, castId, findOneAndUpdateM.
    destruct (castObjectId chatId) as [oid|]; simpl; [|reflexivity].
    pose proof (findOneAndUpdate_again oid (UserModel._id reqUser)
                  (setIsActive false) col
                  (fun c => conj eq_refl eq_refl) (fun c => eq_refl)) as A.
    destruct (findOneAndUpdate oid (UserModel._id reqUser) (setIsActive false)
                col) as [[c|] col'] eqn:F; simpl in *; rewrite A; reflexivity.
  - unfold updateChatTitle, tryCatch.
    destruct ttl as [t|]; [|reflexivity].
    destruct (negb (truthy t) || (String.length (trim t) =? 0)%nat);
      [reflexivity|].
    destruct (100 <? String.length t)%nat; [reflexivity|].
    unfold bind, castId, findOneAndUpdateM.
    destruct (castObjectId chatId) as [oid|]; simpl; [|reflexivity].
    pose proof (findOneAndUpdate_again oid (UserModel._id reqUser)
                  (setTitle (trim t)) col
                  (fun c => conj eq_refl eq_refl) (fun c => eq_refl)) as A.
    destruct (findOneAndUpdate oid (UserModel._id reqUser) (setTitle (trim t))
                col) as [[c|] col'] eqn:F; simpl in *; rewrite A; reflexivity.
  - destruct (ChatHandlerFacts.deleteChat_snd reqUser chatId col)
      as [->|[oid ->]]; [left; reflexivity|].
    destruct (findOneAndUpdate oid (UserModel._id reqUser) (setIsActive false)
                col) as [[c'|] col'] eqn:F; cbn [snd].
    + right.
      destruct (ChatControllerFacts.findOneAndUpdate_found _ _ _ _ _ _
                  (ChatControllerFacts.setIsActive_keys false) F)
        as (l1 & c & l2 & E1 & E2 & _).
      exists l1, c, l2. split; assumption.
    + left. exact (findOneAndUpdate_unmatched _ _ _ _ _ F).
Qed.

(** ** The page arithmetic of the chat list *)

Lemma ceilDiv_bounds (a b : Z) :
  (0 < b)%Z -> ((ceilDiv a b - 1) * b < a <= ceilDiv a b * b)%Z.
Proof.
  intros Hb. unfold ceilDiv.
  pose proof (Z.div_mod (- a) b ltac:(lia)) as D.
  pose proof (Z.mod_pos_bound (- a) b Hb) as M.
  nia.
Qed.



End ChatAccessFacts.

(* ================================================================== *)
(** * The upstream request *)
(* ================================================================== *)

Module AiFacts.
Import Js ChatModel Http ChatController Notions MoreNotions.

Lemma string_app_assoc (s t u : string) : (s ++ t) ++ u = s ++ t ++ u.
Proof. induction s as [|c s IH]; simpl; congruence. Qed.

Lemma lastN_app_long {A : Type} (n : nat) (old recent : list A) :
  (n <= List.length recent)%nat ->
  AiService.lastN n (old ++ recent) = AiService.lastN n recent.
Proof.
  intros H. unfold AiService.lastN. rewrite length_app, skipn_app.
  rewrite (skipn_all2 old) by lia. simpl. f_equal. lia.
Qed.

Lemma lastN_snoc {A : Type} (n : nat) (l : list A) (e : A) :
  AiService.lastN (S n) (l ++ [e]) = (AiService.lastN n l ++ [e])%list.
Proof.
  unfold AiService.lastN. rewrite length_app, skipn_app. simpl List.length.
  replace (List.length l + 1 - S n)%nat with (List.length l - n)%nat by lia.
  replace (List.length l - n - List.length l)%nat with 0%nat by lia.
  reflexivity.
Qed.

Lemma blank_guard (m : string) :
  negb (truthy m) || (String.length (trim m) =? 0)%nat = true
  <-> trim m = EmptyString.
Proof.
  rewrite orb_true_iff, Nat.eqb_eq, JsFacts.length_zero. split.
  - intros [H|H]; [|exact H]. destruct m; [reflexivity | discriminate].
  - intros H; right; exact H.
Qed.

(** The reply depends on the upstream service only through its
    answer to the one request text. *)
Lemma generateAIResponse_ext (cfg : AiService.Config)
    (f g : string -> AiService.Exchange) (m : string) (h : list Message) :
  g (AiService.conversationText m h) = f (AiService.conversationText m h) ->
  AiService.generateAIResponse cfg g m h
  = AiService.generateAIResponse cfg f m h.
Proof. intros E. unfold AiService.generateAIResponse. rewrite E. reflexivity. Qed.

(** Only the last ten log entries reach the upstream service: log
    entries older than the last ten change neither the request text
    nor the reply. *)
Theorem generateAIResponse_history_window (cfg : AiService.Config)
    (fetch : string -> AiService.Exchange) (m : string)
    (old recent : list Message) :
  (10 <= List.length recent)%nat ->
  AiService.conversationText m (old ++ recent)
  = AiService.conversationText m recent
  /\ AiService.generateAIResponse cfg fetch m (old ++ recent)
     = AiService.generateAIResponse cfg fetch m recent.
Proof.
  intros H.
  assert (AiService.conversationText m (old ++ recent)
          = AiService.conversationText m recent) as E.
  { unfold AiService.conversationText. rewrite lastN_app_long by exact H.
    reflexivity. }
  split; [exact E|].
  unfold AiService.generateAIResponse. rewrite E. reflexivity.
Qed.

Lemma generateAIResponse_history_window_witness :
  AiService.conversationText "Hello!"
    ([mkMessage "long ago" user 1 "1-aaaaaaaaa"]
     ++ List.repeat (mkMessage "recently" ai 2 "2-bbbbbbbbb") 10)
  = AiService.conversationText "Hello!"
      (List.repeat (mkMessage "recently" ai 2 "2-bbbbbbbbb") 10)
  /\ AiService.generateAIResponse Samples.configured
       (Samples.answering "Hi there") "Hello!"
       ([mkMessage "long ago" user 1 "1-aaaaaaaaa"]
        ++ List.repeat (mkMessage "recently" ai 2 "2-bbbbbbbbb") 10)
     = AiService.generateAIResponse Samples.configured
         (Samples.answering "Hi there") "Hello!"
         (List.repeat (mkMessage "recently" ai 2 "2-bbbbbbbbb") 10).
Proof.
  apply (generateAIResponse_history_window Samples.configured
           (Samples.answering "Hi there") "Hello!"
           [mkMessage "long ago" user 1 "1-aaaaaaaaa"]
           (List.repeat (mkMessage "recently" ai 2 "2-bbbbbbbbb") 10)).
  simpl; lia.
Defined.

(** The reply reports success exactly when the key is configured,
    the message is not blank and the upstream service answered the
    request text with a 2xx status and a text; the content is then
    that text, unchanged.  An error is reported exactly when success
    is not. *)
Theorem generateAIResponse_success_iff (cfg : AiService.Config)
    (fetch : string -> AiService.Exchange) (m : string) (h : list Message) :
  (AiService.success (AiService.generateAIResponse cfg fetch m h) = true
   <-> AiService.checkSuccess (AiService.validateGeminiConfig cfg) = true
       /\ trim m <> EmptyString
       /\ exists st js text,
            fetch (AiService.conversationText m h)
            = AiService.Responded st (AiService.Parsed js (AiService.Text text))
            /\ (200 <= st <= 299)%Z
            /\ AiService.content (AiService.generateAIResponse cfg fetch m h)
               = text)
  /\ (AiService.success (AiService.generateAIResponse cfg fetch m h) = true
      <-> AiService.error (AiService.generateAIResponse cfg fetch m h) = None).
Proof.
  unfold AiService.generateAIResponse.
  destruct (AiService.checkSuccess (AiService.validateGeminiConfig cfg)) eqn:C;
    simpl negb; cbv iota.
  2:{ split; split; simpl; try discriminate. intros (X & _); discriminate. }
  destruct (negb (truthy m) || (String.length (trim m) =? 0)%nat) eqn:G.
  { apply blank_guard in G.
    split; split; simpl; try discriminate. intros (_ & X & _); contradiction. }
  assert (trim m <> EmptyString) as Hm.
  { intros E. apply blank_guard in E. congruence. }
  destruct (fetch (AiService.conversationText m h)) as [thrown|st body].
  { split; split; simpl; try discriminate.
    intros (_ & _ & ? & ? & ? & X & _); discriminate. }
  unfold AiService.ok.
  destruct (Z.leb_spec 200 st) as [L1|L1];
    destruct (Z.leb_spec st 299) as [L2|L2]; simpl andb; simpl negb; cbv iota.
  - destruct body as [thrown|js [|thrown|text]];
      split; split; simpl; try discriminate; try reflexivity;
      try (intros (_ & _ & ? & ? & ? & X & _); discriminate).
    intros _. split; [reflexivity|]. split; [exact Hm|].
    exists st, js, text. repeat split; assumption || reflexivity.
  - destruct (st =? 401)%Z; [|destruct (st =? 429)%Z; [|destruct (500 <=? st)%Z]];
      split; split; simpl; try discriminate;
      intros (_ & _ & ? & ? & ? & X & Y & _); injection X as <- _; lia.
  - destruct (st =? 401)%Z; [|destruct (st =? 429)%Z; [|destruct (500 <=? st)%Z]];
      split; split; simpl; try discriminate;
      intros (_ & _ & ? & ? & ? & X & Y & _); injection X as <- _; lia.
  - destruct (st =? 401)%Z; [|destruct (st =? 429)%Z; [|destruct (500 <=? st)%Z]];
      split; split; simpl; try discriminate;
      intros (_ & _ & ? & ? & ? & X & Y & _); injection X as <- _; lia.
Qed.

(** Without a usable key, or for a blank message, no request is
    made: the reply is the same whatever the upstream service would
    have answered, and it reports failure. *)
Theorem generateAIResponse_no_request (cfg : AiService.Config)
    (f g : string -> AiService.Exchange) (m : string) (h : list Message) :
  AiService.checkSuccess (AiService.validateGeminiConfig cfg) = false
  \/ trim m = EmptyString ->
  AiService.generateAIResponse cfg f m h = AiService.generateAIResponse cfg g m h
  /\ AiService.success (AiService.generateAIResponse cfg f m h) = false.
Proof.
  unfold AiService.generateAIResponse. intros [C|B].
  - rewrite C. split; reflexivity.
  - apply blank_guard in B. rewrite B.
    destruct (AiService.checkSuccess (AiService.validateGeminiConfig cfg));
      split; reflexivity.
Qed.

Lemma generateAIResponse_no_request_witness :
  AiService.generateAIResponse
    (AiService.mkConfig (Some "your-gemini-api-key-here"))
    (Samples.answering "Hi there") "Hello!" []
  = AiService.generateAIResponse
      (AiService.mkConfig (Some "your-gemini-api-key-here"))
      (fun _ => AiService.Rejected "fetch failed") "Hello!" []
  /\ AiService.success
       (AiService.generateAIResponse
          (AiService.mkConfig (Some "your-gemini-api-key-here"))
          (Samples.answering "Hi there") "Hello!" []) = false.
Proof.
  apply (generateAIResponse_no_request
           (AiService.mkConfig (Some "your-gemini-api-key-here"))
           (Samples.answering "Hi there")
           (fun _ => AiService.Rejected "fetch failed") "Hello!" []).
  left; reflexivity.
Defined.

(** ** What [sendMessage] sends upstream *)

Lemma save_messages (now : Z) (d d' : Doc) (col col' : Collection) :
  save now d col = (Normal d', col') ->
  messages (fields d') = messages (fields d).
Proof.
  intros H. pose proof (ChatControllerFacts.preSave_messages d) as P.
  destruct (ChatControllerFacts.save_cases now d col)
    as [[e S]|[(_ & _ & S)|(_ & _ & S)]];
    rewrite S in H; [discriminate| |]; injection H as <- _; exact P.
Qed.

Lemma conversationText_snoc (m : string) (l : list Message) (t : Z)
    (i : string) :
  closesTwice m
    (AiService.conversationText m (l ++ [mkMessage (trim m) user t i])).
Proof.
  unfold closesTwice, AiService.conversationText.
  change 10%nat with (S 9). rewrite lastN_snoc, fold_left_app.
  cbn [fold_left sender content].
  eexists. rewrite string_app_assoc. f_equal.
  simpl. rewrite string_app_assoc. reflexivity.
Qed.

Lemma resolveChat_log (env : SendEnv) (reqUser : UserModel.User)
    (m : string) (chatId : option string) (col col1 : Collection) (d : Doc) :
  resolveChat env reqUser m chatId col = (Normal (inr d), col1) ->
  exists l t i,
    messages (fields d) = (l ++ [mkMessage (trim m) user t i])%list.
Proof.
  assert (forall owner,
            bind (createNew env owner (trim m) user)
                 (fun d0 => ret (@inr Response Doc d0)) col
            = (Normal (inr d), col1) ->
            exists l t i,
              messages (fields d) = (l ++ [mkMessage (trim m) user t i])%list)
    as Hnew.
  { intros owner. unfold bind, createNew, saveM.
    match goal with
    | |- context [save ?now ?doc col] =>
        destruct (save now doc col) as [[d0|e] c0] eqn:S
    end; [|discriminate].
    intros H; injection H as <- _.
    rewrite (save_messages _ _ _ _ _ S).
    exists [], (stampTime (userStamp env)), (stampId (userStamp env)).
    simpl. rewrite JsFacts.trim_idem. reflexivity. }
  unfold resolveChat. destruct chatId as [x|]; [|apply Hnew].
  destruct (truthy x); [|apply Hnew].
  destruct (isValidObjectId x); simpl; [|discriminate].
  unfold bind, findOneM.
  destruct (findOne (toLowerCase x) (UserModel._id reqUser) col) as [c|];
    [|discriminate].
  unfold saveM.
  match goal with
  | |- context [save ?now ?doc col] =>
      destruct (save now doc col) as [[d0|e] c0] eqn:S
  end; [|discriminate].
  intros H; injection H as <- _.
  rewrite (save_messages _ _ _ _ _ S).
  exists (messages c), (stampTime (userStamp env)), (stampId (userStamp env)).
  simpl. rewrite JsFacts.trim_idem. reflexivity.
Qed.

(** One send-message request asks the upstream service at most one
    thing: there is a single request text such that the answer and
    the stored collection depend on the service only through its
    reply to that text.  The text closes with the user's message
    twice, as the last line of the history, where the message was
    stored before the call, and again as the final line. *)
Theorem sendMessage_asks_upstream_once (env : SendEnv)
    (reqUser : UserModel.User) (m : string) (chatId : option string)
    (col : Collection) :
  exists text,
    closesTwice m text
    /\ forall f, f text = fetch env text ->
         sendMessage (withFetch f env) reqUser (Some m) chatId col
         = sendMessage env reqUser (Some m) chatId col.
Proof.
  assert (closesTwice m
            (AiService.conversationText m [mkMessage (trim m) user 0 EmptyString]))
    as Hany by (apply (conversationText_snoc m [])).
  unfold sendMessage, tryCatch.
  destruct (negb (truthy m) || (String.length (trim m) =? 0)%nat);
    [eexists; split; [exact Hany | reflexivity]|].
  destruct (5000 <? String.length m)%nat;
    [eexists; split; [exact Hany | reflexivity]|].
  unfold bind.
  change (fun f => resolveChat (withFetch f env) reqUser m chatId col)
    with (fun _ : string -> AiService.Exchange =>
            resolveChat env reqUser m chatId col).
  destruct (resolveChat env reqUser m chatId col) as [[[resp|d]|e] col1] eqn:R.
  - eexists; split; [exact Hany|]. intros f _.
    change (resolveChat (withFetch f env) reqUser m chatId col)
      with (resolveChat env reqUser m chatId col).
    rewrite R. reflexivity.
  - destruct (resolveChat_log _ _ _ _ _ _ _ R) as (l & t & i & E).
    exists (AiService.conversationText m (messages (fields d))).
    split; [rewrite E; apply conversationText_snoc|].
    intros f Hf.
    change (resolveChat (withFetch f env) reqUser m chatId col)
      with (resolveChat env reqUser m chatId col).
    rewrite R. cbv beta iota.
    change (config (withFetch f env)) with (config env).
    change (fetch (withFetch f env)) with f.
    change (insertedAt (withFetch f env)) with (insertedAt env).
    change (aiStamp (withFetch f env)) with (aiStamp env).
    rewrite (generateAIResponse_ext (config env) (fetch env) f m _ Hf).
    reflexivity.
  - eexists; split; [exact Hany|]. intros f _.
    change (resolveChat (withFetch f env) reqUser m chatId col)
      with (resolveChat env reqUser m chatId col).
    rewrite R. reflexivity.
Qed.

End AiFacts.

(* ================================================================== *)
(** * The helper functions, the health checks and [duration] *)
(* ================================================================== *)

Module HelperFacts.
Import Js ChatModel ChatController Helpers Health Notions MoreNotions.

(** ** [sanitizeInput] *)

Lemma collapseFrom_spaced (b : bool) (s : string) :
  spacedFrom b (collapseFrom b s) = true.
Proof.
  revert b. induction s as [|c s IH]; intros b; simpl; [reflexivity|].
  destruct (isWhiteSpace c) eqn:W.
  - destruct b; [apply IH|]. simpl. apply IH.
  - simpl. rewrite W. apply IH.
Qed.

Lemma collapseFrom_head (b : bool) (c : ascii) (s : string) :
  isWhiteSpace c = false ->
  collapseFrom b (String c s) = String c (collapseFrom false s).
Proof. intros W. simpl. rewrite W. reflexivity. Qed.

Lemma collapseFrom_length (b : bool) (s : string) :
  (String.length (collapseFrom b s) <= String.length s)%nat.
Proof.
  revert b. induction s as [|c s IH]; intros b; simpl; [lia|].
  destruct (isWhiteSpace c); [destruct b|]; simpl;
    (pose proof (IH true); pose proof (IH false); lia).
Qed.

Lemma spacedFrom_prefix (n : nat) (b : bool) (s : string) :
  spacedFrom b s = true -> spacedFrom b (substring 0 n s) = true.
Proof.
  revert b s. induction n as [|n IH]; intros b [|c s]; simpl;
    try reflexivity.
  destruct (isWhiteSpace c).
  - intros H. apply andb_true_iff in H as [H1 H2]. rewrite H1. simpl.
    apply IH; exact H2.
  - apply IH.
Qed.

Lemma spacedFrom_weaken (s : string) :
  spacedFrom true s = true -> spacedFrom false s = true.
Proof.
  destruct s as [|c s]; simpl; [reflexivity|].
  destruct (isWhiteSpace c); [|auto].
  rewrite andb_false_r. discriminate.
Qed.

Lemma collapseSpaces_trim_spaced (s : string) :
  singleSpaced (collapseSpaces (trim s)) = true.
Proof.
  unfold singleSpaced, collapseSpaces.
  destruct (trim s) as [|c r] eqn:E; [reflexivity|].
  pose proof (JsFacts.trim_head _ _ _ E) as W.
  rewrite (collapseFrom_head false c r W).
  rewrite <- (collapseFrom_head true c r W). apply collapseFrom_spaced.
Qed.

(** What [sanitizeInput] returns has at most 1000 characters and
    is no longer than the input; it has no white space at its start,
    and further on only single plain spaces: no tab, line break or
    no-break space, and no two spaces in a row. *)
Theorem sanitizeInput_tidy (input : string) :
  (String.length (sanitizeInput input) <= 1000)%nat
  /\ (String.length (sanitizeInput input) <= String.length input)%nat
  /\ singleSpaced (sanitizeInput input) = true.
Proof.
  unfold sanitizeInput. split; [apply JsFacts.substring_length|]. split.
  - pose proof (JsFacts.trim_length input) as L1.
    pose proof (collapseFrom_length false (trim input)) as L2.
    unfold collapseSpaces.
    assert (forall n s, String.length (substring 0 n s) <= String.length s)%nat
      as L3.
    { induction n as [|n IH]; intros [|c s]; simpl; try lia.
      specialize (IH s); lia. }
    specialize (L3 1000%nat (collapseFrom false (trim input))). lia.
  - apply spacedFrom_prefix, collapseSpaces_trim_spaced.
Qed.

Lemma collapseFrom_fixed (b : bool) (s : string) :
  spacedFrom b s = true -> collapseFrom b s = s.
Proof.
  revert b. induction s as [|c s IH]; intros b; simpl; [reflexivity|].
  destruct (isWhiteSpace c).
  - intros H. apply andb_true_iff in H as [H1 H2].
    apply andb_true_iff in H1 as [H0 H1].
    apply Ascii.eqb_eq in H0. subst c.
    destruct b; [discriminate|]. rewrite (IH true H2). reflexivity.
  - intros H. rewrite (IH false H). reflexivity.
Qed.

Lemma collapseFrom_nonempty (b : bool) (t : string) :
  trimEnd t = t -> t <> EmptyString -> collapseFrom b t <> EmptyString.
Proof.
  revert b. induction t as [|c t IH]; intros b Ht Hne; [congruence|].
  simpl in *. destruct (trimEnd t) as [|d r] eqn:E.
  - destruct (isWhiteSpace c); [discriminate|discriminate].
  - injection Ht as Ht.
    assert (collapseFrom true t <> EmptyString) as N
      by (apply IH; [exact Ht | rewrite <- Ht; discriminate]).
    destruct (isWhiteSpace c); [destruct b|]; try discriminate. exact N.
Qed.

Lemma collapseFrom_trimEnd (b : bool) (t : string) :
  trimEnd t = t -> trimEnd (collapseFrom b t) = collapseFrom b t.
Proof.
  revert b. induction t as [|c t IH]; intros b Ht; [reflexivity|].
  simpl in Ht. destruct (trimEnd t) as [|d r] eqn:E.
  - destruct (isWhiteSpace c) eqn:W; [discriminate|].
    injection Ht as <-. simpl. rewrite W. simpl. rewrite W. reflexivity.
  - injection Ht as Ht.
    assert (trimEnd t = t) as Ht' by congruence.
    assert (t <> EmptyString) as Hne by (rewrite <- Ht; discriminate).
    assert (forall b' a, trimEnd (String a (collapseFrom b' t))
                         = String a (collapseFrom b' t)) as Hcons.
    { intros b' a. simpl. rewrite (IH b' Ht).
      pose proof (collapseFrom_nonempty b' t Ht' Hne) as N.
      destruct (collapseFrom b' t); [congruence | reflexivity]. }
    simpl. destruct (isWhiteSpace c); [destruct b|].
    + apply IH; exact Ht.
    + apply Hcons.
    + apply Hcons.
Qed.

Lemma trimEnd_trim (s : string) : trimEnd (trim s) = trim s.
Proof. unfold trim. apply JsFacts.trimEnd_idem. Qed.

(** On an input of at most 1000 characters [sanitizeInput] is
    idempotent, and its result is trimmed: sanitizing a second time
    changes nothing. *)
Theorem sanitizeInput_idempotent (input : string) :
  (String.length input <= 1000)%nat ->
  sanitizeInput (sanitizeInput input) = sanitizeInput input
  /\ trim (sanitizeInput input) = sanitizeInput input
  /\ sanitizeInput input = collapseSpaces (trim input).
Proof.
  intros Hlen. unfold sanitizeInput.
  pose proof (JsFacts.trim_length input) as L1.
  pose proof (collapseFrom_length false (trim input)) as L2.
  fold (collapseSpaces (trim input)) in L2.
  rewrite (ChatHandlerFacts.substring_all 1000 (collapseSpaces (trim input)))
    by lia.
  assert (trim (collapseSpaces (trim input)) = collapseSpaces (trim input)) as T.
  { pose proof (collapseSpaces_trim_spaced input) as S.
    pose proof (collapseFrom_trimEnd false (trim input) (trimEnd_trim input)) as E.
    fold (collapseSpaces (trim input)) in E.
    destruct (collapseSpaces (trim input)) as [|c r] eqn:X; [reflexivity|].
    assert (isWhiteSpace c = false) as W.
    { unfold singleSpaced in S. simpl in S.
      destruct (isWhiteSpace c); [|reflexivity].
      rewrite andb_false_r in S. discriminate S. }
    rewrite (JsFacts.trim_cons _ _ W).
    rewrite (JsFacts.trimEnd_cons _ _ W) in E. exact E. }
  split; [|split; [exact T | reflexivity]].
  rewrite T.
  assert (collapseSpaces (collapseSpaces (trim input))
          = collapseSpaces (trim input)) as C.
  { unfold collapseSpaces at 1. apply collapseFrom_fixed.
    apply spacedFrom_weaken, collapseSpaces_trim_spaced. }
  rewrite C. apply ChatHandlerFacts.substring_all. lia.
Qed.

Lemma sanitizeInput_idempotent_witness :
  sanitizeInput (sanitizeInput "  two   words ") = sanitizeInput "  two   words "
  /\ trim (sanitizeInput "  two   words ") = sanitizeInput "  two   words "
  /\ sanitizeInput "  two   words " = collapseSpaces (trim "  two   words ").
Proof.
  apply (sanitizeInput_idempotent "  two   words "). simpl; lia.
Defined.

(** ** [calculatePagination] *)

(** On whole numbers of magnitude at most 2^26 and with a [maxLimit]
    of at least 1, [calculatePagination] returns a page of at least
    1, a limit between 1 and [maxLimit] and the skip
    [(page - 1) * limit], which is not negative and stays below
    2^53; a page of at least 1 and a limit between 1 and [maxLimit]
    are returned as given, so that the result fed back in comes out
    unchanged. *)
Theorem calculatePagination_bounds (queryPage queryLimit : option Small)
    (maxLimit : Small) :
  (1 <= small maxLimit)%Z ->
  let r := calculatePagination queryPage queryLimit maxLimit in
  (1 <= page r)%Z /\ (1 <= limit r <= small maxLimit)%Z
  /\ (0 <= skip r < 2 ^ 53)%Z /\ skip r = ((page r - 1) * limit r)%Z
  /\ (forall p, queryPage = Some p -> (1 <= small p)%Z -> page r = small p)
  /\ (forall l, queryLimit = Some l -> (1 <= small l <= small maxLimit)%Z ->
                limit r = small l)
  /\ (forall p l, small p = page r -> small l = limit r ->
                  calculatePagination (Some p) (Some l) maxLimit = r).
Proof.
  intros Hmax r.
  assert (forall q : option Small, forall d : Z, (Z.abs d <= smallBound)%Z ->
            (Z.abs (orDefault (option_map small q) d) <= smallBound)%Z) as Hq.
  { intros [[z Hz]|] d Hd; simpl; [|exact Hd].
    apply Z.leb_le in Hz. destruct (z =? 0)%Z; assumption. }
  pose proof (Hq queryPage 1%Z ltac:(unfold smallBound; lia)) as Bp.
  pose proof (Hq queryLimit 20%Z ltac:(unfold smallBound; lia)) as Bl.
  destruct maxLimit as [mx Hmx]. simpl in Hmax.
  pose proof (proj1 (Z.leb_le _ _) Hmx) as Bm.
  unfold smallBound in Bp, Bl, Bm.
  assert (1 <= page r <= 67108864)%Z as Hp by (unfold r; simpl; lia).
  assert (1 <= limit r <= mx)%Z as Hl by (unfold r; simpl; lia).
  assert (skip r = ((page r - 1) * limit r)%Z) as Hs by reflexivity.
  split; [lia|]. split; [exact Hl|].
  split; [rewrite Hs; nia|]. split; [exact Hs|].
  split; [|split].
  - intros p -> H. unfold r; simpl.
    assert ((small p =? 0)%Z = false) as -> by (apply Z.eqb_neq; lia). lia.
  - intros l -> H. unfold r; simpl. simpl in H.
    assert ((small l =? 0)%Z = false) as -> by (apply Z.eqb_neq; lia). lia.
  - intros p l Ep El. unfold calculatePagination at 1. simpl option_map.
    unfold orDefault. rewrite Ep, El.
    assert ((page r =? 0)%Z = false) as -> by (apply Z.eqb_neq; lia).
    assert ((limit r =? 0)%Z = false) as -> by (apply Z.eqb_neq; lia).
    rewrite (Z.max_r 1 (page r)) by lia.
    rewrite (Z.max_r 1 (limit r)) by lia.
    simpl small. rewrite (Z.min_r mx (limit r)) by lia.
    unfold r. reflexivity.
Qed.

Lemma calculatePagination_bounds_witness :
  (1 <= page (calculatePagination (Some (mkSmall (-3) eq_refl))
                (Some (mkSmall 500 eq_refl)) (mkSmall 100 eq_refl)))%Z
  /\ (1 <= limit (calculatePagination (Some (mkSmall (-3) eq_refl))
                    (Some (mkSmall 500 eq_refl)) (mkSmall 100 eq_refl))
       <= 100)%Z.
Proof.
  destruct (calculatePagination_bounds (Some (mkSmall (-3) eq_refl))
              (Some (mkSmall 500 eq_refl)) (mkSmall 100 eq_refl))
    as (H1 & H2 & _).
  - simpl; lia.
  - split; [exact H1 | exact H2].
Defined.

(** ** The health checks *)

(** The AI health checks cannot pass.  The connection test reads a
    name that is bound nowhere, so it reports failure whatever the
    configuration; hence aiHealthCheck always answers 503
    "unhealthy" and detailedHealthCheck always answers 503
    "degraded", also with a usable key and a connected database.
    databaseHealthCheck answers 200 exactly when the connection's
    readyState is 1. *)
Theorem ai_health_checks_never_pass (cfg : AiService.Config) (readyState : Z) :
  probeSuccess (testOpenRouterConnection cfg) = false
  /\ probeSuccess getAvailableModels = false
  /\ code (aiHealthCheck cfg) = 503%Z
  /\ overall (aiHealthCheck cfg) = "unhealthy"
  /\ detailedCode (detailedHealthCheck cfg readyState) = 503%Z
  /\ detailedStatus (detailedHealthCheck cfg readyState) = "degraded"
  /\ (code (databaseHealthCheck readyState) = 200%Z <-> readyState = 1%Z).
Proof.
  assert (probeSuccess (testOpenRouterConnection cfg) = false) as P.
  { unfold testOpenRouterConnection.
    destruct (AiService.checkSuccess (AiService.validateGeminiConfig cfg));
      reflexivity. }
  split; [exact P|]. split; [reflexivity|].
  assert (aiHealthCheck cfg = mkReport 503 "unhealthy" "AI service not configured"
          \/ aiHealthCheck cfg
             = mkReport 503 "unhealthy" "AI service is not responding") as A.
  { unfold aiHealthCheck. rewrite P.
    destruct (AiService.checkSuccess (AiService.validateGeminiConfig cfg));
      [right | left]; reflexivity. }
  split; [destruct A as [-> | ->]; reflexivity|].
  split; [destruct A as [-> | ->]; reflexivity|].
  assert (forallb serviceHealthy
            [checkDatabaseHealth readyState;
             if AiService.checkSuccess (AiService.validateGeminiConfig cfg)
             then mkService None (Some true)
                    (Some (probeSuccess (testOpenRouterConnection cfg)))
                    (Some (AiService.checkMessage
                             (AiService.validateGeminiConfig cfg)))
             else mkService None (Some false) None
                    (Some (AiService.checkMessage
                             (AiService.validateGeminiConfig cfg)))] = false) as D.
  { rewrite P. simpl.
    destruct (AiService.checkSuccess (AiService.validateGeminiConfig cfg));
      simpl; rewrite !andb_false_r; reflexivity. }
  unfold detailedHealthCheck. cbv zeta. rewrite D.
  split; [reflexivity|]. split; [reflexivity|].
  unfold databaseHealthCheck, checkDatabaseHealth.
  destruct (Z.eqb_spec readyState 1) as [E|N]; simpl; split;
    intros H; try assumption; try reflexivity; try discriminate.
  contradiction.
Qed.

(** ** The virtual [duration] *)

(** [duration] reads "Just now" for less than an hour, also when the
    creation time lies ahead of the clock; from one hour to under a
    day it gives the whole hours, 1 to 23; from one day on it gives
    the whole days and no hours. *)
Theorem duration_ranges (now createdAt : Z) :
  let elapsed := (now - createdAt)%Z in
  ((elapsed < 3600000)%Z -> duration now (Some createdAt) = "Just now")
  /\ ((3600000 <= elapsed < 86400000)%Z ->
      duration now (Some createdAt) = ago (elapsed / 3600000) "hour"
      /\ (1 <= elapsed / 3600000 <= 23)%Z)
  /\ ((86400000 <= elapsed)%Z ->
      duration now (Some createdAt) = ago (elapsed / 86400000) "day"
      /\ (1 <= elapsed / 86400000)%Z).
Proof.
  intros elapsed. unfold duration. fold elapsed.
  change (1000 * 60 * 60 * 24)%Z with 86400000%Z.
  change (1000 * 60 * 60)%Z with 3600000%Z.
  split; [|split].
  - intros H.
    assert ((0 <? elapsed / 86400000)%Z = false) as ->.
    { apply Z.ltb_ge.
      assert (elapsed / 86400000 < 1)%Z
        by (apply Z.div_lt_upper_bound; lia). lia. }
    assert ((0 <? Z.rem elapsed 86400000 / 3600000)%Z = false) as ->;
      [|reflexivity].
    apply Z.ltb_ge.
    assert (Z.rem elapsed 86400000 < 3600000)%Z.
    { destruct (Z.le_gt_cases 0 elapsed) as [P|N].
      - rewrite Z.rem_small; lia.
      - pose proof (Z.rem_nonpos elapsed 86400000 ltac:(lia) ltac:(lia)). lia. }
    assert (Z.rem elapsed 86400000 / 3600000 < 1)%Z
      by (apply Z.div_lt_upper_bound; lia). lia.
  - intros H.
    assert (1 <= elapsed / 3600000 <= 23)%Z as B.
    { split; [apply Z.div_le_lower_bound; lia|].
      assert (elapsed / 3600000 < 24)%Z
        by (apply Z.div_lt_upper_bound; lia). lia. }
    split; [|exact B].
    assert ((0 <? elapsed / 86400000)%Z = false) as ->.
    { apply Z.ltb_ge. rewrite Z.div_small; lia. }
    rewrite Z.rem_small by lia.
    assert ((0 <? elapsed / 3600000)%Z = true) as -> by (apply Z.ltb_lt; lia).
    unfold ago. simpl. reflexivity.
  - intros H.
    assert (1 <= elapsed / 86400000)%Z as B
      by (apply Z.div_le_lower_bound; lia).
    split; [|exact B].
    assert ((0 <? elapsed / 86400000)%Z = true) as -> by (apply Z.ltb_lt; lia).
    unfold ago. simpl. reflexivity.
Qed.

Lemma duration_ranges_witness :
  duration 90000000 (Some 0%Z) = ago (90000000 / 86400000) "day"
  /\ (1 <= 90000000 / 86400000)%Z.
Proof.
  apply (proj2 (proj2 (duration_ranges 90000000 0))). simpl; lia.
Defined.

End HelperFacts.

(* ================================================================== *)
(** * Registration, login and the guarded routes *)
(* ================================================================== *)

Module AccountFacts.
Import Js Http AuthController Notions MoreNotions.

Lemma find_snoc {A : Type} (f : A -> bool) (l : list A) (x : A) :
  find f l = None -> f x = true -> find f (l ++ [x]) = Some x.
Proof.
  induction l as [|y l IH]; simpl; intros H Hx; [rewrite Hx; reflexivity|].
  destruct (f y); [discriminate | apply IH; assumption].
Qed.

Lemma existsb_emails (key : string) (col : UserModel.Collection) :
  existsb (fun x => String.eqb (UserModel.email x) key) col = false ->
  ~ In key (map UserModel.email col).
Proof.
  induction col as [|u col IH]; simpl; [tauto|].
  intros H. apply orb_false_iff in H as [H1 H2].
  apply String.eqb_neq in H1. intros [E|E]; [contradiction | exact (IH H2 E)].
Qed.

Section WithLibraries.
Context {B : UserModel.Bcrypt} {J : JsonWebToken.Lib}.
Variable cfg : Config.

(** What a registration does to the collection, case by case. *)
Lemma signup_cases (env : SignupEnv) (n e p : option string)
    (col : UserModel.Collection) :
  (snd (signup cfg env n e p col) = col
   /\ status (fst (signup cfg env n e p col)) <> 201%Z)
  \/ exists name address pw,
       n = Some name /\ e = Some address /\ p = Some pw
       /\ UserModel.emailRegex address = true
       /\ UserModel.findByEmail address col = None
       /\ UserModel.validUser
            (UserModel.newUser (newId env) (trim name)
               (trim (toLowerCase address)) pw) = true
       /\ ~ In (toLowerCase address) (map UserModel.email col)
       /\ signup cfg env n e p col
          = (let u := UserModel.mkUser (newId env) (trim name)
                        (toLowerCase address)
                        (UserModel.hash pw 12 (salt env)) in
             (mkResponse 201
                (Authenticated (UserModel.getPublicProfile u)
                   (generateToken cfg (issuedAt env) u)),
              (col ++ [u])%list)).
Proof.
  unfold signup, present.
  destruct n as [n|]; [destruct (truthy n)|];
    (destruct e as [e|]; [destruct (truthy e)|]);
    (destruct p as [p|]; [destruct (truthy p)|]);
    try (left; split; [reflexivity | simpl; discriminate]).
  destruct (UserModel.emailRegex e) eqn:R; simpl;
    [|left; split; [reflexivity | simpl; discriminate]].
  destruct (String.length p <? 6)%nat;
    [left; split; [reflexivity | simpl; discriminate]|].
  destruct (UserModel.findByEmail e col) eqn:F;
    [left; split; [reflexivity | simpl; discriminate]|].
  unfold UserModel.save.
  destruct (UserModel.validUser _) eqn:V;
    [|left; split; [reflexivity | simpl; discriminate]].
  pose proof (UserModelFacts.stored_email e R) as S.
  assert (UserModel.preSave (salt env)
            (UserModel.newUser (newId env) (trim n) (trim (toLowerCase e)) p)
          = UserModel.mkUser (newId env) (trim n) (toLowerCase e)
              (UserModel.hash p 12 (salt env))) as P.
  { unfold UserModel.preSave, UserModel.newUser, UserModel.setName. simpl.
    rewrite S, JsFacts.trim_idem. reflexivity. }
  cbv zeta. rewrite P. simpl UserModel.email.
  destruct (existsb _ col) eqn:X;
    [left; split; [reflexivity | simpl; discriminate]|].
  right. exists n, e, p.
  repeat (split; [reflexivity || assumption|]).
  split; [apply existsb_emails; exact X | reflexivity].
Qed.


(** Login after registration.  Once a registration has been answered
    201, a login with the same address in any letter case is
    answered 200 exactly when [bcrypt.compare] accepts the candidate
    against the hash stored by that registration, and then carries
    the profile of the registered user; otherwise it is answered
    401. *)
Theorem login_after_signup (env : SignupEnv) (now : Z)
    (name address pw address' candidate : string)
    (col : UserModel.Collection) :
  status (fst (signup cfg env (Some name) (Some address) (Some pw) col))
  = 201%Z ->
  toLowerCase address' = toLowerCase address ->
  candidate <> EmptyString ->
  let col1 := snd (signup cfg env (Some name) (Some address) (Some pw) col) in
  let u := UserModel.mkUser (newId env) (trim name) (toLowerCase address)
             (UserModel.hash pw 12 (salt env)) in
  login cfg now (Some address') (Some candidate) col1
  = (if UserModel.compare candidate (UserModel.hash pw 12 (salt env))
     then mkResponse 200
            (Authenticated
               (UserModel.mkProfile (newId env) (trim name) (toLowerCase address))
               (generateToken cfg now u))
     else mkResponse 401 (Failure "Invalid email or password")).
Proof.
  intros Hok Hcase Hcand col1 u.
  destruct (signup_cases env (Some name) (Some address) (Some pw) col)
    as [[_ Hno]|(n0 & a0 & p0 & En & Ea & Ep & R & F & V & Hnew & Hs)];
    [contradiction|].
  injection En as <-. injection Ea as <-. injection Ep as <-.
  unfold col1. rewrite Hs. cbv zeta. cbn [snd]. fold u.
  assert (truthy address' = true) as Ht.
  { rewrite <- UserModelFacts.truthy_toLowerCase, Hcase,
      UserModelFacts.truthy_toLowerCase.
    apply UserModelFacts.emailRegex_truthy; exact R. }
  unfold login, present. rewrite Ht.
  apply JsFacts.truthy_true in Hcand. rewrite Hcand.
  assert (UserModel.findByEmail address' (col ++ [u])%list = Some u) as ->.
  { unfold UserModel.findByEmail in *. rewrite Hcase.
    apply find_snoc; [exact F|].
    rewrite (UserModelFacts.lookup_email _ R). apply String.eqb_refl. }
  unfold UserModel.comparePassword. simpl UserModel.password.
  destruct (UserModel.compare candidate (UserModel.hash pw 12 (salt env)));
    reflexivity.
Qed.

(** A login is answered 200 only for a stored user whose address is
    the given one lower-cased and trimmed, as the query casts it,
    and whose stored hash [bcrypt.compare] accepts for the given
    password. *)
Theorem login_sound (now : Z) (e p : option string)
    (col : UserModel.Collection) :
  status (login cfg now e p col) = 200%Z ->
  exists address pw u,
    e = Some address /\ p = Some pw /\ In u col
    /\ UserModel.email u = UserModel.setEmail (toLowerCase address)
    /\ UserModel.compare pw (UserModel.password u) = true
    /\ login cfg now e p col
       = mkResponse 200
           (Authenticated (UserModel.getPublicProfile u)
                          (generateToken cfg now u)).
Proof.
  unfold login, present.
  destruct e as [e|]; [destruct (truthy e)|];
    (destruct p as [p|]; [destruct (truthy p)|]);
    try (simpl; discriminate).
  destruct (UserModel.findByEmail e col) as [u|] eqn:F; [|simpl; discriminate].
  unfold UserModel.comparePassword.
  destruct (UserModel.compare p (UserModel.password u)) eqn:C;
    [|simpl; discriminate].
  intros _. exists e, p, u.
  unfold UserModel.findByEmail in F. apply find_some in F as [Hin Hk].
  apply String.eqb_eq in Hk. repeat split; assumption || reflexivity.
Qed.

(** The middleware lets a request through only with a stored user
    named by a token that is the second word of the Authorization
    header, has three segments and was accepted by [jwt.verify]. *)
Lemma authenticateToken_next (now : Z) (authorization : option string)
    (col : UserModel.Collection) (reqUser : UserModel.User) :
  authenticateToken cfg now authorization col = Next reqUser ->
  exists header token decoded,
    authorization = Some header
    /\ nth_error (split " " header) 1 = Some token
    /\ segments token = 3%nat
    /\ JsonWebToken.verify token (JWT_SECRET cfg) now = Normal decoded
    /\ In reqUser col
    /\ UserModel._id reqUser = toLowerCase (JsonWebToken.id decoded).
Proof.
  unfold authenticateToken, present, bearerToken.
  destruct authorization as [header|]; [|discriminate].
  destruct (truthy header) eqn:Th.
  - destruct (nth_error (split " " header) 1) as [token|] eqn:N;
      [|discriminate].
    destruct (truthy token); [|discriminate].
    destruct (List.length (split "." token) =? 3)%nat eqn:L; [|discriminate].
    simpl negb. cbv iota.
    destruct (JsonWebToken.verify token (JWT_SECRET cfg) now) as [decoded|err]
      eqn:V; [|discriminate].
    unfold UserModel.findById.
    destruct (ChatModel.castObjectId (JsonWebToken.id decoded)) as [k|] eqn:C;
      [|discriminate].
    destruct (find (fun u => String.eqb (UserModel._id u) k) col) as [u|] eqn:F;
      [|discriminate].
    intros H; injection H as <-.
    apply find_some in F as [Hin Hk]. apply String.eqb_eq in Hk.
    apply ChatControllerFacts.castObjectId_Some in C.
    exists header, token, decoded. apply Nat.eqb_eq in L.
    repeat split; try assumption; try reflexivity. congruence.
  - rewrite Th. discriminate.
Qed.

Lemma tokenFailure_fails (e : Error) : success (tokenFailure e) = false.
Proof.
  unfold tokenFailure.
  destruct (String.eqb (errorName e) "JsonWebTokenError"); [reflexivity|].
  destruct (String.eqb (errorName e) "TokenExpiredError"); reflexivity.
Qed.

Lemma authenticateToken_respond (now : Z) (authorization : option string)
    (col : UserModel.Collection) (r : Response) :
  authenticateToken cfg now authorization col = Respond r ->
  success r = false.
Proof.
  unfold authenticateToken.
  destruct (present (bearerToken authorization)) as [token|];
    [|intros H; injection H as <-; reflexivity].
  destruct (negb (List.length (split "." token) =? 3)%nat);
    [intros H; injection H as <-; reflexivity|].
  destruct (JsonWebToken.verify token (JWT_SECRET cfg) now) as [decoded|e];
    [|intros H; injection H as <-; apply tokenFailure_fails].
  destruct (UserModel.findById (JsonWebToken.id decoded) col) as [[u|]|e];
    [discriminate | intros H; injection H as <-; reflexivity
     | intros H; injection H as <-; apply tokenFailure_fails].
Qed.

(** [authenticateToken] is sound, and it is the gate of every chat
    route: the middleware passes a request on only for a stored user
    whose id was decoded from a three-segment token that
    [jwt.verify] accepted; and a request on a chat route that is
    answered with success, or that changes the chats, carried such
    a token. *)
Theorem chat_routes_need_token (env : ChatRoutes.Env)
    (authorization : option string) (route : ChatRoutes.Route)
    (users : UserModel.Collection) (chats : ChatModel.Collection) :
  success (fst (ChatRoutes.router cfg env authorization route users chats))
  = true
  \/ snd (ChatRoutes.router cfg env authorization route users chats) <> chats ->
  exists header token decoded reqUser,
    authorization = Some header
    /\ nth_error (split " " header) 1 = Some token
    /\ segments token = 3%nat
    /\ JsonWebToken.verify token (JWT_SECRET cfg) (ChatRoutes.clock env)
       = Normal decoded
    /\ In reqUser users
    /\ UserModel._id reqUser = toLowerCase (JsonWebToken.id decoded)
    /\ ChatRoutes.router cfg env authorization route users chats
       = ChatRoutes.handler env route reqUser chats.
Proof.
  unfold ChatRoutes.router.
  destruct (authenticateToken cfg (ChatRoutes.clock env) authorization users)
    as [r|reqUser] eqn:A.
  - intros [H|H]; [|exfalso; apply H; reflexivity].
    cbn [fst] in H.
    rewrite (authenticateToken_respond _ _ _ _ A) in H. discriminate H.
  - intros _.
    destruct (authenticateToken_next _ _ _ _ A)
      as (header & token & decoded & H1 & H2 & H3 & H4 & H5 & H6).
    exists header, token, decoded, reqUser.
    repeat split; assumption || reflexivity.
Qed.

End WithLibraries.


Lemma login_after_signup_witness :
  login (B := Samples.standInBcrypt) (J := Samples.standInJwt) defaultConfig
    9000 (Some "BOB@x.com") (Some "hunter22")
    (snd (signup (B := Samples.standInBcrypt) (J := Samples.standInJwt)
            defaultConfig
            (mkSignupEnv Samples.bobId "vutsrqponmlkjihgfedcba" 5000)
            (Some " Bob ") (Some "Bob@X.com") (Some "hunter22")
            [Samples.ada]))
  = (if UserModel.compare (Bcrypt := Samples.standInBcrypt) "hunter22"
          (UserModel.hash (Bcrypt := Samples.standInBcrypt) "hunter22" 12
             "vutsrqponmlkjihgfedcba")
     then mkResponse 200
            (Authenticated
               (UserModel.mkProfile Samples.bobId (trim " Bob ")
                  (toLowerCase "Bob@X.com"))
               (generateToken (J := Samples.standInJwt) defaultConfig 9000
                  (UserModel.mkUser Samples.bobId (trim " Bob ")
                     (toLowerCase "Bob@X.com")
                     (UserModel.hash (Bcrypt := Samples.standInBcrypt)
                        "hunter22" 12 "vutsrqponmlkjihgfedcba"))))
     else mkResponse 401 (Failure "Invalid email or password")).
Proof.
  apply (login_after_signup (B := Samples.standInBcrypt)
           (J := Samples.standInJwt) defaultConfig
           (mkSignupEnv Samples.bobId "vutsrqponmlkjihgfedcba" 5000) 9000
           " Bob " "Bob@X.com" "hunter22" "BOB@x.com" "hunter22" [Samples.ada]).
  - vm_compute; reflexivity.
  - vm_compute; reflexivity.
  - discriminate.
Defined.

Lemma login_sound_witness :
  exists address pw u,
    Some "ADA@x.com" = Some address /\ Some "secret1" = Some pw
    /\ In u [Samples.ada]
    /\ UserModel.email u = UserModel.setEmail (toLowerCase address)
    /\ UserModel.compare (Bcrypt := Samples.standInBcrypt) pw
         (UserModel.password u) = true
    /\ login (B := Samples.standInBcrypt) (J := Samples.standInJwt)
         defaultConfig 9000 (Some "ADA@x.com") (Some "secret1") [Samples.ada]
       = mkResponse 200
           (Authenticated (UserModel.getPublicProfile u)
              (generateToken (J := Samples.standInJwt) defaultConfig 9000 u)).
Proof.
  apply (login_sound (B := Samples.standInBcrypt) (J := Samples.standInJwt)
           defaultConfig 9000 (Some "ADA@x.com") (Some "secret1")
           [Samples.ada]).
  vm_compute; reflexivity.
Defined.

Lemma chat_routes_need_token_witness :
  exists header token decoded reqUser,
    Some "Bearer jwt.650000000000000000000001_604800.262241" = Some header
    /\ nth_error (split " " header) 1 = Some token
    /\ segments token = 3%nat
    /\ JsonWebToken.verify (Lib := Samples.standInJwt) token
         (JWT_SECRET defaultConfig) 1000 = Normal decoded
    /\ In reqUser [Samples.ada]
    /\ UserModel._id reqUser = toLowerCase (JsonWebToken.id decoded)
    /\ ChatRoutes.router (J := Samples.standInJwt) defaultConfig
         (ChatRoutes.mkEnv 1000 (Samples.sendEnv (Samples.answering "Hi there"))
            Samples.newChatEnv)
         (Some "Bearer jwt.650000000000000000000001_604800.262241")
         (ChatRoutes.PostNew None) [Samples.ada] []
       = ChatRoutes.handler
           (ChatRoutes.mkEnv 1000 (Samples.sendEnv (Samples.answering "Hi there"))
              Samples.newChatEnv)
           (ChatRoutes.PostNew None) reqUser [].
Proof.
  apply (chat_routes_need_token (J := Samples.standInJwt) defaultConfig
           (ChatRoutes.mkEnv 1000 (Samples.sendEnv (Samples.answering "Hi there"))
              Samples.newChatEnv)
           (Some "Bearer jwt.650000000000000000000001_604800.262241")
           (ChatRoutes.PostNew None) [Samples.ada] []).
  left. vm_compute; reflexivity.
Defined.

End AccountFacts.

(* ================================================================== *)
(** * The address pattern *)
(* ================================================================== *)

Module PatternFacts.
Import Js UserModel Notions MoreNotions.

Lemma hasDotBeforeLast_length (s : string) :
  hasDotBeforeLast s = true -> (2 <= String.length s)%nat.
Proof.
  destruct s as [|c [|d r]]; simpl; try discriminate. intros _; lia.
Qed.

(** An address the pattern accepts, the same pattern in the
    registration handler, the user schema and [isValidEmail], has
    exactly one at-sign, no white space, hence nothing to trim, and
    at least five characters; and the pattern accepts every string
    that differs from it in letter case only. *)
Theorem emailRegex_shape (e : string) :
  emailRegex e = true ->
  List.length (split "@" e) = 2%nat
  /\ noSpace e = true /\ trim e = e
  /\ (5 <= String.length e)%nat
  /\ (forall e', toLowerCase e' = toLowerCase e -> emailRegex e' = true).
Proof.
  intros R.
  pose proof (UserModelFacts.emailRegex_noSpace e R) as N.
  split; [|split; [exact N|split; [apply UserModelFacts.noSpace_trim; exact N|]]].
  - unfold emailRegex in R.
    destruct (split "@" e) as [|l [|d [|x xs]]]; try discriminate. reflexivity.
  - split.
    2:{ intros e' E.
        rewrite <- UserModelFacts.emailRegex_toLowerCase, E,
          UserModelFacts.emailRegex_toLowerCase. exact R. }
    unfold emailRegex in R.
    destruct (split "@" e) as [|l [|d [|x xs]]] eqn:S; try discriminate.
    apply UserModelFacts.split_two in S. subst e.
    repeat (apply andb_true_iff in R as [R ?]).
    destruct d as [|c rest]; [discriminate|].
    match goal with
    | H : hasDotBeforeLast rest = true |- _ =>
        apply hasDotBeforeLast_length in H
    end.
    destruct l as [|a l]; [discriminate|].
    rewrite JsFacts.length_append. simpl. lia.
Qed.

Lemma emailRegex_shape_witness :
  List.length (split "@" "Ada@X.com") = 2%nat
  /\ noSpace "Ada@X.com" = true /\ trim "Ada@X.com" = "Ada@X.com"
  /\ (5 <= String.length "Ada@X.com")%nat
  /\ (forall e', toLowerCase e' = toLowerCase "Ada@X.com" ->
                 emailRegex e' = true).
Proof.
  apply (emailRegex_shape "Ada@X.com"). reflexivity.
Defined.

End PatternFacts.
